(** * 3dCityDashBoard: enrichment, filter engine and query parser

    A shallow embedding of the Python backend
    ([backend/app.py], [backend/services/llm.py],
    [backend/services/data_fetch.py], [backend/models.py]) and the
    properties of it that the specification states.

    Conventions of the embedding.
    - A Python value is a [pyval]; a [dict] is an association list in
      insertion order with string keys (the JSON objects the backend handles).
    - A Python [float] is a binary64 primitive float: the arithmetic,
      comparisons and roundings are the IEEE ones the interpreter performs.
    - A Python [str] is a [string] of 8-bit characters: the embedding covers
      ASCII text ([lower], the character classes of [re] and the whitespace
      of [float] are the ASCII ones).
    - A computation that may raise returns an [exn]: [Ret v] or [Raise kind],
      [kind] being the name of the exception class.
    - Shapely, the [json] module, the remote text-generation client and the
      HTTP client are outside the repository: they are taken as interfaces
      ([Shapely.Lib], [Llm.Services], [Fetch.Http]), and the theorems hold for
      every implementation of them. *)

From Stdlib Require Import ZArith List String Ascii Bool Lia Floats.
From Stdlib Require Import DecimalString.
Import ListNotations.

Set Warnings "-inexact-float,-register-all".

Local Open Scope string_scope.
Local Open Scope Z_scope.

(* ================================================================== *)
(** * Results that may raise *)

Inductive exn (A : Type) : Type :=
| Ret (a : A)
| Raise (kind : string).
Arguments Ret {A} a.
Arguments Raise {A} kind.

Definition bind {A B : Type} (c : exn A) (k : A -> exn B) : exn B :=
  match c with
  | Ret a => k a
  | Raise e => Raise e
  end.

Notation "x <- c ;; k" := (bind c (fun x => k))
  (at level 61, c at next level, right associativity).

(** [try: c except Exception: h] *)
Definition try_except {A : Type} (c : exn A) (h : string -> A) : A :=
  match c with
  | Ret a => a
  | Raise e => h e
  end.

Definition returns {A : Type} (c : exn A) : bool :=
  match c with Ret _ => true | Raise _ => false end.

(* ================================================================== *)
(** * Python values and built-ins *)

Module Py.

Inductive pyval : Type :=
| PNone
| PBool (b : bool)
| PInt (z : Z)
| PFloat (f : float)
| PStr (s : string)
| PList (l : list pyval)
| PDict (d : list (string * pyval)).

Definition dict := list (string * pyval).

(** ** Characters and strings *)

Definition dquote : ascii := ascii_of_nat 34.
Definition squote : ascii := ascii_of_nat 39.
Definition backslash : ascii := ascii_of_nat 92.

Definition chr_between (lo hi : nat) (c : ascii) : bool :=
  (Nat.leb lo (nat_of_ascii c) && Nat.leb (nat_of_ascii c) hi)%bool.

Definition is_digit : ascii -> bool := chr_between 48 57.
Definition is_upper : ascii -> bool := chr_between 65 90.
Definition is_lower : ascii -> bool := chr_between 97 122.
(** [\s] and [str.isspace]: space, [\t], [\n], [\v], [\f], [\r] and the
    separators 28 to 31 *)
Definition is_space (c : ascii) : bool :=
  (Nat.eqb (nat_of_ascii c) 32 || chr_between 9 13 c || chr_between 28 31 c)%bool.
(** The white space that [float] skips around a number in an ASCII [str]:
    space, [\t], [\n], [\v], [\f] and [\r] only, not the separators *)
Definition is_float_space (c : ascii) : bool :=
  (Nat.eqb (nat_of_ascii c) 32 || chr_between 9 13 c)%bool.
(** [\w]: letters, digits and the underscore *)
Definition is_word (c : ascii) : bool :=
  (is_digit c || is_upper c || is_lower c || Nat.eqb (nat_of_ascii c) 95)%bool.

Definition lower_chr (c : ascii) : ascii :=
  if is_upper c then ascii_of_nat (nat_of_ascii c + 32) else c.

(** [s.lower()] *)
Fixpoint lower (s : string) : string :=
  match s with
  | EmptyString => EmptyString
  | String c t => String (lower_chr c) (lower t)
  end.

(** [needle in hay] on strings *)
Fixpoint str_in (needle hay : string) : bool :=
  (String.prefix needle hay ||
   match hay with
   | EmptyString => false
   | String _ t => str_in needle t
   end)%bool.

(** [x in l] for a string [x] and a list of strings [l] *)
Definition str_in_list (x : string) (l : list string) : bool :=
  existsb (String.eqb x) l.

(** [s.replace(",", "")] *)
Fixpoint remove_commas (s : string) : string :=
  match s with
  | EmptyString => EmptyString
  | String c t =>
      if Ascii.eqb c ","%char then remove_commas t else String c (remove_commas t)
  end.

(** ** Dictionaries *)

(** [k in d], [d[k]] ([None] is [KeyError]) *)
Fixpoint dict_find (d : dict) (k : string) : option pyval :=
  match d with
  | [] => None
  | (k', v) :: t => if String.eqb k k' then Some v else dict_find t k
  end.

(** [d.get(k)] *)
Definition dict_get (d : dict) (k : string) : pyval :=
  match dict_find d k with
  | Some v => v
  | None => PNone
  end.

(** [d[k]] *)
Definition dict_item (d : dict) (k : string) : exn pyval :=
  match dict_find d k with
  | Some v => Ret v
  | None => Raise "KeyError"
  end.

(** [d[k] = v]: an existing key keeps its place, a new one goes last *)
Fixpoint dict_set (d : dict) (k : string) (v : pyval) : dict :=
  match d with
  | [] => [(k, v)]
  | (k', v') :: t =>
      if String.eqb k k' then (k, v) :: t else (k', v') :: dict_set t k v
  end.

(** [l[i]] for [0 <= i] *)
Definition list_item {A : Type} (l : list A) (i : nat) : exn A :=
  match nth_error l i with
  | Some a => Ret a
  | None => Raise "IndexError"
  end.

(** ** Truth values: [bool(v)] *)

Definition truthy (v : pyval) : bool :=
  match v with
  | PNone => false
  | PBool b => b
  | PInt z => negb (z =? 0)
  | PFloat f => negb (PrimFloat.eqb f 0)%float
  | PStr s => negb (String.eqb s "")
  | PList l => match l with [] => false | _ => true end
  | PDict d => match d with [] => false | _ => true end
  end.

(** [a or b] *)
Definition py_or (a b : pyval) : pyval := if truthy a then a else b.

(** ** Floats

    The exact value of a finite float is [m * 2^e] ([Prim2SF]); the
    conversions below compute on it with integers. *)

(** Nearest integer to [n / d] ([0 <= n], [0 < d]), ties to the even one *)
Definition div_half_even (n d : Z) : Z :=
  let q := n / d in
  match (2 * (n mod d)) ?= d with
  | Lt => q
  | Gt => q + 1
  | Eq => if Z.even q then q else q + 1
  end.

(** The float nearest to [(-1)^s * n * 10^e10] ([0 <= n]), ties to even: the
    correctly rounded decimal-to-binary conversion of [strtod]. For a negative
    [e10] the quotient is taken with at least 64 significant bits and a sticky
    last bit, so that the single rounding of [binary_normalize] is exact. *)
Definition dec_to_float (s : bool) (n e10 : Z) : float :=
  if n =? 0 then (if s then neg_zero else zero)
  else if 0 <=? e10 then
    SF2Prim (binary_normalize prec emax (cond_Zopp s (n * 10 ^ e10)) 0 s)
  else
    let d := 10 ^ (- e10) in
    let sh := Z.max 0 (Z.log2 d - Z.log2 n + 64) in
    let q := (n * 2 ^ sh) / d in
    let sticky := if (n * 2 ^ sh) mod d =? 0 then 0 else 1 in
    SF2Prim (binary_normalize prec emax (cond_Zopp s (2 * q + sticky)) (- sh - 1) s).

(** [float(z)] for an [int] *)
Definition float_of_Z (z : Z) : exn float :=
  let f := SF2Prim (binary_normalize prec emax z 0 false) in
  if is_infinity f then Raise "OverflowError" else Ret f.

(** [int(f)]: truncation towards zero *)
Definition int_of_float (f : float) : exn Z :=
  match Prim2SF f with
  | S754_nan => Raise "ValueError"
  | S754_infinity _ => Raise "OverflowError"
  | S754_zero _ => Ret 0
  | S754_finite s m e => Ret (cond_Zopp s (Z.shiftl (Zpos m) e))
  end.

(** [round(f)]: the nearest integer, ties to even *)
Definition py_round (f : float) : exn Z :=
  match Prim2SF f with
  | S754_nan => Raise "ValueError"
  | S754_infinity _ => Raise "OverflowError"
  | S754_zero _ => Ret 0
  | S754_finite s m e =>
      Ret (cond_Zopp s
             (if 0 <=? e then Zpos m * 2 ^ e else div_half_even (Zpos m) (2 ^ (- e))))
  end.

(** [round(f, nd)] for [0 <= nd]: the exact value is rounded to [nd] decimals,
    ties to even, and the decimal converted back to the nearest float *)
Definition py_round_ndigits (f : float) (nd : nat) : float :=
  match Prim2SF f with
  | S754_finite s m e =>
      let p := 10 ^ Z.of_nat nd in
      let n := if 0 <=? e then Zpos m * 2 ^ e * p
               else div_half_even (Zpos m * p) (2 ^ (- e)) in
      dec_to_float s n (- Z.of_nat nd)
  | _ => f
  end.

(** *** [float(s)] for a string

    [[
    floatvalue  ::= [sign] (floatnumber | "inf" | "infinity" | "nan")
    floatnumber ::= number [("e" | "E") [sign] digitpart]
    number      ::= [digitpart] "." digitpart | digitpart ["."]
    digitpart   ::= digit (["_"] digit)*
    ]]
    between optional white space, the words in any letter case. *)

Definition digit_val (c : ascii) : Z := Z.of_nat (nat_of_ascii c - 48).

(** The rest of a [digitpart]: the value read so far, the number of digits
    read so far, and what follows *)
Fixpoint digits_tail (acc cnt : Z) (s : list ascii) : Z * Z * list ascii :=
  match s with
  | c :: t =>
      if is_digit c then digits_tail (10 * acc + digit_val c) (cnt + 1) t
      else if Ascii.eqb c "_"%char then
        match t with
        | d :: t' =>
            if is_digit d then digits_tail (10 * acc + digit_val d) (cnt + 1) t'
            else (acc, cnt, s)
        | [] => (acc, cnt, s)
        end
      else (acc, cnt, s)
  | [] => (acc, cnt, s)
  end.

Definition digitpart (acc : Z) (s : list ascii) : option (Z * Z * list ascii) :=
  match s with
  | c :: t => if is_digit c then Some (digits_tail (10 * acc + digit_val c) 1 t) else None
  | [] => None
  end.

(** The digits of a [number] as one integer, with the count of those after
    the point *)
Definition number (s : list ascii) : option (Z * Z * list ascii) :=
  match digitpart 0 s with
  | Some (n, _, r) =>
      match r with
      | c :: r' =>
          if Ascii.eqb c "."%char then
            match digitpart n r' with
            | Some res => Some res
            | None => Some (n, 0, r')
            end
          else Some (n, 0, r)
      | [] => Some (n, 0, r)
      end
  | None =>
      match s with
      | c :: r' => if Ascii.eqb c "."%char then digitpart 0 r' else None
      | [] => None
      end
  end.

Definition split_sign (s : list ascii) : bool * list ascii :=
  match s with
  | c :: t =>
      if Ascii.eqb c "-"%char then (true, t)
      else if Ascii.eqb c "+"%char then (false, t)
      else (false, s)
  | [] => (false, s)
  end.

(** The optional exponent, up to the end of the text *)
Definition exponent (s : list ascii) : option Z :=
  match s with
  | [] => Some 0
  | c :: t =>
      if Ascii.eqb (lower_chr c) "e"%char then
        let (neg, t') := split_sign t in
        match digitpart 0 t' with
        | Some (x, _, []) => Some (if neg then - x else x)
        | _ => None
        end
      else None
  end.

Fixpoint lstrip (s : list ascii) : list ascii :=
  match s with
  | c :: t => if is_float_space c then lstrip t else s
  | [] => []
  end.

Definition strip (s : list ascii) : list ascii := rev (lstrip (rev (lstrip s))).

Definition float_of_string (s : string) : exn float :=
  let (neg, body) := split_sign (strip (list_ascii_of_string s)) in
  let word := lower (string_of_list_ascii body) in
  if (String.eqb word "inf" || String.eqb word "infinity")%bool then
    Ret (if neg then neg_infinity else infinity)
  else if String.eqb word "nan" then Ret nan
  else
    match number body with
    | Some (n, k, r) =>
        match exponent r with
        | Some x => Ret (dec_to_float neg n (x - k))
        | None => Raise "ValueError"
        end
    | None => Raise "ValueError"
    end.

(** What may follow the digits of a [digitpart] for it to stop there *)
Definition stops (r : list ascii) : Prop :=
  match r with
  | [] => True
  | c :: _ => is_digit c = false /\ Ascii.eqb c "_" = false
  end.

(** The two forms of the numbers the query patterns capture: digits, or digits, a point and
    digits *)
Definition decimal_form (l : list ascii) : Prop :=
  exists ds1 ds2,
    ds1 <> [] /\ forallb is_digit ds1 = true /\ forallb is_digit ds2 = true /\
    (l = ds1 \/ (ds2 <> [] /\ l = (ds1 ++ "."%char :: ds2)%list)).

(** [float(v)] *)
Definition py_float (v : pyval) : exn float :=
  match v with
  | PNone => Raise "TypeError"
  | PBool b => Ret (if b then 1 else 0)%float
  | PInt z => float_of_Z z
  | PFloat f => Ret f
  | PStr s => float_of_string s
  | PList _ | PDict _ => Raise "TypeError"
  end.

(** ** [str(v)] and [repr(v)] *)

Definition string_of_Z (z : Z) : string := NilZero.string_of_int (Z.to_int z).

(** [num / den / 10^k] as one fraction *)
Definition scaled (num den k : Z) : Z * Z :=
  if 0 <=? k then (num, den * 10 ^ k) else (num * 10 ^ (- k), den).

(** [num / den] cut to [n] significant decimal digits: [(D, k)] with
    [10^(n-1) <= D < 10^n] and [D * 10^k <= num / den < (D + 1) * 10^k]; [k]
    starts from an estimate that is off by one at most and is adjusted *)
Fixpoint sig_digits (fuel : nat) (num den n k : Z) : Z * Z :=
  let (a, b) := scaled num den k in
  let D := a / b in
  match fuel with
  | O => (D, k)
  | S fuel' =>
      if D <? 10 ^ (n - 1) then sig_digits fuel' num den n (k - 1)
      else if 10 ^ n <=? D then sig_digits fuel' num den n (k + 1)
      else (D, k)
  end.

(** The shortest digit string that converts back to [x = num / den], as
    [repr] prints it: at each of the lengths [n], [n + 1], ... up to 17 digits
    the two decimals of that length around [x] are tried, and of those that
    convert back to [x] the nearer one is taken *)
Fixpoint shortest_digits (fuel : nat) (num den n : Z) (x : float) : Z * Z :=
  let k0 := (Z.log2 num - Z.log2 den) * 30103 / 100000 - (n - 1) in
  let '(lo, k) := sig_digits 4 num den n k0 in
  let (a, b) := scaled num den k in
  let r := a mod b in
  let up := if lo + 1 =? 10 ^ n then (10 ^ (n - 1), k + 1) else (lo + 1, k) in
  let lo_back := Leibniz.eqb (dec_to_float false lo k) x in
  let up_back := Leibniz.eqb (dec_to_float false (lo + 1) k) x in
  let lo_nearer := match 2 * r ?= b with
                   | Lt => true
                   | Eq => Z.even lo
                   | Gt => false
                   end in
  match fuel with
  | O => if lo_nearer then (lo, k) else up
  | S fuel' =>
      if (lo_back && (lo_nearer || negb up_back))%bool then (lo, k)
      else if up_back then up
      else shortest_digits fuel' num den (n + 1) x
  end.

Fixpoint zeros (n : nat) : string :=
  match n with
  | O => ""
  | S n' => String "0" (zeros n')
  end.

(** [repr] of a positive finite float: exponent notation when the decimal
    point falls more than 16 digits right or more than 3 zeros left *)
Definition repr_pos_float (m : positive) (e : Z) : string :=
  let (num, den) := if 0 <=? e then (Zpos m * 2 ^ e, 1) else (Zpos m, 2 ^ (- e)) in
  let '(D, k) := shortest_digits 16 num den 1 (SF2Prim (S754_finite false m e)) in
  let ds := string_of_Z D in
  let n := Z.of_nat (String.length ds) in
  let decpt := k + n in
  if ((decpt <=? -4) || (16 <? decpt))%bool then
    let x := decpt - 1 in
    let xs := string_of_Z (Z.abs x) in
    substring 0 1 ds
      ++ (if n =? 1 then "" else "." ++ substring 1 (String.length ds - 1) ds)
      ++ "e" ++ (if x <? 0 then "-" else "+")
      ++ (if Z.abs x <? 10 then "0" else "") ++ xs
  else if decpt <=? 0 then "0." ++ zeros (Z.to_nat (- decpt)) ++ ds
  else if n <=? decpt then ds ++ zeros (Z.to_nat (decpt - n)) ++ ".0"
  else substring 0 (Z.to_nat decpt) ds
         ++ "." ++ substring (Z.to_nat decpt) (Z.to_nat (n - decpt)) ds.

Definition repr_float (f : float) : string :=
  match Prim2SF f with
  | S754_nan => "nan"
  | S754_infinity s => if s then "-inf" else "inf"
  | S754_zero s => if s then "-0.0" else "0.0"
  | S754_finite s m e => (if s then "-" else "") ++ repr_pos_float m e
  end.

Definition hex_digit (n : nat) : ascii :=
  ascii_of_nat (if Nat.ltb n 10 then 48 + n else 87 + n).

(** One character of [repr(s)] inside the quotes [q] *)
Definition escape_chr (q c : ascii) : string :=
  let n := nat_of_ascii c in
  if (Ascii.eqb c backslash || Ascii.eqb c q)%bool then String backslash (String c "")
  else if Nat.eqb n 10 then String backslash "n"
  else if Nat.eqb n 13 then String backslash "r"
  else if Nat.eqb n 9 then String backslash "t"
  else if (Nat.ltb n 32 || Nat.eqb n 127)%bool then
    String backslash (String "x" (String (hex_digit (n / 16)) (String (hex_digit (n mod 16)) "")))
  else String c "".

Fixpoint escape (q : ascii) (s : string) : string :=
  match s with
  | EmptyString => EmptyString
  | String c t => escape_chr q c ++ escape q t
  end.

Fixpoint has_chr (c : ascii) (s : string) : bool :=
  match s with
  | EmptyString => false
  | String c' t => (Ascii.eqb c c' || has_chr c t)%bool
  end.

(** [repr(s)]: single quotes, unless [s] has one and no double quote *)
Definition repr_str (s : string) : string :=
  let q := if (has_chr squote s && negb (has_chr dquote s))%bool then dquote else squote in
  String q (escape q s ++ String q "").

Fixpoint join (sep : string) (l : list string) : string :=
  match l with
  | [] => ""
  | [x] => x
  | x :: t => x ++ sep ++ join sep t
  end.

Fixpoint py_repr (v : pyval) : string :=
  match v with
  | PNone => "None"
  | PBool b => if b then "True" else "False"
  | PInt z => string_of_Z z
  | PFloat f => repr_float f
  | PStr s => repr_str s
  | PList l => "[" ++ join ", " (map py_repr l) ++ "]"
  | PDict d =>
      "{" ++ join ", " (map (fun kv => match kv with
                                       | (k, x) => repr_str k ++ ": " ++ py_repr x
                                       end) d) ++ "}"
  end.

(** [str(v)] *)
Definition py_str (v : pyval) : string :=
  match v with
  | PStr s => s
  | _ => py_repr v
  end.

End Py.

(* ================================================================== *)
(** * Regular expressions: the backtracking search of [re]

    The fragment the backend's patterns are written in: literals, character
    classes, sequence, alternation (left to right), greedy [?], greedy bounded
    repetition of a class, the word boundary and one capture group. The
    matcher tries the alternatives in the order [re] does, so the match found
    and its group are the ones [re.search] returns. *)

Module Re.
Import Py.

Inductive regex : Type :=
| Eps
| Chr (c : ascii)
| Cls (p : ascii -> bool)
| Cat (r1 r2 : regex)
| Alt (r1 r2 : regex)
| Opt (r : regex)
| Rep (p : ascii -> bool) (lo : nat) (hi : option nat)
| WordB
| Grp (r : regex).

(** A literal word *)
Fixpoint Lit (s : string) : regex :=
  match s with
  | EmptyString => Eps
  | String c EmptyString => Chr c
  | String c t => Cat (Chr c) (Lit t)
  end.

(** A position in the subject: the offset, the character before it, the text
    from it on, and the text of the group once it has closed *)
Record mstate : Type := MState {
  pos : nat;
  prev : option ascii;
  rest : string;
  grp : option string
}.

Definition word_opt (c : option ascii) : bool :=
  match c with
  | Some c => is_word c
  | None => false
  end.

Definition next_chr (s : string) : option ascii :=
  match s with
  | String c _ => Some c
  | EmptyString => None
  end.

(** [\b]: a word character on exactly one side *)
Definition at_boundary (s : mstate) : bool :=
  xorb (word_opt (prev s)) (word_opt (next_chr (rest s))).

(** One character satisfying [p] *)
Definition eat {A : Type} (p : ascii -> bool) (s : mstate) (k : mstate -> option A)
  : option A :=
  match rest s with
  | String c t => if p c then k (MState (S (pos s)) (Some c) t (grp s)) else None
  | EmptyString => None
  end.

(** Greedy [p{lo,hi}]: as many characters as allowed first, then one fewer,
    down to [lo]; [taken] counts those consumed so far *)
Fixpoint rep {A : Type} (p : ascii -> bool) (lo : nat) (hi : option nat)
    (taken ps : nat) (pv : option ascii) (g : option string) (str : string)
    (k : mstate -> option A) {struct str} : option A :=
  let here := if Nat.leb lo taken then k (MState ps pv str g) else None in
  let more := match hi with
              | Some h => Nat.ltb taken h
              | None => true
              end in
  match str with
  | String c t =>
      if (more && p c)%bool then
        match rep p lo hi (S taken) (S ps) (Some c) g t k with
        | Some r => Some r
        | None => here
        end
      else here
  | EmptyString => here
  end.

Fixpoint rmatch {A : Type} (r : regex) (s : mstate) (k : mstate -> option A)
  : option A :=
  match r with
  | Eps => k s
  | Chr c => eat (Ascii.eqb c) s k
  | Cls p => eat p s k
  | Cat a b => rmatch a s (fun s' => rmatch b s' k)
  | Alt a b =>
      match rmatch a s k with
      | Some x => Some x
      | None => rmatch b s k
      end
  | Opt a =>
      match rmatch a s k with
      | Some x => Some x
      | None => k s
      end
  | Rep p lo hi => rep p lo hi 0 (pos s) (prev s) (grp s) (rest s) k
  | WordB => if at_boundary s then k s else None
  | Grp a =>
      rmatch a s (fun s' => k (MState (pos s') (prev s') (rest s')
                                      (Some (substring 0 (pos s' - pos s) (rest s)))))
  end.

(** The leftmost start at which [r] matches *)
Fixpoint search_from (r : regex) (ps : nat) (pv : option ascii) (str : string)
  : option mstate :=
  match rmatch r (MState ps pv str None) (fun s => Some s) with
  | Some s => Some s
  | None =>
      match str with
      | String c t => search_from r (S ps) (Some c) t
      | EmptyString => None
      end
  end.

(** [m = re.search(r, text)] followed by [m.group(1)]: [None] when there is
    no match. Every pattern below has its group on every path. *)
Definition search (r : regex) (text : string) : option string :=
  match search_from r 0 None text with
  | Some s => grp s
  | None => None
  end.

(** ** What a match may consume

    An upper bound of the language of a pattern, to state what the text of
    the group can be. *)

Fixpoint all_chr (p : ascii -> bool) (w : string) : bool :=
  match w with
  | EmptyString => true
  | String c t => (p c && all_chr p t)%bool
  end.

Fixpoint lang (r : regex) (w : string) : Prop :=
  match r with
  | Eps => w = ""
  | Chr c => w = String c ""
  | Cls p => exists c, p c = true /\ w = String c ""
  | Cat a b => exists w1 w2, w = w1 ++ w2 /\ lang a w1 /\ lang b w2
  | Alt a b => lang a w \/ lang b w
  | Opt a => w = "" \/ lang a w
  | Rep p lo _ => all_chr p w = true /\ (lo <= String.length w)%nat
  | WordB => w = ""
  | Grp a => lang a w
  end.

(** The states a match can lead to from [s] by consuming [w] *)
Definition reaches (w : string) (s s' : mstate) : Prop :=
  rest s = w ++ rest s' /\ pos s' = (pos s + String.length w)%nat /\ grp s' = grp s.

Fixpoint no_group (r : regex) : bool :=
  match r with
  | Cat a b | Alt a b => (no_group a && no_group b)%bool
  | Opt a => no_group a
  | Grp _ => false
  | _ => true
  end.

End Re.

(* ================================================================== *)
(** * Shapely, as the enrichment uses it

    [shape(geojson)], [geom.centroid], [poly.contains(point)] and
    [STRtree(geoms).query(point, predicate="contains")]; each may raise. The
    one fact assumed of the library is that a query answers with positions in
    the list the tree was built from. *)

Module Shapely.
Import Py.

Class Lib : Type := {
  Geom : Type;
  shape : pyval -> exn Geom;
  centroid : Geom -> exn Geom;
  contains : Geom -> Geom -> exn bool;
  query_contains : list Geom -> Geom -> exn (list nat);
  query_in_range : forall gs c idxs,
    query_contains gs c = Ret idxs -> Forall (fun i => (i < List.length gs)%nat) idxs
}.

End Shapely.

(* ================================================================== *)
(** * backend/services/data_fetch.py *)

Module DataFetch.
Import Py.
Local Open Scope float_scope.

(** [props.get(k1) or props.get(k2) or ...] *)
Fixpoint get_or (props : dict) (keys : list string) : pyval :=
  match keys with
  | [] => PNone
  | [k] => dict_get props k
  | k :: t => py_or (dict_get props k) (get_or props t)
  end.

(** [_first(props, keys, default)] *)
Fixpoint _first (props : dict) (keys : list string) (default : pyval) : pyval :=
  match keys with
  | [] => default
  | k :: t =>
      match dict_get props k with
      | PNone => _first props t default
      | PStr EmptyString => _first props t default
      | v => v
      end
  end.

(** [f.get("properties", {}) or {}] (in [norm_building]) and
    [f.get("properties") or {}] (in the other two), a value that is then used
    through [.get], [.keys] or [.items] *)
Definition props_of (f : dict) : exn dict :=
  match py_or (dict_get f "properties") (PDict []) with
  | PDict d => Ret d
  | _ => Raise "AttributeError"
  end.

Definition height_candidates : list string :=
  ["height_m"; "HEIGHT_M"; "height"; "building_height"; "bldg_height_m"].

Definition level_candidates : list string :=
  ["levels"; "LEVELS"; "storeys"; "stories"; "num_storeys"; "number_of_storeys"].

(** The loop over [height_candidates]: the first value that is not [None]
    and that [float] accepts *)
Fixpoint resolve_height (props : dict) (keys : list string) : option float :=
  match keys with
  | [] => None
  | k :: t =>
      match dict_get props k with
      | PNone => resolve_height props t
      | v =>
          match py_float v with
          | Ret x => Some x
          | Raise _ => resolve_height props t
          end
      end
  end.

(** The loop over [level_candidates], with [int(float(v))] *)
Fixpoint resolve_levels (props : dict) (keys : list string) : option Z :=
  match keys with
  | [] => None
  | k :: t =>
      match dict_get props k with
      | PNone => resolve_levels props t
      | v =>
          match (x <- py_float v ;; int_of_float x) with
          | Ret z => Some z
          | Raise _ => resolve_levels props t
          end
      end
  end.

Definition norm_building (f : dict) : exn dict :=
  props <- props_of f ;;
  let geom := dict_get f "geometry" in
  let height0 := resolve_height props height_candidates in
  let levels := resolve_levels props level_candidates in
  height1 <- match height0, levels with
             | None, Some l => (x <- float_of_Z l ;; Ret (Some (x * 3.0)))
             | _, _ => Ret height0
             end ;;
  let height_m := match height1 with
                  | Some h => h
                  | None => 12.0
                  end in
  levels' <- match levels with
             | Some l => Ret l
             | None => py_round (height_m / 3.0)
             end ;;
  Ret [ ("id", get_or props ["objectid"; "id"; "OBJECTID"; "bldg_id"; "BLDG_ID"; "mapid"; "MAPID"]);
        ("geometry", geom);
        ("height_m", PFloat height_m);
        ("levels", PInt levels');
        ("address", get_or props ["address"; "ADDRESS"; "civic_address"]);
        ("zoning", get_or props ["zoning"; "ZONING"; "land_use"; "LAND_USE"]);
        ("assessed_value", PNone);
        ("raw", PDict props) ].

Definition zone_keys : list string :=
  ["land_use_district"; "landuse_district"; "landuse"; "district"; "zone"; "zoning"].

(** The loop over [p.keys()] of [norm_land_use]; [p] is the whole map *)
Fixpoint find_zone (p ks : dict) : pyval :=
  match ks with
  | [] => PNone
  | (k, _) :: t => if str_in_list (lower k) zone_keys then dict_get p k else find_zone p t
  end.

Definition norm_land_use (f : dict) : exn dict :=
  p <- props_of f ;;
  let g := dict_get f "geometry" in
  let z := find_zone p p in
  Ret [ ("zoning", py_or z (PStr "Unknown")); ("geometry", g); ("raw", PDict p) ].

(** The loop over [p.items()] of [norm_assess] *)
Fixpoint find_assessed (items : dict) : pyval :=
  match items with
  | [] => PNone
  | (k, v) :: t =>
      let kl := lower k in
      if (str_in "assessed" kl && (str_in "value" kl || str_in "total" kl))%bool then
        match float_of_string (remove_commas (py_str v)) with
        | Ret x => PFloat x
        | Raise _ => find_assessed t
        end
      else find_assessed t
  end.

Definition norm_assess (f : dict) : exn dict :=
  p <- props_of f ;;
  let g := dict_get f "geometry" in
  let val := find_assessed p in
  let addr := _first p ["address"; "street_address"; "situs_addr"] (PStr "Unknown") in
  Ret [ ("assessed_value", val); ("address", addr); ("geometry", g); ("raw", PDict p) ].

End DataFetch.

(* ================================================================== *)
(** * backend/models.py *)

Module Models.
Import Py.

(** [FilterSpec]; [model_dump()] gives the three fields back as a dict *)
Record FilterSpec : Type := mkFilterSpec {
  attribute : string;
  operator : string;
  value : pyval
}.

Definition attributes : list string :=
  ["height_m"; "levels"; "zoning"; "assessed_value"; "use"; "address"].

Definition operators : list string :=
  [">"; "<"; ">="; "<="; "="; "contains"; "in"].

(** Building a [FilterSpec] from a dict: the two [Literal] fields are
    checked and the value, a required field, is kept as it is; [None] is a
    validation error *)
Definition validate (d : dict) : option FilterSpec :=
  match dict_find d "attribute", dict_find d "operator", dict_find d "value" with
  | Some (PStr a), Some (PStr o), Some v =>
      if (str_in_list a attributes && str_in_list o operators)%bool
      then Some (mkFilterSpec a o v) else None
  | _, _, _ => None
  end.

End Models.

(* ================================================================== *)
(** * backend/app.py *)

Module App.
Import Py Shapely Models.
Local Open Scope float_scope.

Section Enrichment.
Context {L : Lib}.

(** [[shape(f["geometry"]) for f in recs if f.get("geometry")]]: the records
    without a geometry are left out, the others keep their order *)
Fixpoint geoms_of (recs : list dict) : exn (list Geom) :=
  match recs with
  | [] => Ret []
  | f :: t =>
      if truthy (dict_get f "geometry") then
        g <- shape (dict_get f "geometry") ;;
        gs <- geoms_of t ;;
        Ret (g :: gs)
      else geoms_of t
  end.

(** [recs[i][key]] *)
Definition lookup (recs : list dict) (i : nat) (key : string) : exn pyval :=
  r <- list_item recs i ;; dict_item r key.

(** The body of both scanning loops: [Some v] is an assignment of [v]
    followed by [break], [None] goes on to the next polygon *)
Definition probe (recs : list dict) (key : string) (c : Geom) (i : nat) (poly : Geom)
  : exn (option pyval) :=
  hit <- contains poly c ;;
  if hit then (v <- lookup recs i key ;; Ret (Some v)) else Ret None.

(** [for i, poly in enumerate(geoms): if poly.contains(c): ...; break],
    inside the outer [try] *)
Fixpoint scan (recs : list dict) (key : string) (c : Geom) (i : nat) (geoms : list Geom)
  : exn (option pyval) :=
  match geoms with
  | [] => Ret None
  | poly :: t =>
      r <- probe recs key c i poly ;;
      match r with
      | Some v => Ret (Some v)
      | None => scan recs key c (S i) t
      end
  end.

(** The same loop in the handler, each round in a [try] of its own *)
Fixpoint scan_safe (recs : list dict) (key : string) (c : Geom) (i : nat)
    (geoms : list Geom) : option pyval :=
  match geoms with
  | [] => None
  | poly :: t =>
      match probe recs key c i poly with
      | Ret (Some v) => Some v
      | Ret None | Raise _ => scan_safe recs key c (S i) t
      end
  end.

(** One of the two overlay blocks: the value to store under [key], if any.
    The tree exists when [geoms] is not empty. *)
Definition overlay (recs : list dict) (key : string) (geoms : list Geom) (c : Geom)
  : option pyval :=
  match geoms with
  | [] => None
  | _ :: _ =>
      try_except
        (idxs <- query_contains geoms c ;;
         match idxs with
         | idx :: _ => (v <- lookup recs idx key ;; Ret (Some v))
         | [] => scan recs key c 0 geoms
         end)
        (fun _ => scan_safe recs key c 0 geoms)
  end.

(** [b[key] = v] when the overlay found a value *)
Definition store (b : dict) (key : string) (v : option pyval) : dict :=
  match v with
  | Some x => dict_set b key x
  | None => b
  end.

(** [b["zoning"] = "Unknown"; b["assessed_value"] = None] *)
Definition set_defaults (b : dict) : dict :=
  dict_set (dict_set b "zoning" (PStr "Unknown")) "assessed_value" PNone.

(** The body of [for b in buildings] *)
Definition enrich_one (landuse assessments : list dict) (land_geoms assess_geoms : list Geom)
    (b : dict) : exn dict :=
  let b := set_defaults b in
  if negb (truthy (dict_get b "geometry")) then Ret b
  else
    g <- shape (dict_get b "geometry") ;;
    c <- centroid g ;;
    let b := store b "zoning" (overlay landuse "zoning" land_geoms c) in
    let b := store b "assessed_value" (overlay assessments "assessed_value" assess_geoms c) in
    Ret b.

Fixpoint for_each (body : dict -> exn dict) (bs : list dict) : exn (list dict) :=
  match bs with
  | [] => Ret []
  | b :: t => b' <- body b ;; t' <- for_each body t ;; Ret (b' :: t')
  end.

Definition enrich_with_zoning_and_assessment (buildings landuse assessments : list dict)
  : exn (list dict) :=
  land_geoms <- geoms_of landuse ;;
  assess_geoms <- geoms_of assessments ;;
  for_each (enrich_one landuse assessments land_geoms assess_geoms) buildings.

End Enrichment.

Definition numeric_attrs : list string := ["height_m"; "assessed_value"; "levels"].

Definition is_list (v : pyval) : bool :=
  match v with
  | PList _ => true
  | _ => false
  end.

Definition items_of (v : pyval) : list pyval :=
  match v with
  | PList l => l
  | _ => []
  end.

(** The comparison returned for a numeric attribute *)
Definition compare_num (op : string) (fv val : float) : bool :=
  ((String.eqb op ">" && (val <? fv)) ||
   (String.eqb op "<" && (fv <? val)) ||
   (String.eqb op ">=" && (val <=? fv)) ||
   (String.eqb op "<=" && (fv <=? val)) ||
   (String.eqb op "=" && (abs (fv - val) <? 1e-6)))%bool.

(** The inner function [ok(f, spec)] of [apply_filters] *)
Definition ok (f : dict) (spec : FilterSpec) : bool :=
  let attr := attribute spec in
  let op := operator spec in
  let val := value spec in
  let fv := dict_get f attr in
  if str_in_list attr numeric_attrs then
    match (fv' <- match fv with
                  | PNone => Ret None
                  | _ => (x <- py_float fv ;; Ret (Some x))
                  end ;;
           val' <- py_float val ;;
           Ret (fv', val')) with
    | Raise _ => false
    | Ret (None, _) => false
    | Ret (Some x, y) => compare_num op x y
    end
  else
    let sv := lower (py_str (py_or fv (PStr ""))) in
    let sval := lower (py_str val) in
    if String.eqb op "=" then String.eqb sv sval
    else if String.eqb op "contains" then str_in sval sv
    else if (String.eqb op "in" && is_list val)%bool then
      str_in_list sv (map (fun x => lower (py_str x)) (items_of val))
    else false.

Definition apply_filters (features : list dict) (filters : list FilterSpec) : list dict :=
  filter (fun f => forallb (ok f) filters) features.

End App.

(* ================================================================== *)
(** * backend/services/llm.py *)

Module Llm.
Import Py Re.
Local Open Scope float_scope.

(** What the parser reaches outside the repository.
    - [hub_import] is [from huggingface_hub import InferenceClient]: it
      returns, or raises [ModuleNotFoundError] when the package is absent, or
      raises something else ([ImportError] when the package is there without
      that name).
    - [text_generation n model token prompt] is the construction
      [InferenceClient(model=model, token=token)] with the call
      [client.text_generation(prompt, ...)] after it; [n] is the number of
      such calls made before this one while the query is served, so that two
      calls for the same model need not answer alike. What it raises is what
      the handler [except Exception] of the loop catches.
    - [json_loads] is [json.loads]. *)
Class Services : Type := {
  hub_import : exn unit;
  text_generation : nat -> string -> string -> string -> exn string;
  json_loads : string -> exn pyval
}.

(** [os.environ] at the time of the call *)
Record Environ : Type := mkEnviron {
  HF_API_KEY : option string;
  HF_MODEL : option string
}.

Definition nl : string := String (ascii_of_nat 10) "".
Definition qt (s : string) : string := String dquote (s ++ String dquote "").

(** The text [{"filters":[{"attribute":attr,"operator":op,"value":val}]}] *)
Definition filters_json (attr op val : string) : string :=
  "{" ++ qt "filters" ++ ":[{" ++ qt "attribute" ++ ":" ++ qt attr ++ ","
    ++ qt "operator" ++ ":" ++ qt op ++ "," ++ qt "value" ++ ":" ++ val ++ "}]}".

Definition example_output (attr op val : string) : string :=
  "Output: " ++ filters_json attr op val.

Definition SYSTEM_PROMPT : string :=
  "You extract structured filters from a natural-language query about buildings." ++ nl ++
  "Always return ONLY a compact JSON object with a 'filters' array, no prose." ++ nl ++
  nl ++
  "Allowed attributes: height_m, levels, zoning, assessed_value, address, use" ++ nl ++
  "Allowed operators: >, <, >=, <=, =, contains, in" ++ nl ++
  nl ++
  "Examples:" ++ nl ++
  "Input: highlight buildings over 100 feet" ++ nl ++
  example_output "height_m" ">" "30.48" ++ nl ++
  nl ++
  "Input: show buildings less than $500,000 in value" ++ nl ++
  example_output "assessed_value" "<" "500000" ++ nl ++
  nl ++
  "Input: show buildings in RC-G zoning" ++ nl ++
  example_output "zoning" "=" (qt "RC-G") ++ nl.

(** ** The patterns *)

Definition digits : regex := Rep is_digit 1%nat None.
Definition decimal : regex := Cat digits (Opt (Cat (Chr ".") digits)).
Definition spaces : regex := Rep is_space 0%nat None.
Definition plural (s : string) : regex := Cat (Lit s) (Opt (Chr "s")).

(** [(\d+(?:\.\d+)?)\s*(?:ft|feet)\b] *)
Definition re_feet : regex :=
  Cat (Grp decimal) (Cat spaces (Cat (Alt (Lit "ft") (Lit "feet")) WordB)).

(** [(\d+(?:\.\d+)?)\s*(?:m|meter|meters)\b] *)
Definition re_meters : regex :=
  Cat (Grp decimal)
      (Cat spaces (Cat (Alt (Lit "m") (Alt (Lit "meter") (Lit "meters"))) WordB)).

(** [(\d+)\s*(?:levels?|storeys?|stories?)\b] *)
Definition re_levels : regex :=
  Cat (Grp digits)
      (Cat spaces
           (Cat (Alt (plural "level") (Alt (plural "storey") (plural "storie"))) WordB)).

(** [\b([A-Z]{1,3}-[A-Z]{1,3})\b] *)
Definition re_zone : regex :=
  Cat WordB
      (Cat (Grp (Cat (Rep is_upper 1%nat (Some 3%nat))
                     (Cat (Chr "-") (Rep is_upper 1%nat (Some 3%nat)))))
           WordB).

(** [\$?\s*([\d,]+(?:\.\d+)?)\b] *)
Definition re_money : regex :=
  Cat (Opt (Chr "$"))
      (Cat spaces
           (Cat (Grp (Cat (Rep (fun c => (is_digit c || Ascii.eqb c ",")%bool) 1%nat None)
                          (Opt (Cat (Chr ".") digits))))
                WordB)).

(** [\{.*\}] with [re.S], the whole match taken as the group *)
Definition re_braces : regex :=
  Grp (Cat (Chr "{") (Cat (Rep (fun _ => true) 0%nat None) (Chr "}"))).

(** A text cut after its last closing brace: what comes up to and with that
    brace, and what follows it *)
Fixpoint upto_last_close (s : string) : option (string * string) :=
  match s with
  | EmptyString => None
  | String c t =>
      match upto_last_close t with
      | Some (u, r) => Some (String c u, r)
      | None => if Ascii.eqb "}" c then Some (String c "", t) else None
      end
  end.

(** The text from the first opening brace to the last closing brace after
    it, both included *)
Fixpoint brace_span (s : string) : option string :=
  match s with
  | EmptyString => None
  | String c t =>
      if Ascii.eqb "{" c then
        match upto_last_close t with
        | Some (u, _) => Some (String c u)
        | None => brace_span t
        end
      else brace_span t
  end.

(** ** The rule-based parser *)

Definition money_words : list string :=
  ["dollar"; "dollars"; "value"; "assess"; "assessed"; "assessment";
   "valuation"; "price"; "worth"; "cost"].

Definition any_in (words : list string) (text : string) : bool :=
  existsb (fun w => str_in w text) words.

(** The operator heuristics: four tests in the order of the source, each
    overwriting the result of the ones before *)
Definition infer_op (ql : string) : string :=
  let op := ">" in
  let op := if any_in ["less than"; "under"; "below"; "<"] ql then "<" else op in
  let op := if (str_in "at least" ql || str_in ">=" ql)%bool then ">=" else op in
  let op := if (str_in "at most" ql || str_in "<=" ql)%bool then "<=" else op in
  let op := if (str_in " equal" ql || str_in "exact" ql || str_in " = " ql)%bool
            then "=" else op in
  op.

(** [{"attribute": a, "operator": o, "value": v}] *)
Definition mk_filter (a o : string) (v : pyval) : dict :=
  [("attribute", PStr a); ("operator", PStr o); ("value", v)].

(** The block [# Height]: feet first, metres otherwise *)
Definition height_filters (ql op : string) : exn (list dict) :=
  match search re_feet ql, search re_meters ql with
  | Some g, _ =>
      (x <- float_of_string g ;;
       Ret [mk_filter "height_m" op (PFloat (py_round_ndigits (x * 0.3048) 2))])
  | None, Some g =>
      (x <- float_of_string g ;; Ret [mk_filter "height_m" op (PFloat x)])
  | None, None => Ret []
  end.

(** The block [# Levels] *)
Definition levels_filters (ql op : string) : exn (list dict) :=
  match search re_levels ql with
  | Some g => (x <- float_of_string g ;; Ret [mk_filter "levels" op (PFloat x)])
  | None => Ret []
  end.

(** The block [# Zoning], on the query as typed *)
Definition zoning_filters (q : string) : list dict :=
  match search re_zone q with
  | Some g => [mk_filter "zoning" "=" (PStr g)]
  | None => []
  end.

(** The block [# Assessed value], with [money_hint] and [m_money] *)
Definition money_filters (q ql op : string) : list dict :=
  let money_hint := (str_in "$" q || any_in money_words ql)%bool in
  let m_money := if money_hint then search re_money ql else None in
  match m_money with
  | Some g =>
      match float_of_string (remove_commas g) with
      | Ret v => [mk_filter "assessed_value" op (PFloat v)]
      | Raise _ => []
      end
  | None => []
  end.

(** The block [# Use keywords] *)
Definition use_filters (ql : string) : list dict :=
  ((if str_in "commercial" ql then [mk_filter "use" "=" (PStr "commercial")] else [])
   ++ (if str_in "residential" ql then [mk_filter "use" "=" (PStr "residential")] else []))%list.

(** The searches of the source come before the blocks; they have no effect,
    so each is written in the block that uses its result. *)
Definition _fallback_rule_based (q : string) : exn (list dict) :=
  let ql := lower q in
  let op := infer_op ql in
  height <- height_filters ql op ;;
  levels <- levels_filters ql op ;;
  Ret (height ++ levels ++ zoning_filters q ++ money_filters q ql op ++ use_filters ql)%list.

(** ** The model chain *)

Section Parse.
Context {S : Services}.

Definition candidates (primary : string) : list string :=
  [primary; "HuggingFaceH4/zephyr-7b-beta"; "mistralai/Mistral-7B-Instruct-v0.3"].

Definition prompt (query : string) : string :=
  SYSTEM_PROMPT ++ nl ++ "Input: " ++ query ++ nl ++ "Output:".

(** The body of [for f in fs]: [f.get] needs a dict; the value of a numeric
    attribute is replaced by its [float] when it has one *)
Definition normalize_filter (f : pyval) : exn pyval :=
  match f with
  | PDict d =>
      match dict_get d "attribute" with
      | PStr a =>
          if str_in_list a ["height_m"; "levels"; "assessed_value"] then
            match (v <- dict_item d "value" ;; py_float v) with
            | Ret x => Ret (PDict (dict_set d "value" (PFloat x)))
            | Raise _ => Ret f
            end
          else Ret f
      | _ => Ret f
      end
  | _ => Raise "AttributeError"
  end.

Fixpoint normalize_all (l : list pyval) : exn (list pyval) :=
  match l with
  | [] => Ret []
  | f :: t => f' <- normalize_filter f ;; t' <- normalize_all t ;; Ret (f' :: t')
  end.

(** [for f in fs] over a truthy [fs]: a list gives its items; a dict gives
    its keys and a string its characters, on which [.get] fails; the other
    values cannot be iterated *)
Definition normalize_filters (fs : pyval) : exn pyval :=
  match fs with
  | PList l => (l' <- normalize_all l ;; Ret (PList l'))
  | PDict _ | PStr _ => Raise "AttributeError"
  | _ => Raise "TypeError"
  end.

(** One round of the loop, up to its [return], as the call number [n];
    [no_json] stands with the exception names as a failure kind *)
Definition attempt (n : nat) (model token query : string) : exn pyval :=
  resp <- text_generation n model token (prompt query) ;;
  match search re_braces resp with
  | None => Raise "no_json"
  | Some js =>
      obj <- json_loads js ;;
      match obj with
      | PDict d => normalize_filters (py_or (dict_get d "filters") (PList []))
      | _ => Raise "AttributeError"
      end
  end.

(** [for model in candidates], [n] calls having been made: the filters and
    note of the first round that returns, or the last failure kind; with the
    models tried, in order *)
Fixpoint try_candidates (token query : string) (n : nat) (cands : list string)
    (last_err : string) : (pyval * string + string) * list string :=
  match cands with
  | [] => (inr last_err, [])
  | model :: t =>
      match attempt n model token query with
      | Ret fs => (inl (fs, "hf:" ++ model), [model])
      | Raise e =>
          let '(r, tried) := try_candidates token query (Datatypes.S n) t e in
          (r, model :: tried)
      end
  end.

(** [_fallback_rule_based(query) or []] paired with a note *)
Definition fallback_with (query note : string) : exn (pyval * string) :=
  fs <- _fallback_rule_based query ;;
  Ret (PList (map PDict fs), note).

(** [parse_filters(query)]: the returned pair, and the models it called.
    The import is guarded by [except ModuleNotFoundError] alone: what else it
    raises leaves the function. *)
Definition parse_filters (env : Environ) (query : string)
  : exn (pyval * string) * list string :=
  let token := match HF_API_KEY env with
               | Some t => t
               | None => ""
               end in
  let primary := match HF_MODEL env with
                 | Some m => m
                 | None => "Qwen/Qwen2.5-7B-Instruct"
                 end in
  if String.eqb token "" then (fallback_with query "fallback", [])
  else
    match hub_import with
    | Raise e =>
        if String.eqb e "ModuleNotFoundError" then
          (fallback_with query "fallback_error:missing_huggingface_hub", [])
        else (Raise e, [])
    | Ret _ =>
        match try_candidates token query 0 (candidates primary) "None" with
        | (inl r, tried) => (Ret r, tried)
        | (inr e, tried) => (fallback_with query ("fallback_error:" ++ e), tried)
        end
    end.

End Parse.

End Llm.

(* ================================================================== *)
(** * The specification's wording, where it is compared with the code *)

Module SpecWords.
Import Py Llm.

(** The operator rule as the specification words it: default [>]; then
    "less than", "under", "below" or [<] give [<]; "at least" or [>=] give
    [>=]; "at most" or [<=] give [<=]; "equal", "exact" or [ = ] give [=];
    the last match wins *)
Definition spec_infer_op (ql : string) : string :=
  let op := ">" in
  let op := if any_in ["less than"; "under"; "below"; "<"] ql then "<" else op in
  let op := if any_in ["at least"; ">="] ql then ">=" else op in
  let op := if any_in ["at most"; "<="] ql then "<=" else op in
  let op := if any_in ["equal"; "exact"; " = "] ql then "=" else op in
  op.

(** The provenance note of a successful model as the specification words it *)
Definition spec_model_note (name : string) : string := "model:" ++ name.

End SpecWords.

(* ================================================================== *)
(** * Small implementations of the interfaces, to run the code on *)

Module Sample.
Import Py Shapely Llm.

(** Boxes with integer corners stand for polygons, a box with equal corners
    for a point; the geometry value is [{"bbox": [x0, y0, x1, y1]}] *)
Definition box : Type := (Z * Z * Z * Z)%type.

Definition box_shape (v : pyval) : exn box :=
  match v with
  | PDict d =>
      match dict_get d "bbox" with
      | PList [PInt x0; PInt y0; PInt x1; PInt y1] => Ret (x0, y0, x1, y1)
      | _ => Raise "GeometryTypeError"
      end
  | _ => Raise "AttributeError"
  end.

Definition box_centroid (g : box) : exn box :=
  let '(x0, y0, x1, y1) := g in
  Ret ((x0 + x1) / 2, (y0 + y1) / 2, (x0 + x1) / 2, (y0 + y1) / 2).

Definition box_contains (g c : box) : exn bool :=
  let '(x0, y0, x1, y1) := g in
  let '(x, y, _, _) := c in
  Ret ((x0 <? x) && (x <? x1) && (y0 <? y) && (y <? y1))%bool.

(** A tree whose query finds nothing, which leaves the work to the loops *)
#[local] Instance box_lib : Lib := {|
  Geom := box;
  shape := box_shape;
  centroid := box_centroid;
  contains := box_contains;
  query_contains := fun _ _ => Ret [];
  query_in_range := fun gs _ idxs (H : Ret [] = Ret idxs) =>
    match H in (_ = r)
          return match r with
                 | Ret l => Forall (fun i => (i < List.length gs)%nat) l
                 | Raise _ => True
                 end
    with
    | eq_refl => Forall_nil _
    end
|}.

Definition bbox (x0 y0 x1 y1 : Z) : pyval :=
  PDict [("bbox", PList [PInt x0; PInt y0; PInt x1; PInt y1])].

(** Raw features, as the data source gives them: two zoning polygons, the
    first with a null geometry, and three buildings: one inside the second
    polygon, one with a null geometry, one whose geometry is not a geometry *)
Definition feature (geometry : pyval) (properties : dict) : dict :=
  [("type", PStr "Feature"); ("geometry", geometry); ("properties", PDict properties)].

Definition raw_zone_A : dict := feature PNone [("land_use_district", PStr "A")].
Definition raw_zone_B : dict := feature (bbox 0 0 10 10) [("land_use_district", PStr "B")].
Definition raw_house : dict := feature (bbox 4 4 6 6) [("objectid", PInt 1)].
Definition raw_shed : dict := feature PNone [("objectid", PInt 2); ("zoning", PStr "RC-G")].
Definition raw_ruin : dict := feature (PDict [("type", PStr "Polygon")]) [("objectid", PInt 3)].

(** The same, normalized *)
Definition zone_A : dict :=
  [("zoning", PStr "A"); ("geometry", PNone);
   ("raw", PDict [("land_use_district", PStr "A")])].
Definition zone_B : dict :=
  [("zoning", PStr "B"); ("geometry", bbox 0 0 10 10);
   ("raw", PDict [("land_use_district", PStr "B")])].
Definition house : dict :=
  [("id", PInt 1); ("geometry", bbox 4 4 6 6); ("height_m", PFloat 12);
   ("levels", PInt 4); ("address", PNone); ("zoning", PNone);
   ("assessed_value", PNone); ("raw", PDict [("objectid", PInt 1)])].
Definition shed : dict :=
  [("id", PInt 2); ("geometry", PNone); ("height_m", PFloat 12);
   ("levels", PInt 4); ("address", PNone); ("zoning", PStr "RC-G");
   ("assessed_value", PNone);
   ("raw", PDict [("objectid", PInt 2); ("zoning", PStr "RC-G")])].
Definition ruin : dict :=
  [("id", PInt 3); ("geometry", PDict [("type", PStr "Polygon")]); ("height_m", PFloat 12);
   ("levels", PInt 4); ("address", PNone); ("zoning", PNone);
   ("assessed_value", PNone); ("raw", PDict [("objectid", PInt 3)])].

(** A hub whose primary model is out of reach and whose other models answer
    with one [levels] filter wrapped in prose *)
(** The object [{"filters":[{"attribute":"levels","operator":">","value":"3"}]}]
    as a text, within an answer, and as [json.loads] reads it *)
Definition answer_text : string := filters_json "levels" ">" (qt "3").

Definition answer : string := "Sure: " ++ answer_text ++ " Hope this helps.".

Definition answer_filter : pyval :=
  PDict [("attribute", PStr "levels"); ("operator", PStr ">"); ("value", PStr "3")].

Definition answer_json : pyval := PDict [("filters", PList [answer_filter])].

(** [{"filters":[1]}] *)
Definition odd_text : string := "{" ++ qt "filters" ++ ":[1]}".

(** [json.loads] on the texts of the samples; every other text they send to
    it is not JSON *)
Definition loads (s : string) : exn pyval :=
  if String.eqb s answer_text then Ret answer_json
  else if String.eqb s odd_text then Ret (PDict [("filters", PList [PInt 1])])
  else if String.eqb s "{}" then Ret (PDict [])
  else Raise "JSONDecodeError".

#[local] Instance hub : Services := {|
  hub_import := Ret tt;
  text_generation := fun _ model _ _ =>
    if String.eqb model "Qwen/Qwen2.5-7B-Instruct" then Raise "HfHubHTTPError"
    else Ret answer;
  json_loads := loads
|}.

(** A hub whose every model answers *)
#[local] Instance hub_up : Services := {|
  hub_import := Ret tt;
  text_generation := fun _ _ _ _ => Ret answer;
  json_loads := loads
|}.

(** A hub whose models answer with a [filters] array that holds a number *)
#[local] Instance hub_odd : Services := {|
  hub_import := Ret tt;
  text_generation := fun _ _ _ _ => Ret odd_text;
  json_loads := loads
|}.

Definition env_token : Environ := mkEnviron (Some "hf_token") None.

End Sample.

(* ================================================================== *)
(** * backend/services/data_fetch.py: the requests *)

Module Fetch.
Import Py DataFetch.

(** [requests.get(url, params=params, headers=HEADERS, timeout=30)],
    [raise_for_status()] and [r.json()], as one call that may raise. The
    datasets are a function of the request: no request is sent twice while one
    call of the endpoint is served, and a theorem that compares two calls
    compares them over the same answers. *)
Class Http : Type := {
  get_json : string -> dict -> exn pyval
}.

Definition buildings_3d : string := "cchr-krqg".
Definition buildings_2d : string := "uc4c-6kbd".
Definition land_use : string := "qe6k-p9nh".
Definition assessments : string := "4bsw-nn7w".

Definition CANDIDATE_GEOMS : list string :=
  ["geometry"; "the_geom"; "shape"; "geom"; "multipolygon"].

(** [{"type": "FeatureCollection", "features": []}] *)
Definition empty_collection : pyval :=
  PDict [("type", PStr "FeatureCollection"); ("features", PList [])].

(** [x.get("features") or []]; only a dict has [.get] *)
Definition features_of (x : pyval) : exn pyval :=
  match x with
  | PDict d => Ret (py_or (dict_get d "features") (PList []))
  | _ => Raise "AttributeError"
  end.

(** [for x in v]: the items of a list, the keys of a dict, the characters of
    a string; the other values cannot be iterated *)
Definition py_iter (v : pyval) : exn (list pyval) :=
  match v with
  | PList l => Ret l
  | PDict d => Ret (map (fun kv => PStr (fst kv)) d)
  | PStr s => Ret (map (fun c => PStr (String c "")) (list_ascii_of_string s))
  | _ => Raise "TypeError"
  end.

Fixpoint map_exn {A B : Type} (f : A -> exn B) (l : list A) : exn (list B) :=
  match l with
  | [] => Ret []
  | a :: t => b <- f a ;; t' <- map_exn f t ;; Ret (b :: t')
  end.

(** [s.split(",")] *)
Fixpoint split_commas (s : string) : list string :=
  match s with
  | EmptyString => [""]
  | String c t =>
      if Ascii.eqb c ","%char then "" :: split_commas t
      else match split_commas t with
           | h :: r => String c h :: r
           | [] => [String c ""]
           end
  end.

(** [minLon, minLat, maxLon, maxLat = [float(x) for x in bbox.split(",")]] *)
Definition parse_bbox (bbox : string) : exn (float * float * float * float) :=
  l <- map_exn float_of_string (split_commas bbox) ;;
  match l with
  | [a; b; c; d] => Ret (a, b, c, d)
  | _ => Raise "ValueError"
  end.

(** [f"within_box({field}, {north}, {west}, {south}, {east})"] *)
Definition within_box (field : string) (north west south east : float) : string :=
  "within_box(" ++ field ++ ", " ++ repr_float north ++ ", " ++ repr_float west
    ++ ", " ++ repr_float south ++ ", " ++ repr_float east ++ ")".

(** [{"$limit": limit, "$where": f"within_box(...)"}] *)
Definition request_params (limit : Z) (field : string) (north west south east : float)
  : dict :=
  [("$limit", PInt limit); ("$where", PStr (within_box field north west south east))].

(** [f"https://data.calgary.ca/resource/{dataset_id}.geojson"] *)
Definition resource (dataset_id : string) : string :=
  "https://data.calgary.ca/resource/" ++ dataset_id ++ ".geojson".

Section Requests.
Context {H : Http}.

Definition _safe_get (url : string) (params : dict) : pyval :=
  try_except (get_json url params) (fun _ => empty_collection).

(** The loop of [socrata_geojson] over the candidate geometry fields *)
Fixpoint try_fields (base : string) (limit : Z) (north west south east : float)
    (fields : list string) : exn pyval :=
  match fields with
  | [] => Ret empty_collection
  | field :: t =>
      let params := request_params limit field north west south east in
      let data := _safe_get base params in
      feats <- features_of data ;;
      if truthy feats then Ret data else try_fields base limit north west south east t
  end.

(** A dataset answers a box with [feats]: the request for one of the
    candidate fields returns an object whose features are [feats], not empty *)
Definition answers (dataset_id : string) (minLon minLat maxLon maxLat : float)
    (feats : pyval) : Prop :=
  exists field d,
    In field CANDIDATE_GEOMS /\
    get_json (resource dataset_id) (request_params 5000 field maxLat minLon minLat maxLon)
      = Ret (PDict d) /\
    dict_get d "features" = feats /\ truthy feats = true.

(** A dataset is silent on a box: the request for each candidate field fails
    or returns an object without features *)
Definition silent (dataset_id : string) (minLon minLat maxLon maxLat : float) : Prop :=
  Forall (fun field =>
            exists fv,
              features_of (_safe_get (resource dataset_id)
                             (request_params 5000 field maxLat minLon minLat maxLon))
                = Ret fv /\ truthy fv = false)
         CANDIDATE_GEOMS.

(** [socrata_geojson(dataset_id, minLon, minLat, maxLon, maxLat)], with the
    default [limit=5000] *)
Definition socrata_geojson (dataset_id : string) (minLon minLat maxLon maxLat : float)
  : exn pyval :=
  let north := maxLat in
  let south := minLat in
  let west := minLon in
  let east := maxLon in
  let base := resource dataset_id in
  try_fields base 5000 north west south east CANDIDATE_GEOMS.

Definition fetch_buildings_bbox (bbox : string) : exn pyval :=
  box <- parse_bbox bbox ;;
  let '(minLon, minLat, maxLon, maxLat) := box in
  gj3 <- socrata_geojson buildings_3d minLon minLat maxLon maxLat ;;
  feats <- features_of gj3 ;;
  if truthy feats then Ret feats
  else (gj2 <- socrata_geojson buildings_2d minLon minLat maxLon maxLat ;;
        features_of gj2).

Definition fetch_land_use_bbox (bbox : string) : exn pyval :=
  box <- parse_bbox bbox ;;
  let '(minLon, minLat, maxLon, maxLat) := box in
  gj <- socrata_geojson land_use minLon minLat maxLon maxLat ;;
  features_of gj.

Definition fetch_assessments_bbox (bbox : string) : exn pyval :=
  box <- parse_bbox bbox ;;
  let '(minLon, minLat, maxLon, maxLat) := box in
  gj <- socrata_geojson assessments minLon minLat maxLon maxLat ;;
  features_of gj.

End Requests.

End Fetch.

(* ================================================================== *)
(** * backend/app.py: the filter endpoint *)

Module Api.
Import Py Shapely DataFetch Models App Fetch.

(** [FilterRequest], once validated *)
Record FilterRequest : Type := mkFilterRequest {
  req_bbox : string;
  req_filters : list FilterSpec
}.

(** The object given to [jsonify]; its serialization is not part of the
    model *)
Record FilterResponse : Type := mkFilterResponse {
  ids : list pyval;
  count : nat;
  filters : list FilterSpec
}.

(** [[norm(f) for f in feats]]; a normalizer starts with [f.get], which only
    a dict has *)
Definition norm_each (norm : dict -> exn dict) (feats : pyval) : exn (list dict) :=
  l <- py_iter feats ;;
  map_exn (fun f => match f with
                    | PDict d => norm d
                    | _ => Raise "AttributeError"
                    end) l.

(** [[m.get("id") for m in matched if m.get("id") is not None]] *)
Definition ids_of (matched : list dict) : list pyval :=
  filter (fun v => match v with PNone => false | _ => true end)
         (map (fun m => dict_get m "id") matched).

Section Endpoint.
Context {L : Lib} {H : Http}.

(** The data of a request: [norm_building], [norm_land_use] and
    [norm_assess] over what is fetched, then the enrichment *)
Definition enriched_buildings (bbox : string) : exn (list dict) :=
  bf <- fetch_buildings_bbox bbox ;;
  buildings <- norm_each norm_building bf ;;
  lf <- fetch_land_use_bbox bbox ;;
  landuse <- norm_each norm_land_use lf ;;
  af <- fetch_assessments_bbox bbox ;;
  assessments <- norm_each norm_assess af ;;
  enrich_with_zoning_and_assessment buildings landuse assessments.

Definition filter_endpoint (req : FilterRequest) : exn FilterResponse :=
  buildings <- enriched_buildings (req_bbox req) ;;
  let matched := apply_filters buildings (req_filters req) in
  Ret (mkFilterResponse (ids_of matched) (List.length matched) (req_filters req)).

End Endpoint.

End Api.

(* ================================================================== *)
(** * More small implementations of the interfaces *)

Module Sample2.
Import Py Llm Fetch.

(** A machine without the client library *)
#[local] Instance hub_missing : Services := {|
  hub_import := Raise "ModuleNotFoundError";
  text_generation := fun _ _ _ _ => Raise "unreachable";
  json_loads := Sample.loads
|}.

(** A machine whose [huggingface_hub] has no [InferenceClient] *)
#[local] Instance hub_old : Services := {|
  hub_import := Raise "ImportError";
  text_generation := fun _ _ _ _ => Raise "unreachable";
  json_loads := Sample.loads
|}.

(** A hub whose models go on after the object, as a completion model does *)
Definition chatty : string :=
  Sample.answer_text ++ nl ++ nl ++ "Input: x" ++ nl ++ "Output: {" ++ qt "filters" ++ ":[]}".

#[local] Instance hub_chatty : Services := {|
  hub_import := Ret tt;
  text_generation := fun _ _ _ _ => Ret chatty;
  json_loads := Sample.loads
|}.

(** A hub whose models answer with the empty object *)
#[local] Instance hub_empty : Services := {|
  hub_import := Ret tt;
  text_generation := fun _ _ _ _ => Ret "{}";
  json_loads := Sample.loads
|}.

(** A hub that fails on the first call and answers from the second on,
    whatever the model *)
#[local] Instance hub_waking : Services := {|
  hub_import := Ret tt;
  text_generation := fun n _ _ _ =>
    match n with
    | O => Raise "HfHubHTTPError"
    | _ => Ret Sample.answer
    end;
  json_loads := Sample.loads
|}.

(** [HF_MODEL] set to the second candidate: it is listed twice *)
Definition env_twice : Environ :=
  mkEnviron (Some "hf_token") (Some "HuggingFaceH4/zephyr-7b-beta").

(** A network that is down *)
#[local] Instance net_down : Http := {|
  get_json := fun _ _ => Raise "ConnectionError"
|}.

(** A catalogue that has no 3D buildings, two 2D footprints under the second
    geometry field (one of them without an id), one zoning polygon and no
    assessments *)
Definition footprint (id : pyval) (x0 y0 x1 y1 : Z) : pyval :=
  PDict (Sample.feature (Sample.bbox x0 y0 x1 y1) [("objectid", id)]).

Definition catalogue (url : string) (params : dict) : exn pyval :=
  if String.eqb url "https://data.calgary.ca/resource/uc4c-6kbd.geojson" then
    if str_in "the_geom" (py_str (dict_get params "$where")) then
      Ret (PDict [("type", PStr "FeatureCollection");
                  ("features", PList [footprint (PInt 1) 4 4 6 6;
                                      footprint PNone 40 40 60 60])])
    else Ret (PDict [("features", PList [])])
  else if String.eqb url "https://data.calgary.ca/resource/qe6k-p9nh.geojson" then
    Ret (PDict [("features", PList [PDict Sample.raw_zone_B])])
  else Raise "HTTPError".

#[local] Instance net_catalogue : Http := {| get_json := catalogue |}.

(** A catalogue that answers with a JSON array *)
#[local] Instance net_array : Http := {| get_json := fun _ _ => Ret (PList []) |}.

End Sample2.

(* ================================================================== *)
(** * Facts about the built-ins *)

Module PyFacts.
Import Py.

Lemma dict_find_set_same (d : dict) (k : string) (v : pyval) :
  dict_find (dict_set d k v) k = Some v.
Proof.
  induction d as [|[k' v'] t IH]; simpl.
  - now rewrite String.eqb_refl.
  - destruct (String.eqb k k') eqn:E; simpl.
    + now rewrite String.eqb_refl.
    + now rewrite E.
Qed.

Lemma dict_find_set_other (d : dict) (k k' : string) (v : pyval) :
  k <> k' -> dict_find (dict_set d k v) k' = dict_find d k'.
Proof.
  intros Hne; induction d as [|[k0 v0] t IH]; simpl.
  - destruct (String.eqb k' k) eqn:E; [|reflexivity].
    apply String.eqb_eq in E; congruence.
  - destruct (String.eqb k k0) eqn:E; simpl.
    + apply String.eqb_eq in E; subst k0.
      destruct (String.eqb k' k) eqn:E'; [|reflexivity].
      apply String.eqb_eq in E'; congruence.
    + now rewrite IH.
Qed.

Lemma dict_get_set_same (d : dict) (k : string) (v : pyval) :
  dict_get (dict_set d k v) k = v.
Proof. unfold dict_get; now rewrite dict_find_set_same. Qed.

Lemma dict_get_set_other (d : dict) (k k' : string) (v : pyval) :
  k <> k' -> dict_get (dict_set d k v) k' = dict_get d k'.
Proof. intros H; unfold dict_get; now rewrite dict_find_set_other. Qed.

Lemma lower_empty (s : string) : lower s = "" -> s = "".
Proof. destruct s; simpl; [reflexivity | discriminate]. Qed.

Lemma str_in_list_In (x : string) (l : list string) :
  str_in_list x l = true <-> In x l.
Proof.
  unfold str_in_list; rewrite existsb_exists; split.
  - intros [y [Hy E]]; apply String.eqb_eq in E; now subst.
  - intros H; exists x; split; [assumption | apply String.eqb_refl].
Qed.

End PyFacts.

(* ================================================================== *)
(** * The group of a match *)

Module ReFacts.
Import Py Re.
Local Open Scope nat_scope.

Lemma append_assoc (a b c : string) : ((a ++ b) ++ c = a ++ (b ++ c))%string.
Proof. induction a as [|x a IH]; simpl; [reflexivity | now rewrite IH]. Qed.

Lemma length_append (a b : string) :
  String.length (a ++ b) = String.length a + String.length b.
Proof. induction a as [|x a IH]; simpl; [reflexivity | now rewrite IH]. Qed.

Lemma substring_prefix (w r : string) : substring 0 (String.length w) (w ++ r) = w.
Proof.
  induction w as [|x w IH]; simpl.
  - destruct r; reflexivity.
  - now rewrite IH.
Qed.

Lemma reaches_refl (s : mstate) : reaches "" s s.
Proof. repeat split; simpl; lia. Qed.

Lemma reaches_trans (w1 w2 : string) (s1 s2 s3 : mstate) :
  reaches w1 s1 s2 -> reaches w2 s2 s3 -> reaches (w1 ++ w2) s1 s3.
Proof.
  intros (R1 & P1 & G1) (R2 & P2 & G2); repeat split.
  - now rewrite R1, R2, append_assoc.
  - rewrite P2, P1, length_append; lia.
  - congruence.
Qed.

Lemma eat_sound {A : Type} (p : ascii -> bool) (s : mstate) (k : mstate -> option A) (x : A) :
  eat p s k = Some x ->
  exists c s', p c = true /\ reaches (String c "") s s' /\ k s' = Some x.
Proof.
  unfold eat; destruct s as [ps pv str g]; simpl.
  destruct str as [|c t]; [discriminate|].
  destruct (p c) eqn:E; [|discriminate].
  intros H; exists c; eexists; split; [exact E|]; split; [|exact H].
  repeat split; simpl; lia.
Qed.

Lemma rep_sound {A : Type} (p : ascii -> bool) (lo : nat) (hi : option nat)
    (k : mstate -> option A) (x : A) (str : string) :
  forall taken ps pv g,
    rep p lo hi taken ps pv g str k = Some x ->
    exists w s', all_chr p w = true /\ lo <= taken + String.length w /\
                 reaches w (MState ps pv str g) s' /\ k s' = Some x.
Proof.
  induction str as [|c t IH]; intros taken ps pv g; simpl.
  - destruct (Nat.leb lo taken) eqn:E; [|discriminate].
    apply Nat.leb_le in E. intros H.
    exists "", (MState ps pv "" g); repeat split; simpl; trivial; lia.
  - assert (Hhere : (if Nat.leb lo taken then k (MState ps pv (String c t) g) else None) = Some x ->
                    exists w s', all_chr p w = true /\ lo <= taken + String.length w /\
                                 reaches w (MState ps pv (String c t) g) s' /\ k s' = Some x).
    { destruct (Nat.leb lo taken) eqn:E; [|discriminate].
      apply Nat.leb_le in E. intros H.
      exists "", (MState ps pv (String c t) g); repeat split; simpl; trivial; lia. }
    destruct (match hi with Some h => Nat.ltb taken h | None => true end && p c)%bool eqn:Em;
      [|exact Hhere].
    apply andb_true_iff in Em as [_ Hp].
    destruct (rep p lo hi (S taken) (S ps) (Some c) g t k) as [y|] eqn:Er; [|exact Hhere].
    intros [= <-].
    destruct (IH _ _ _ _ Er) as (w & s' & Hall & Hlo & (R & P & G) & Hk).
    exists (String c w), s'; repeat split; simpl in *; trivial.
    + now rewrite Hp, Hall.
    + lia.
    + now rewrite R.
    + lia.
Qed.

(** A pattern without a group consumes a word of its language and leaves
    the group as it was. *)
Lemma rmatch_sound {A : Type} (r : regex) :
  no_group r = true ->
  forall (s : mstate) (k : mstate -> option A) (x : A),
    rmatch r s k = Some x ->
    exists w s', lang r w /\ reaches w s s' /\ k s' = Some x.
Proof.
  induction r as [|c|p|a IHa b IHb|a IHa b IHb|a IHa|p lo hi| |a IHa];
    intros Hng s k x H; simpl in *.
  - exists "", s; split; [reflexivity|]; split; [apply reaches_refl | exact H].
  - destruct (eat_sound _ _ _ _ H) as (c' & s' & E & R & Hk).
    apply Ascii.eqb_eq in E; subst c'. exists (String c ""), s'; auto.
  - destruct (eat_sound _ _ _ _ H) as (c' & s' & E & R & Hk).
    exists (String c' ""), s'; split; [|split]; eauto.
  - apply andb_true_iff in Hng as [Ha Hb].
    destruct (IHa Ha _ _ _ H) as (w1 & s1 & L1 & R1 & H1).
    destruct (IHb Hb _ _ _ H1) as (w2 & s2 & L2 & R2 & H2).
    exists (w1 ++ w2)%string, s2; split; [|split]; eauto using reaches_trans.
  - apply andb_true_iff in Hng as [Ha Hb].
    destruct (rmatch a s k) as [y|] eqn:Ea.
    + injection H as ->.
      destruct (IHa Ha _ _ _ Ea) as (w & s' & Lw & R & Hk). exists w, s'; auto.
    + destruct (IHb Hb _ _ _ H) as (w & s' & Lw & R & Hk). exists w, s'; auto.
  - destruct (rmatch a s k) as [y|] eqn:Ea.
    + injection H as ->.
      destruct (IHa Hng _ _ _ Ea) as (w & s' & Lw & R & Hk). exists w, s'; auto.
    + exists "", s; split; [now left|]; split; [apply reaches_refl | exact H].
  - destruct (rep_sound _ _ _ _ _ _ _ _ _ _ H) as (w & s' & Hall & Hlo & R & Hk).
    exists w, s'; split; [|split]; trivial. split; [exact Hall | lia].
  - destruct (at_boundary s); [|discriminate].
    exists "", s; split; [reflexivity|]; split; [apply reaches_refl | exact H].
  - discriminate.
Qed.

Lemma search_from_inv (r : regex) (str : string) :
  forall ps pv sf,
    search_from r ps pv str = Some sf ->
    exists s, rmatch r s (fun s' => Some s') = Some sf /\ grp s = None.
Proof.
  induction str as [|c t IH]; intros ps pv sf; simpl.
  - destruct (rmatch r (MState ps pv "" None) _) as [y|] eqn:E; [|discriminate].
    intros [= <-]; eexists; split; [exact E | reflexivity].
  - destruct (rmatch r (MState ps pv (String c t) None) _) as [y|] eqn:E.
    + intros [= <-]; eexists; split; [exact E | reflexivity].
    + apply IH.
Qed.

(** The group of a pattern [(body) tail] is a word of [body]. *)
Lemma search_group (body tail : regex) (text g : string) :
  no_group body = true -> no_group tail = true ->
  search (Cat (Grp body) tail) text = Some g -> lang body g.
Proof.
  intros Hb Ht; unfold search.
  destruct (search_from _ 0 None text) as [sf|] eqn:E; [|discriminate].
  intros Hg.
  apply search_from_inv in E as (s & E & _).
  cbn [rmatch] in E.
  destruct (rmatch_sound body Hb _ _ _ E) as (w & s1 & Lw & (R & P & G) & H1).
  destruct (rmatch_sound tail Ht _ _ _ H1) as (w2 & s2 & _ & (_ & _ & G2) & H2).
  injection H2 as <-. cbn [grp] in G2.
  rewrite Hg in G2.
  replace (pos s1 - pos s) with (String.length w) in G2 by lia.
  rewrite R, substring_prefix in G2. congruence.
Qed.

End ReFacts.

(* ================================================================== *)
(** * [float] on the numbers the patterns capture *)

Module FloatFacts.
Import Py Re ReFacts.

Lemma digit_chr (c : ascii) :
  is_digit c = true ->
  is_float_space c = false /\ lower_chr c = c /\
  Ascii.eqb c "-" = false /\ Ascii.eqb c "+" = false /\
  Ascii.eqb c "_" = false /\ Ascii.eqb c "." = false /\
  Ascii.eqb c "i" = false /\ Ascii.eqb c "n" = false.
Proof.
  destruct c as [[] [] [] [] [] [] [] []]; intros H; vm_compute in H;
    try discriminate H; repeat split; reflexivity.
Qed.

Lemma list_of_append (a b : string) :
  list_ascii_of_string (a ++ b) = (list_ascii_of_string a ++ list_ascii_of_string b)%list.
Proof. induction a as [|x a IH]; simpl; [reflexivity | now rewrite IH]. Qed.

Lemma all_chr_forallb (p : ascii -> bool) (w : string) :
  all_chr p w = forallb p (list_ascii_of_string w).
Proof. induction w as [|x w IH]; simpl; [reflexivity | now rewrite IH]. Qed.

Lemma digits_tail_digits (ds r : list ascii) :
  forallb is_digit ds = true -> stops r ->
  forall acc cnt, exists acc' cnt', digits_tail acc cnt (ds ++ r) = (acc', cnt', r).
Proof.
  intros Hds Hr; induction ds as [|d ds IH]; intros acc cnt.
  - cbn [app]. destruct r as [|c t]; [do 2 eexists; reflexivity|].
    destruct Hr as [Hd Hu]. cbn [digits_tail]. rewrite Hd, Hu.
    do 2 eexists; reflexivity.
  - cbn [forallb] in Hds; apply andb_true_iff in Hds as [Hd Hds].
    cbn [app digits_tail]. rewrite Hd. apply IH; assumption.
Qed.

Lemma digitpart_digits (ds r : list ascii) (acc : Z) :
  ds <> [] -> forallb is_digit ds = true -> stops r ->
  exists n k, digitpart acc (ds ++ r) = Some (n, k, r).
Proof.
  intros Hne Hds Hr; destruct ds as [|d ds]; [contradiction|].
  simpl in Hds; apply andb_true_iff in Hds as [Hd Hds].
  unfold digitpart; cbn [app]; rewrite Hd.
  destruct (digits_tail_digits ds r Hds Hr (10 * acc + digit_val d)%Z 1%Z) as (n & k & E).
  rewrite E; eauto.
Qed.

Lemma number_decimal (l : list ascii) :
  decimal_form l -> exists n k, number l = Some (n, k, []).
Proof.
  intros (ds1 & ds2 & Hne & H1 & H2 & [->|[Hne2 ->]]); unfold number.
  - destruct (digitpart_digits ds1 [] 0 Hne H1 I) as (n & k & E).
    rewrite app_nil_r in E; rewrite E; eauto.
  - destruct (digitpart_digits ds1 ("."%char :: ds2) 0 Hne H1) as (n & k & E);
      [split; reflexivity|].
    rewrite E. cbn [Ascii.eqb Bool.eqb].
    destruct (digitpart_digits ds2 [] n Hne2 H2 I) as (n' & k' & E').
    rewrite app_nil_r in E'; rewrite E'; eauto.
Qed.

Lemma decimal_form_ends (l : list ascii) :
  decimal_form l ->
  (exists c t, l = c :: t /\ is_digit c = true) /\
  (exists t d, l = (t ++ [d])%list /\ is_digit d = true).
Proof.
  assert (Hlast : forall ds, ds <> [] -> forallb is_digit ds = true ->
                             exists t d, ds = (t ++ [d])%list /\ is_digit d = true).
  { intros ds Hne Hds. destruct (exists_last Hne) as (t & d & ->).
    rewrite forallb_app in Hds; apply andb_true_iff in Hds as [_ Hd].
    simpl in Hd; rewrite andb_true_r in Hd. eauto. }
  intros (ds1 & ds2 & Hne & H1 & H2 & Hl); split.
  - destruct ds1 as [|c t]; [contradiction|].
    simpl in H1; apply andb_true_iff in H1 as [Hc _].
    destruct Hl as [->|[_ ->]]; simpl; eauto.
  - destruct Hl as [->|[Hne2 ->]]; [now apply Hlast|].
    destruct (Hlast ds2 Hne2 H2) as (t & d & -> & Hd).
    exists (ds1 ++ "."%char :: t)%list, d; split; [|exact Hd].
    now rewrite <- app_assoc.
Qed.

Lemma strip_decimal (l : list ascii) : decimal_form l -> strip l = l.
Proof.
  intros H; destruct (decimal_form_ends l H) as [(c & t & E & Hc) (t' & d & E' & Hd)].
  apply digit_chr in Hc as (Hc & _); apply digit_chr in Hd as (Hd & _).
  unfold strip.
  assert (L1 : lstrip l = l) by (rewrite E; simpl; now rewrite Hc).
  rewrite L1. rewrite E' at 1. rewrite rev_unit. simpl; rewrite Hd.
  rewrite <- rev_unit, <- E'. apply rev_involutive.
Qed.

(** [float] accepts every such number. *)
Lemma float_of_decimal_form (w : string) :
  decimal_form (list_ascii_of_string w) -> exists x, float_of_string w = Ret x.
Proof.
  intros H; unfold float_of_string.
  rewrite (strip_decimal _ H).
  destruct (number_decimal _ H) as (n & k & Hnum).
  destruct (decimal_form_ends _ H) as [(c & t & E & Hc) _].
  apply digit_chr in Hc as (_ & Hlow & Hm & Hp & _ & _ & Hi & Hn).
  set (l := list_ascii_of_string w) in *.
  assert (Hs : split_sign l = (false, l)).
  { rewrite E; unfold split_sign. now rewrite Hm, Hp. }
  assert (Hw : forall rest, String.eqb (lower (string_of_list_ascii l)) (String "i" rest) = false).
  { intros rest; rewrite E. cbn [string_of_list_ascii lower String.eqb].
    now rewrite Hlow, Hi. }
  assert (Hw' : String.eqb (lower (string_of_list_ascii l)) "nan" = false).
  { rewrite E. cbn [string_of_list_ascii lower String.eqb]. now rewrite Hlow, Hn. }
  rewrite Hs, !Hw, Hw', Hnum. cbn [orb exponent]. eauto.
Qed.

Lemma lang_digits (w : string) :
  lang (Rep is_digit 1 None) w ->
  list_ascii_of_string w <> [] /\ forallb is_digit (list_ascii_of_string w) = true.
Proof.
  intros [Hall Hlen]; split.
  - destruct w; simpl in *; [lia | discriminate].
  - now rewrite <- all_chr_forallb.
Qed.

Lemma lang_digits_form (w : string) :
  lang (Rep is_digit 1 None) w -> decimal_form (list_ascii_of_string w).
Proof.
  intros H; apply lang_digits in H as [Hne Hall].
  exists (list_ascii_of_string w), []; auto.
Qed.

Lemma lang_decimal_form (w : string) :
  lang (Cat (Rep is_digit 1 None) (Opt (Cat (Chr ".") (Rep is_digit 1 None)))) w ->
  decimal_form (list_ascii_of_string w).
Proof.
  intros (w1 & w2 & -> & H1 & H2).
  apply lang_digits in H1 as [Hne1 Hall1].
  destruct H2 as [->|(wa & wb & -> & -> & Hb)].
  - exists (list_ascii_of_string w1), []; repeat split; trivial.
    left. rewrite list_of_append; simpl. apply app_nil_r.
  - apply lang_digits in Hb as [Hne2 Hall2].
    exists (list_ascii_of_string w1), (list_ascii_of_string wb); repeat split; trivial.
    right; split; [assumption|]. now rewrite list_of_append.
Qed.

End FloatFacts.

(* ================================================================== *)
(** * The filter engine *)

Module FilterFacts.
Import Py Models App PyFacts.
Local Open Scope float_scope.

Lemma apply_filters_app (bs : list dict) (fs1 fs2 : list FilterSpec) :
  apply_filters bs (fs1 ++ fs2) = apply_filters (apply_filters bs fs1) fs2.
Proof.
  unfold apply_filters; induction bs as [|b t IH]; simpl; [reflexivity|].
  rewrite forallb_app.
  destruct (forallb (ok b) fs1); simpl.
  - destruct (forallb (ok b) fs2); now rewrite IH.
  - exact IH.
Qed.

Lemma apply_filters_In (bs : list dict) (fs : list FilterSpec) (b : dict) :
  In b (apply_filters bs fs) <-> In b bs /\ forall s, In s fs -> ok b s = true.
Proof. unfold apply_filters; now rewrite filter_In, forallb_forall. Qed.

(** C3. [apply_filters] keeps, in their order, exactly the buildings that
    pass every spec: no spec keeps them all, and two specs keep the buildings
    that each of the two keeps on its own. *)
Theorem apply_filters_is_conjunction :
  (forall bs, apply_filters bs [] = bs) /\
  (forall bs fs, apply_filters bs fs = filter (fun b => forallb (ok b) fs) bs) /\
  (forall bs fs b,
      In b (apply_filters bs fs) <-> In b bs /\ forall s, In s fs -> ok b s = true) /\
  (forall bs s1 s2,
      apply_filters bs [s1; s2] = filter (fun b => ok b s1 && ok b s2)%bool bs /\
      apply_filters bs [s1; s2] = apply_filters (apply_filters bs [s1]) [s2] /\
      forall b, In b (apply_filters bs [s1; s2]) <->
                In b (apply_filters bs [s1]) /\ In b (apply_filters bs [s2])).
Proof.
  split; [|split; [|split]].
  - intros bs; unfold apply_filters; simpl.
    induction bs as [|b t IH]; simpl; congruence.
  - reflexivity.
  - exact apply_filters_In.
  - intros bs s1 s2; split; [|split].
    + unfold apply_filters; apply filter_ext; intros b; simpl.
      now rewrite andb_true_r.
    + exact (apply_filters_app bs [s1] [s2]).
    + intros b; rewrite !apply_filters_In; simpl; split.
      * intros [Hb H]; repeat split; try assumption;
          intros s [<-|[]]; apply H; auto.
      * intros [[Hb H1] [_ H2]]; split; [assumption|].
        intros s [<-|[<-|[]]]; [apply H1 | apply H2]; auto.
Qed.

Lemma compare_num_eq (x y : float) :
  compare_num "=" x y = (abs (x - y) <? 1e-6).
Proof. reflexivity. Qed.

(** [ok] on a numeric attribute, by what the two coercions give *)
Lemma ok_numeric (f : dict) (attr op : string) (v : pyval) :
  In attr numeric_attrs ->
  ok f (mkFilterSpec attr op v) =
    match py_float (dict_get f attr), py_float v with
    | Ret x, Ret y => compare_num op x y
    | _, _ => false
    end.
Proof.
  intros Hin; apply str_in_list_In in Hin.
  unfold ok; cbn [attribute operator value]; rewrite Hin.
  destruct (dict_get f attr) eqn:E; cbn [py_float bind];
    try (destruct (py_float v); reflexivity).
  - destruct (float_of_Z z); cbn [bind]; [|reflexivity].
    destruct (py_float v); reflexivity.
  - destruct (float_of_string s); cbn [bind]; [|reflexivity].
    destruct (py_float v); reflexivity.
Qed.

(** C6. On [height_m], [levels] and [assessed_value] the operator [=] holds
    exactly when both values coerce to floats whose absolute difference is
    below [1e-6]; an absent field or a failed coercion gives [False], and
    nothing is raised ([ok] is a total function to [bool]). *)
Theorem numeric_equality_tolerance (f : dict) (attr : string) (v : pyval) :
  In attr numeric_attrs ->
  (ok f (mkFilterSpec attr "=" v) = true <->
     exists x y, py_float (dict_get f attr) = Ret x /\ py_float v = Ret y /\
                 (abs (x - y) <? 1e-6) = true) /\
  (dict_find f attr = None -> ok f (mkFilterSpec attr "=" v) = false) /\
  (returns (py_float (dict_get f attr)) = false -> ok f (mkFilterSpec attr "=" v) = false) /\
  (returns (py_float v) = false -> ok f (mkFilterSpec attr "=" v) = false).
Proof.
  intros Hin; rewrite (ok_numeric f attr "=" v Hin).
  split; [|split; [|split]].
  - destruct (py_float (dict_get f attr)) as [x|e]; destruct (py_float v) as [y|e'];
      rewrite ?compare_num_eq; split;
      try (intros H; discriminate H);
      try (intros (x' & y' & H1 & H2 & _); discriminate).
    + intros H; exists x, y; auto.
    + intros (x' & y' & H1 & H2 & H3); congruence.
  - intros Hnone; unfold dict_get; rewrite Hnone; reflexivity.
  - destruct (py_float (dict_get f attr)); [discriminate | reflexivity].
  - destruct (py_float (dict_get f attr)); destruct (py_float v);
      try reflexivity; discriminate.
Qed.

(** The specification's example: [500000.0000001] matches [= 500000]. *)
Lemma numeric_equality_tolerance_example :
  ok [("assessed_value", PFloat 500000.0000001)]
     (mkFilterSpec "assessed_value" "=" (PInt 500000)) = true.
Proof.
  refine (proj2 (proj1 (numeric_equality_tolerance
            [("assessed_value", PFloat 500000.0000001)] "assessed_value" (PInt 500000) _)) _).
  - simpl; auto.
  - exists 500000.0000001, 500000; repeat split; vm_compute; reflexivity.
Defined.

End FilterFacts.

(* ================================================================== *)
(** * The enrichment *)

Module EnrichFacts.
Import Py Shapely App PyFacts.

Lemma set_defaults_geometry (b : dict) :
  dict_get (set_defaults b) "geometry" = dict_get b "geometry".
Proof.
  unfold set_defaults.
  rewrite !dict_get_set_other by discriminate; reflexivity.
Qed.

Lemma set_defaults_values (b : dict) :
  dict_get (set_defaults b) "zoning" = PStr "Unknown" /\
  dict_get (set_defaults b) "assessed_value" = PNone.
Proof.
  unfold set_defaults; split.
  - rewrite dict_get_set_other by discriminate. apply dict_get_set_same.
  - apply dict_get_set_same.
Qed.

Section WithShapely.
Context {L : Lib}.

Lemma for_each_Ret (body : dict -> exn dict) (bs bs' : list dict) :
  for_each body bs = Ret bs' <-> Forall2 (fun b b' => body b = Ret b') bs bs'.
Proof.
  revert bs'; induction bs as [|b t IH]; intros bs'; simpl.
  - split.
    + intros [= <-]; constructor.
    + intros H; inversion H; reflexivity.
  - split.
    + destruct (body b) as [b1|e] eqn:Eb; cbn [bind]; [|discriminate].
      destruct (for_each body t) as [t1|e] eqn:Et; cbn [bind]; [|discriminate].
      intros [= <-]; constructor; [assumption | now apply IH].
    + intros H; inversion H as [|? b1 ? t1 Hb Ht]; subst.
      rewrite Hb; cbn [bind].
      apply IH in Ht; rewrite Ht; reflexivity.
Qed.

Lemma for_each_returns (body : dict -> exn dict) (bs : list dict) :
  Forall (fun b => returns (body b) = true) bs -> returns (for_each body bs) = true.
Proof.
  induction 1 as [|b t Hb _ IH]; simpl; [reflexivity|].
  destruct (body b); [|discriminate]; cbn [bind].
  destruct (for_each body t); [reflexivity | discriminate].
Qed.

(** A building without a geometry only gets the two defaults. *)
Lemma enrich_one_no_geometry lu asm gl ga (b : dict) :
  truthy (dict_get b "geometry") = false ->
  enrich_one lu asm gl ga b = Ret (set_defaults b).
Proof.
  intros H; unfold enrich_one.
  now rewrite set_defaults_geometry, H.
Qed.

(** Without polygons a building gets the two defaults or its geometry
    raises. *)
Lemma enrich_one_no_polygons (b : dict) :
  enrich_one [] [] [] [] b = Ret (set_defaults b) \/
  exists e, enrich_one [] [] [] [] b = Raise e.
Proof.
  unfold enrich_one; rewrite set_defaults_geometry.
  destruct (truthy (dict_get b "geometry")); cbn [negb]; [|now left].
  destruct (shape (dict_get b "geometry")) as [g|e]; cbn [bind]; [|right; eauto].
  destruct (centroid g) as [c|e]; cbn [bind]; [|right; eauto].
  now left.
Qed.

Lemma enrich_one_returns lu asm gl ga (b : dict) :
  (truthy (dict_get b "geometry") = true ->
   returns (g <- shape (dict_get b "geometry") ;; centroid g) = true) ->
  returns (enrich_one lu asm gl ga b) = true.
Proof.
  intros H; unfold enrich_one; rewrite set_defaults_geometry.
  destruct (truthy (dict_get b "geometry")); cbn [negb]; [|reflexivity].
  specialize (H eq_refl).
  destruct (shape (dict_get b "geometry")) as [g|e]; cbn [bind] in *; [|discriminate].
  destruct (centroid g) as [c|e]; cbn [bind] in *; [reflexivity | discriminate].
Qed.

(** C5. Whenever the enrichment returns, a building without a geometry has
    only been given zoning ["Unknown"] and assessed value [None], whatever the
    zoning and assessment records are; with no records at all this is so for
    every building. The enrichment returns as soon as [shape] and [centroid]
    accept the geometries it converts. *)
Theorem enrichment_defaults :
  (forall bs lu asm bs',
      enrich_with_zoning_and_assessment bs lu asm = Ret bs' ->
      forall i b, nth_error bs i = Some b ->
                  truthy (dict_get b "geometry") = false ->
                  nth_error bs' i = Some (set_defaults b) /\
                  dict_get (set_defaults b) "zoning" = PStr "Unknown" /\
                  dict_get (set_defaults b) "assessed_value" = PNone) /\
  (forall bs bs',
      enrich_with_zoning_and_assessment bs [] [] = Ret bs' ->
      bs' = map set_defaults bs /\
      Forall (fun b' => dict_get b' "zoning" = PStr "Unknown" /\
                        dict_get b' "assessed_value" = PNone) bs') /\
  (forall bs lu asm,
      returns (geoms_of lu) = true ->
      returns (geoms_of asm) = true ->
      Forall (fun b => truthy (dict_get b "geometry") = true ->
                       returns (g <- shape (dict_get b "geometry") ;; centroid g) = true) bs ->
      returns (enrich_with_zoning_and_assessment bs lu asm) = true).
Proof.
  split; [|split].
  - intros bs lu asm bs' H i b Hi Hg.
    unfold enrich_with_zoning_and_assessment in H.
    destruct (geoms_of lu) as [gl|e]; cbn [bind] in H; [|discriminate].
    destruct (geoms_of asm) as [ga|e]; cbn [bind] in H; [|discriminate].
    apply for_each_Ret in H.
    split; [|apply set_defaults_values].
    revert i Hi; induction H as [|b0 b0' t t' Hb Ht IH]; intros i Hi.
    + destruct i; discriminate.
    + destruct i as [|i]; simpl in *.
      * injection Hi as ->.
        rewrite (enrich_one_no_geometry _ _ _ _ _ Hg) in Hb. congruence.
      * now apply IH.
  - intros bs bs' H.
    unfold enrich_with_zoning_and_assessment in H; cbn [geoms_of bind] in H.
    apply for_each_Ret in H.
    assert (E : bs' = map set_defaults bs).
    { induction H as [|b b' t t' Hb Ht IH]; simpl; [reflexivity|].
      destruct (enrich_one_no_polygons b) as [Hd|[e He]]; [|congruence].
      rewrite Hd in Hb; injection Hb as <-. now rewrite IH. }
    split; [assumption|].
    subst bs'; apply Forall_forall; intros b' Hin.
    apply in_map_iff in Hin as (b & <- & _). apply set_defaults_values.
  - intros bs lu asm Hl Ha Hbs.
    unfold enrich_with_zoning_and_assessment.
    destruct (geoms_of lu) as [gl|e]; [|discriminate]; cbn [bind].
    destruct (geoms_of asm) as [ga|e]; [|discriminate]; cbn [bind].
    apply for_each_returns.
    eapply Forall_impl; [|exact Hbs].
    intros b Hb; now apply enrich_one_returns.
Qed.

(** The two loops stop at the first polygon that contains the point, and
    read the records at its position in the list of polygons. *)
Lemma scan_position (recs : list dict) (key : string) (c g : Geom) (v : pyval)
    (pre post : list Geom) :
  Forall (fun g' => contains g' c = Ret false) pre ->
  contains g c = Ret true ->
  forall i, lookup recs (i + List.length pre) key = Ret v ->
            scan recs key c i (pre ++ g :: post) = Ret (Some v).
Proof.
  intros Hpre Hg; induction Hpre as [|g' t Hg' _ IH]; intros i Hl; cbn [app scan].
  - unfold probe. rewrite Hg; cbn [bind].
    rewrite Nat.add_0_r in Hl. now rewrite Hl.
  - unfold probe at 1. rewrite Hg'; cbn [bind].
    apply IH. cbn [List.length] in Hl. now rewrite Nat.add_succ_r in Hl.
Qed.

Lemma scan_safe_position (recs : list dict) (key : string) (c g : Geom) (v : pyval)
    (pre post : list Geom) :
  Forall (fun g' => contains g' c <> Ret true) pre ->
  contains g c = Ret true ->
  forall i, lookup recs (i + List.length pre) key = Ret v ->
            scan_safe recs key c i (pre ++ g :: post) = Some v.
Proof.
  intros Hpre Hg; induction Hpre as [|g' t Hg' _ IH]; intros i Hl; cbn [app scan_safe].
  - unfold probe. rewrite Hg; cbn [bind].
    rewrite Nat.add_0_r in Hl. now rewrite Hl.
  - assert (E : probe recs key c i g' = Ret None \/ exists e, probe recs key c i g' = Raise e).
    { unfold probe. destruct (contains g' c) as [[]|e]; cbn [bind]; eauto. congruence. }
    cbn [List.length] in Hl; rewrite Nat.add_succ_r in Hl.
    destruct E as [->|[e ->]]; now apply IH.
Qed.

(** What an overlay stores: the field of the record found, in the unfiltered
    list, at the position that the first polygon containing the point has in
    the filtered one; for a tree that finds nothing, raises, or answers with
    that position first. *)
Lemma overlay_position (recs : list dict) (key : string) (c g : Geom) (v : pyval)
    (pre post : list Geom) :
  Forall (fun g' => contains g' c = Ret false) pre ->
  contains g c = Ret true ->
  lookup recs (List.length pre) key = Ret v ->
  (query_contains (pre ++ g :: post) c = Ret [] \/
   (exists e, query_contains (pre ++ g :: post) c = Raise e) \/
   (exists rest, query_contains (pre ++ g :: post) c = Ret (List.length pre :: rest))) ->
  overlay recs key (pre ++ g :: post) c = Some v.
Proof.
  intros Hpre Hg Hl Hq.
  assert (Hs : scan recs key c 0 (pre ++ g :: post) = Ret (Some v))
    by (now apply scan_position).
  assert (Hs' : scan_safe recs key c 0 (pre ++ g :: post) = Some v).
  { apply scan_safe_position; trivial.
    eapply Forall_impl; [|exact Hpre]. intros g' E; rewrite E; discriminate. }
  unfold overlay.
  destruct (pre ++ g :: post)%list as [|g0 gs] eqn:E.
  - destruct pre; discriminate.
  - destruct Hq as [->|[[e ->]| [rest ->]]]; cbn [bind try_except].
    + now rewrite Hs.
    + exact Hs'.
    + now rewrite Hl.
Qed.

(** When every record has a geometry, the polygons are those of the records,
    position by position. *)
Lemma geoms_of_aligned (recs : list dict) (gs : list Geom) :
  Forall (fun r => truthy (dict_get r "geometry") = true) recs ->
  geoms_of recs = Ret gs ->
  Forall2 (fun r g => shape (dict_get r "geometry") = Ret g) recs gs.
Proof.
  intros Hall; revert gs; induction Hall as [|r t Hr _ IH]; intros gs; cbn [geoms_of].
  - intros [= <-]; constructor.
  - rewrite Hr.
    destruct (shape (dict_get r "geometry")) as [g|e] eqn:Eg; cbn [bind]; [|discriminate].
    destruct (geoms_of t) as [gt|e]; cbn [bind]; [|discriminate].
    intros [= <-]; constructor; [exact Eg | now apply IH].
Qed.

(** What an overlay stores when the only polygon of the index contains the
    point: the field of the record at position 0 of the unfiltered list,
    whatever the tree answers. *)
Lemma overlay_single (recs : list dict) (key : string) (g c : Geom) (r0 : dict) (v : pyval) :
  contains g c = Ret true ->
  nth_error recs 0 = Some r0 ->
  dict_find r0 key = Some v ->
  overlay recs key [g] c = Some v.
Proof.
  intros Hc Hr Hv.
  assert (Hl : lookup recs 0 key = Ret v).
  { unfold lookup, list_item, dict_item. rewrite Hr; cbn [bind]. now rewrite Hv. }
  destruct (query_contains [g] c) as [idxs|e] eqn:Q.
  - apply (overlay_position recs key c g v [] []); trivial.
    destruct idxs as [|idx rest]; [now left|].
    right; right. exists rest.
    pose proof (query_in_range _ _ _ Q) as R.
    inversion R as [|? ? Hidx _]; subst.
    simpl in Hidx. assert (idx = 0%nat) as -> by lia. exact Q.
  - apply (overlay_position recs key c g v [] []); trivial.
    right; left; eauto.
Qed.

(** C1, on the code. The index is built from the records that have a
    geometry, and a position in it is then used in the whole list. With a
    first zoning record [r0] without a geometry and a second one [r1] whose
    polygon contains the centroid of the building, the building receives the
    label of [r0], not that of [r1], for every answer of the tree. *)
Theorem enrich_reads_unfiltered_list (b r0 r1 : dict) (gb c g : Geom) (z0 : pyval) :
  truthy (dict_get r0 "geometry") = false ->
  dict_find r0 "zoning" = Some z0 ->
  truthy (dict_get r1 "geometry") = true ->
  shape (dict_get r1 "geometry") = Ret g ->
  truthy (dict_get b "geometry") = true ->
  shape (dict_get b "geometry") = Ret gb ->
  centroid gb = Ret c ->
  contains g c = Ret true ->
  exists b',
    enrich_with_zoning_and_assessment [b] [r0; r1] [] = Ret [b'] /\
    dict_get b' "zoning" = z0.
Proof.
  intros Hr0 Hz Hr1 Hg Hb Hgb Hc Hcont.
  unfold enrich_with_zoning_and_assessment.
  cbn [geoms_of]. rewrite Hr0, Hr1, Hg. cbn [bind geoms_of for_each].
  unfold enrich_one. rewrite set_defaults_geometry, Hb; cbn [negb].
  rewrite Hgb; cbn [bind]. rewrite Hc; cbn [bind].
  rewrite (overlay_single [r0; r1] "zoning" g c r0 z0 Hcont eq_refl Hz).
  cbn [overlay store].
  eexists; split; [reflexivity|].
  apply dict_get_set_same.
Qed.

Lemma for_each_raises (body : dict -> exn dict) (bs : list dict) (b : dict) :
  In b bs -> returns (body b) = false -> returns (for_each body bs) = false.
Proof.
  induction bs as [|b0 t IH]; intros Hin Hb; [destruct Hin|].
  cbn [for_each]. destruct (body b0) as [b0'|e] eqn:E0; cbn [bind]; [|reflexivity].
  destruct Hin as [->|Hin]; [rewrite E0 in Hb; discriminate Hb|].
  specialize (IH Hin Hb). destruct (for_each body t); [discriminate | reflexivity].
Qed.

(** C2, on the code. The conversion of a building's geometry is outside every
    [try]: when [shape] raises on the geometry of one building of the batch,
    the enrichment raises. *)
Theorem enrich_raises_on_malformed_geometry
    (b : dict) (bs lu asm : list dict) (e : string) :
  In b bs ->
  truthy (dict_get b "geometry") = true ->
  shape (dict_get b "geometry") = Raise e ->
  exists e', enrich_with_zoning_and_assessment bs lu asm = Raise e'.
Proof.
  intros Hin Hb Hs.
  assert (R : forall (c : exn (list dict)), returns c = false -> exists e', c = Raise e').
  { intros [l|e'] H; [discriminate | eauto]. }
  apply R. unfold enrich_with_zoning_and_assessment.
  destruct (geoms_of lu) as [gl|e1]; cbn [bind]; [|reflexivity].
  destruct (geoms_of asm) as [ga|e2]; cbn [bind]; [|reflexivity].
  apply (for_each_raises _ bs b Hin).
  unfold enrich_one. rewrite set_defaults_geometry, Hb; cbn [negb].
  rewrite Hs; reflexivity.
Qed.

End WithShapely.

(** The sample records are what the normalizers make of the sample
    features. *)
Example sample_records :
  DataFetch.norm_land_use Sample.raw_zone_A = Ret Sample.zone_A /\
  DataFetch.norm_land_use Sample.raw_zone_B = Ret Sample.zone_B /\
  DataFetch.norm_building Sample.raw_house = Ret Sample.house /\
  DataFetch.norm_building Sample.raw_shed = Ret Sample.shed /\
  DataFetch.norm_building Sample.raw_ruin = Ret Sample.ruin.
Proof. repeat split; vm_compute; reflexivity. Qed.

(** With the zoning records in the other order the building [house] is
    labelled ["B"], and the building without a geometry ["Unknown"]. *)
Example enrich_sample :
  enrich_with_zoning_and_assessment (L := Sample.box_lib)
    [Sample.house; Sample.shed] [Sample.zone_B; Sample.zone_A] []
  = Ret [dict_set (set_defaults Sample.house) "zoning" (PStr "B");
         set_defaults Sample.shed].
Proof. vm_compute; reflexivity. Qed.

(** The building [house] lies in the polygon of [zone_B] only, and is
    labelled ["A"]. *)
Lemma enrich_reads_unfiltered_list_sample :
  exists b',
    enrich_with_zoning_and_assessment (L := Sample.box_lib)
      [Sample.house] [Sample.zone_A; Sample.zone_B] [] = Ret [b'] /\
    dict_get b' "zoning" = PStr "A".
Proof.
  apply (enrich_reads_unfiltered_list (L := Sample.box_lib)
           Sample.house Sample.zone_A Sample.zone_B
           (4, 4, 6, 6)%Z (5, 5, 5, 5)%Z (0, 0, 10, 10)%Z (PStr "A"));
    reflexivity.
Defined.

(** The building [ruin] has a geometry that [shape] refuses: the batch is
    lost, the buildings before and after it with it. *)
Lemma enrich_raises_on_malformed_geometry_sample :
  exists e',
    enrich_with_zoning_and_assessment (L := Sample.box_lib)
      [Sample.house; Sample.ruin; Sample.shed] [Sample.zone_B] [] = Raise e'.
Proof.
  apply (enrich_raises_on_malformed_geometry (L := Sample.box_lib)
           Sample.ruin [Sample.house; Sample.ruin; Sample.shed] [Sample.zone_B] []
           "GeometryTypeError").
  - right; left; reflexivity.
  - reflexivity.
  - reflexivity.
Defined.

End EnrichFacts.

(* ================================================================== *)
(** * The normalizer *)

Module NormFacts.
Import Py DataFetch PyFacts.
Local Open Scope float_scope.

(** A candidate list none of whose keys is in the map resolves to nothing. *)
Lemma resolve_height_absent (props : dict) (keys : list string) :
  (forall k, In k keys -> dict_find props k = None) ->
  resolve_height props keys = None.
Proof.
  induction keys as [|k t IH]; intros H; simpl; [reflexivity|].
  unfold dict_get; rewrite (H k) by (now left).
  apply IH; intros k' Hk'; apply H; now right.
Qed.

Lemma resolve_levels_absent (props : dict) (keys : list string) :
  (forall k, In k keys -> dict_find props k = None) ->
  resolve_levels props keys = None.
Proof.
  induction keys as [|k t IH]; intros H; simpl; [reflexivity|].
  unfold dict_get; rewrite (H k) by (now left).
  apply IH; intros k' Hk'; apply H; now right.
Qed.

Lemma six_storeys : float_of_Z 6 = Ret 6 /\ 6 * 3.0 = 18.0.
Proof. split; vm_compute; reflexivity. Qed.

Lemma default_height_levels : py_round (12.0 / 3.0) = Ret 4%Z.
Proof. vm_compute; reflexivity. Qed.

(** [norm_building] once the two loops are done *)
Lemma norm_building_unfold (f props : dict) :
  props_of f = Ret props ->
  norm_building f =
    (height1 <- match resolve_height props height_candidates,
                      resolve_levels props level_candidates with
                | None, Some l => (x <- float_of_Z l ;; Ret (Some (x * 3.0)))
                | h, _ => Ret h
                end ;;
     let height_m := match height1 with Some h => h | None => 12.0 end in
     levels' <- match resolve_levels props level_candidates with
                | Some l => Ret l
                | None => py_round (height_m / 3.0)
                end ;;
     Ret [ ("id", get_or props ["objectid"; "id"; "OBJECTID"; "bldg_id"; "BLDG_ID"; "mapid"; "MAPID"]);
           ("geometry", dict_get f "geometry");
           ("height_m", PFloat height_m);
           ("levels", PInt levels');
           ("address", get_or props ["address"; "ADDRESS"; "civic_address"]);
           ("zoning", get_or props ["zoning"; "ZONING"; "land_use"; "LAND_USE"]);
           ("assessed_value", PNone);
           ("raw", PDict props) ]).
Proof.
  intros Hp; unfold norm_building; rewrite Hp; cbn [bind].
  destruct (resolve_height props height_candidates);
    destruct (resolve_levels props level_candidates); reflexivity.
Qed.

(** Where the resolution works. With no height and 6 levels the height is
    [18.0]; with neither, the height is [12.0] and the levels are [4]; with a
    height [h] and no levels, the levels are [round(h / 3.0)], and the
    building is returned exactly when that rounding has a value. A returned
    building has both, a float and an integer. *)
Lemma height_levels_resolution (f props : dict) :
  props_of f = Ret props ->
  (resolve_height props height_candidates = None ->
   resolve_levels props level_candidates = Some 6%Z ->
   exists d, norm_building f = Ret d /\
             dict_get d "height_m" = PFloat 18.0 /\ dict_get d "levels" = PInt 6) /\
  (resolve_height props height_candidates = None ->
   resolve_levels props level_candidates = None ->
   exists d, norm_building f = Ret d /\
             dict_get d "height_m" = PFloat 12.0 /\ dict_get d "levels" = PInt 4) /\
  (forall h,
      resolve_height props height_candidates = Some h ->
      resolve_levels props level_candidates = None ->
      (forall l, py_round (h / 3.0) = Ret l ->
                 exists d, norm_building f = Ret d /\
                           dict_get d "height_m" = PFloat h /\ dict_get d "levels" = PInt l) /\
      (forall e, py_round (h / 3.0) = Raise e -> norm_building f = Raise e)) /\
  (forall d, norm_building f = Ret d ->
             exists h l, dict_get d "height_m" = PFloat h /\ dict_get d "levels" = PInt l).
Proof.
  intros Hp; rewrite (norm_building_unfold f props Hp).
  split; [|split; [|split]].
  - intros Hh Hl; rewrite Hh, Hl.
    destruct six_storeys as [-> E]; cbn [bind]; rewrite E.
    eexists; split; [reflexivity|]; split; reflexivity.
  - intros Hh Hl; rewrite Hh, Hl; cbn [bind].
    rewrite default_height_levels; cbn [bind].
    eexists; split; [reflexivity|]; split; reflexivity.
  - intros h Hh Hl; rewrite Hh, Hl; cbn [bind]; split.
    + intros l Hr; rewrite Hr; cbn [bind].
      eexists; split; [reflexivity|]; split; reflexivity.
    + intros e Hr; rewrite Hr; reflexivity.
  - intros d.
    destruct (match resolve_height props height_candidates,
                    resolve_levels props level_candidates with
              | None, Some l => (x <- float_of_Z l ;; Ret (Some (x * 3.0)))
              | h, _ => Ret h
              end) as [h1|e]; cbn [bind]; [|discriminate].
    destruct (match resolve_levels props level_candidates with
              | Some l => Ret l
              | None => py_round (match h1 with Some h => h | None => 12.0 end / 3.0)
              end) as [l|e]; cbn [bind]; [|discriminate].
    intros [= <-]. do 2 eexists; split; reflexivity.
Qed.

(** A feature with [levels = "6"] and no height. *)
Lemma height_levels_resolution_sample :
  exists d, norm_building [("properties", PDict [("levels", PStr "6")]); ("geometry", PNone)]
              = Ret d /\
            dict_get d "height_m" = PFloat 18.0 /\ dict_get d "levels" = PInt 6.
Proof.
  apply (proj1 (height_levels_resolution
                  [("properties", PDict [("levels", PStr "6")]); ("geometry", PNone)]
                  [("levels", PStr "6")] eq_refl));
    vm_compute; reflexivity.
Defined.

(** The first accepted value under the height keys, when one key has it *)
Lemma resolve_height_only (props : dict) (k : string) (v : pyval) (h : float) :
  dict_find props k = Some v -> py_float v = Ret h ->
  forall keys,
    In k keys ->
    (forall k', In k' keys -> k' <> k -> dict_find props k' = None) ->
    resolve_height props keys = Some h.
Proof.
  intros Hv Hh; induction keys as [|k0 t IH]; intros Hin Hothers; [destruct Hin|].
  cbn [resolve_height].
  destruct (String.eqb k0 k) eqn:E.
  - apply String.eqb_eq in E; subst k0.
    unfold dict_get; rewrite Hv.
    destruct v; try (now rewrite Hh); discriminate Hh.
  - apply String.eqb_neq in E.
    unfold dict_get; rewrite (Hothers k0 (or_introl eq_refl) E).
    apply IH.
    + destruct Hin as [Hin|Hin]; [contradiction | exact Hin].
    + intros k' Hk'; apply Hothers; now right.
Qed.

(** C4. The claim fails for a height that is not finite. A feature whose
    only height is read by [float] as an infinity or as a NaN (the texts
    ["inf"], ["1e999"], ["nan"], the JSON numbers [Infinity] and [NaN]) and
    that has no levels is not normalized at all: [round(height_m / 3.0)] is
    outside every [try], so [norm_building] raises [OverflowError] or
    [ValueError] and returns no record, with neither a height nor levels. The
    two loops above it guard the same conversions with [try]. *)
Theorem height_not_finite_is_lost (f props : dict) (k : string) (v : pyval) (h : float) :
  props_of f = Ret props ->
  In k height_candidates ->
  (forall k', In k' height_candidates -> k' <> k -> dict_find props k' = None) ->
  (forall k', In k' level_candidates -> dict_find props k' = None) ->
  dict_find props k = Some v ->
  py_float v = Ret h ->
  (h = infinity \/ h = neg_infinity -> norm_building f = Raise "OverflowError") /\
  (h = nan -> norm_building f = Raise "ValueError").
Proof.
  intros Hp Hk Hothers Hlevels Hv Hh.
  rewrite (norm_building_unfold f props Hp).
  rewrite (resolve_height_only props k v h Hv Hh height_candidates Hk Hothers).
  rewrite (resolve_levels_absent props level_candidates Hlevels).
  cbn [bind]. split.
  - intros [-> | ->]; vm_compute; reflexivity.
  - intros ->; vm_compute; reflexivity.
Qed.

(** A footprint with [height = "inf"] and no levels. *)
Lemma height_not_finite_is_lost_sample :
  norm_building (Sample.feature (Sample.bbox 4 4 6 6) [("height", PStr "inf")])
    = Raise "OverflowError".
Proof.
  refine (proj1 (height_not_finite_is_lost
                   (Sample.feature (Sample.bbox 4 4 6 6) [("height", PStr "inf")])
                   [("height", PStr "inf")] "height" (PStr "inf") infinity
                   eq_refl _ _ _ eq_refl eq_refl) (or_introl eq_refl)).
  - right; right; left; reflexivity.
  - intros k' Hin Hne.
    destruct Hin as [<-|[<-|[<-|[<-|[<-|[]]]]]]; try reflexivity; contradiction.
  - intros k' Hin.
    destruct Hin as [<-|[<-|[<-|[<-|[<-|[<-|[]]]]]]]; reflexivity.
Defined.

(** The same loss for a NaN, for an overflowing numeral and for the JSON
    number [Infinity]; a finite height is kept. *)
Example norm_building_odd_heights :
  norm_building (Sample.feature PNone [("height", PStr "nan")]) = Raise "ValueError" /\
  norm_building (Sample.feature PNone [("height_m", PStr "1e999")])
    = Raise "OverflowError" /\
  norm_building (Sample.feature PNone [("height", PFloat infinity)])
    = Raise "OverflowError" /\
  returns (norm_building (Sample.feature PNone [("height", PStr "10")])) = true.
Proof. repeat split; vm_compute; reflexivity. Qed.

End NormFacts.

(* ================================================================== *)
(** * The query parser *)

Module LlmFacts.
Import Py Re Models App Llm SpecWords PyFacts ReFacts FloatFacts.
Local Open Scope float_scope.

(** The operator heuristics as a choice by priority: the test written last
    in the source decides first. *)
Lemma infer_op_priority (ql : string) :
  infer_op ql =
    if (str_in " equal" ql || str_in "exact" ql || str_in " = " ql)%bool then "="
    else if (str_in "at most" ql || str_in "<=" ql)%bool then "<="
    else if (str_in "at least" ql || str_in ">=" ql)%bool then ">="
    else if any_in ["less than"; "under"; "below"; "<"] ql then "<"
    else ">".
Proof.
  unfold infer_op.
  destruct (str_in " equal" ql || str_in "exact" ql || str_in " = " ql)%bool;
    destruct (str_in "at most" ql || str_in "<=" ql)%bool;
    destruct (str_in "at least" ql || str_in ">=" ql)%bool;
    destruct (any_in ["less than"; "under"; "below"; "<"] ql); reflexivity.
Qed.

Lemma height_filters_shape (ql op : string) (hs : list dict) (d : dict) :
  height_filters ql op = Ret hs -> In d hs ->
  exists v, d = mk_filter "height_m" op (PFloat v).
Proof.
  unfold height_filters; intros H Hin.
  destruct (search re_feet ql) as [g|]; [|destruct (search re_meters ql) as [g|]].
  - destruct (float_of_string g) as [x|e]; cbn [bind] in H; [|discriminate].
    injection H as <-. destruct Hin as [<-|[]]; eauto.
  - destruct (float_of_string g) as [x|e]; cbn [bind] in H; [|discriminate].
    injection H as <-. destruct Hin as [<-|[]]; eauto.
  - injection H as <-. destruct Hin.
Qed.

Lemma levels_filters_shape (ql op : string) (ls : list dict) (d : dict) :
  levels_filters ql op = Ret ls -> In d ls ->
  exists v, d = mk_filter "levels" op (PFloat v).
Proof.
  unfold levels_filters; intros H Hin.
  destruct (search re_levels ql) as [g|].
  - destruct (float_of_string g) as [x|e]; cbn [bind] in H; [|discriminate].
    injection H as <-. destruct Hin as [<-|[]]; eauto.
  - injection H as <-. destruct Hin.
Qed.

Lemma zoning_filters_shape (q : string) (d : dict) :
  In d (zoning_filters q) -> exists g, d = mk_filter "zoning" "=" (PStr g).
Proof.
  unfold zoning_filters; destruct (search re_zone q) as [g|]; intros Hin.
  - destruct Hin as [<-|[]]; eauto.
  - destruct Hin.
Qed.

Lemma money_filters_shape (q ql op : string) (d : dict) :
  In d (money_filters q ql op) ->
  exists v, d = mk_filter "assessed_value" op (PFloat v).
Proof.
  unfold money_filters.
  destruct (if (str_in "$" q || any_in money_words ql)%bool
            then search re_money ql else None) as [g|]; intros Hin.
  - destruct (float_of_string (remove_commas g)) as [v|e].
    + destruct Hin as [<-|[]]; eauto.
    + destruct Hin.
  - destruct Hin.
Qed.

Lemma use_filters_In (ql : string) (d : dict) :
  In d (use_filters ql) <->
  (str_in "commercial" ql = true /\ d = mk_filter "use" "=" (PStr "commercial")) \/
  (str_in "residential" ql = true /\ d = mk_filter "use" "=" (PStr "residential")).
Proof.
  unfold use_filters; rewrite in_app_iff.
  destruct (str_in "commercial" ql); destruct (str_in "residential" ql); simpl;
    intuition congruence.
Qed.

(** Every filter of the rule-based parser is of one of six forms. *)
Lemma fallback_shape (q : string) (fs : list dict) (d : dict) :
  _fallback_rule_based q = Ret fs -> In d fs ->
  (exists v, d = mk_filter "height_m" (infer_op (lower q)) (PFloat v)) \/
  (exists v, d = mk_filter "levels" (infer_op (lower q)) (PFloat v)) \/
  (exists g, d = mk_filter "zoning" "=" (PStr g)) \/
  (exists v, d = mk_filter "assessed_value" (infer_op (lower q)) (PFloat v)) \/
  d = mk_filter "use" "=" (PStr "commercial") \/
  d = mk_filter "use" "=" (PStr "residential").
Proof.
  unfold _fallback_rule_based; cbv zeta; intros H Hin.
  destruct (height_filters (lower q) (infer_op (lower q))) as [hs|e] eqn:Eh;
    cbn [bind] in H; [|discriminate].
  destruct (levels_filters (lower q) (infer_op (lower q))) as [ls|e] eqn:El;
    cbn [bind] in H; [|discriminate].
  injection H as <-. rewrite !in_app_iff in Hin.
  destruct Hin as [Hin|[Hin|[Hin|[Hin|Hin]]]].
  - left. eapply height_filters_shape; eassumption.
  - right; left. eapply levels_filters_shape; eassumption.
  - right; right; left. eapply zoning_filters_shape; eassumption.
  - right; right; right; left. eapply money_filters_shape; eassumption.
  - right; right; right; right. apply use_filters_In in Hin. tauto.
Qed.

(** The numbers the height and level patterns capture are accepted by
    [float]: the two blocks that convert outside a [try] never raise. *)
Lemma height_filters_total (ql op : string) :
  exists hs, height_filters ql op = Ret hs.
Proof.
  unfold height_filters.
  destruct (search re_feet ql) as [g|] eqn:Ef;
    [|destruct (search re_meters ql) as [g|] eqn:Em].
  - apply (search_group decimal) in Ef; [|reflexivity..].
    destruct (float_of_decimal_form g (lang_decimal_form g Ef)) as [x ->].
    cbn [bind]; eauto.
  - apply (search_group decimal) in Em; [|reflexivity..].
    destruct (float_of_decimal_form g (lang_decimal_form g Em)) as [x ->].
    cbn [bind]; eauto.
  - eauto.
Qed.

Lemma levels_filters_total (ql op : string) :
  exists ls, levels_filters ql op = Ret ls.
Proof.
  unfold levels_filters.
  destruct (search re_levels ql) as [g|] eqn:El; [|eauto].
  apply (search_group digits) in El; [|reflexivity..].
  destruct (float_of_decimal_form g (lang_digits_form g El)) as [x ->].
  cbn [bind]; eauto.
Qed.

(** The rule-based parser returns on every query. *)
Lemma fallback_total (q : string) : exists fs, _fallback_rule_based q = Ret fs.
Proof.
  unfold _fallback_rule_based; cbv zeta.
  destruct (height_filters_total (lower q) (infer_op (lower q))) as [hs ->].
  destruct (levels_filters_total (lower q) (infer_op (lower q))) as [ls ->].
  cbn [bind]; eauto.
Qed.

Lemma fallback_example_feet :
  _fallback_rule_based "highlight buildings over 100 feet"
    = Ret [mk_filter "height_m" ">" (PFloat 30.48)].
Proof. vm_compute; reflexivity. Qed.

Lemma fallback_example_money :
  _fallback_rule_based "show buildings less than $500,000 in value"
    = Ret [mk_filter "assessed_value" "<" (PFloat 500000)].
Proof. vm_compute; reflexivity. Qed.

Lemma fallback_example_zoning :
  _fallback_rule_based "show buildings in RC-G zoning"
    = Ret [mk_filter "zoning" "=" (PStr "RC-G")].
Proof. vm_compute; reflexivity. Qed.

Section WithServices.
Context {S : Services}.

(** C7. Without a token (the variable unset or empty), the parse of
    "highlight buildings over 100 feet" is the one filter [height_m > 30.48]
    with the note ["fallback"], and no model is called. *)
Theorem parse_without_token (model : option string) :
  parse_filters (mkEnviron None model) "highlight buildings over 100 feet"
    = (Ret (PList [PDict (mk_filter "height_m" ">" (PFloat 30.48))], "fallback"), []) /\
  parse_filters (mkEnviron (Some "") model) "highlight buildings over 100 feet"
    = (Ret (PList [PDict (mk_filter "height_m" ">" (PFloat 30.48))], "fallback"), []).
Proof.
  split; unfold parse_filters; cbn [HF_API_KEY String.eqb];
    unfold fallback_with; rewrite fallback_example_feet; reflexivity.
Qed.

End WithServices.

(** C8, as amended. The rule-based parser returns on every query; it gives
    every [height_m], [levels] and [assessed_value] filter the one operator
    inferred from the query, and every [zoning] filter the operator [=]; the
    inferred operator is [=] when the lowered query has " equal" (with the
    space before it), "exact" or " = ", else [<=] for "at most" or [<=], else
    [>=] for "at least" or [>=], else [<] for "less than", "under", "below" or
    [<], else [>]. *)
Theorem shared_operator (q : string) :
  exists fs,
    _fallback_rule_based q = Ret fs /\
    (forall d a, In d fs -> dict_get d "attribute" = PStr a ->
        (In a ["height_m"; "levels"; "assessed_value"] ->
         dict_get d "operator" = PStr (infer_op (lower q))) /\
        (a = "zoning" -> dict_get d "operator" = PStr "=") /\
        In a ["height_m"; "levels"; "zoning"; "assessed_value"; "use"]) /\
    infer_op (lower q) =
      (if (str_in " equal" (lower q) || str_in "exact" (lower q) || str_in " = " (lower q))%bool
       then "="
       else if (str_in "at most" (lower q) || str_in "<=" (lower q))%bool then "<="
       else if (str_in "at least" (lower q) || str_in ">=" (lower q))%bool then ">="
       else if any_in ["less than"; "under"; "below"; "<"] (lower q) then "<"
       else ">").
Proof.
  destruct (fallback_total q) as [fs H]; exists fs.
  split; [exact H|]; split; [|apply infer_op_priority].
  intros d a Hin Ha.
  destruct (fallback_shape q fs d H Hin)
    as [[v ->]|[[v ->]|[[g ->]|[[v ->]|[->| ->]]]]];
    cbn in Ha; injection Ha as <-;
    (split; [|split]);
    try reflexivity; try (simpl; tauto);
    try (intros [E|[E|[E|[]]]]; discriminate E);
    try (intros E; discriminate E).
Qed.

(** C8, as stated, fails: "equal to 10 m" has the word "equal" but not
    " equal"; the specification's rule gives [=], the parser gives [>]. *)
Lemma shared_operator_counterexample :
  _fallback_rule_based "equal to 10 m" = Ret [mk_filter "height_m" ">" (PFloat 10)] /\
  spec_infer_op (lower "equal to 10 m") = "=" /\
  ~ (forall q fs d, _fallback_rule_based q = Ret fs -> In d fs ->
                    dict_get d "attribute" = PStr "height_m" ->
                    dict_get d "operator" = PStr (spec_infer_op (lower q))).
Proof.
  assert (E : _fallback_rule_based "equal to 10 m" = Ret [mk_filter "height_m" ">" (PFloat 10)])
    by (vm_compute; reflexivity).
  split; [exact E|]. split; [vm_compute; reflexivity|].
  intros H. specialize (H _ _ _ E (or_introl eq_refl) eq_refl).
  vm_compute in H. discriminate H.
Qed.

Section ModelChain.
Context {S : Services}.

Lemma normalize_filter_dict (d : dict) :
  exists d', normalize_filter (PDict d) = Ret (PDict d').
Proof.
  unfold normalize_filter.
  destruct (dict_get d "attribute"); eauto.
  destruct (str_in_list s ["height_m"; "levels"; "assessed_value"]); eauto.
  destruct (v <- dict_item d "value" ;; py_float v); eauto.
Qed.

Lemma normalize_all_dicts (ds : list pyval) :
  Forall (fun f => exists d, f = PDict d) ds ->
  exists ds', normalize_all ds = Ret ds' /\
              Forall2 (fun f f' => normalize_filter f = Ret f') ds ds'.
Proof.
  induction 1 as [|f t [d ->] _ [t' [Ht Hall]]]; cbn [normalize_all].
  - exists []; split; [reflexivity | constructor].
  - destruct (normalize_filter_dict d) as [d' Hd].
    rewrite Hd; cbn [bind]. rewrite Ht; cbn [bind].
    exists (PDict d' :: t'); split; [reflexivity|]. now constructor.
Qed.

Lemma normalize_all_Ret (l l' : list pyval) :
  normalize_all l = Ret l' <->
  Forall2 (fun f f' => (exists x, f = PDict x) /\ normalize_filter f = Ret f') l l'.
Proof.
  revert l'; induction l as [|f t IH]; intros l'; cbn [normalize_all].
  - split; [intros [= <-]; constructor | intros H; inversion H; reflexivity].
  - split.
    + destruct (normalize_filter f) as [f1|e] eqn:Ef; cbn [bind]; [|discriminate].
      destruct (normalize_all t) as [t1|e] eqn:Et; cbn [bind]; [|discriminate].
      intros [= <-]. constructor; [|now apply IH].
      split; [|exact Ef]. destruct f; try discriminate Ef. eauto.
    + intros H; inversion H as [|? f1 ? t1 [_ Hf] Ht]; subst.
      rewrite Hf; cbn [bind]. apply IH in Ht. now rewrite Ht.
Qed.

(** ** The brace pattern: from the first [{] to the last [}] *)

Lemma upto_last_close_app (s u r : string) :
  upto_last_close s = Some (u, r) -> s = u ++ r.
Proof.
  revert u r; induction s as [|c t IH]; intros u r; cbn [upto_last_close];
    [discriminate|].
  destruct (upto_last_close t) as [[u' r']|].
  - intros [= <- <-]. cbn [append]. f_equal. now apply IH.
  - destruct (Ascii.eqb "}" c); [|discriminate]. intros [= <- <-]; reflexivity.
Qed.

(** The greedy [.*] before [}] stops at the last closing brace. *)
Lemma rep_any_close {A : Type} (K : mstate -> option A) :
  (forall s, K s <> None) ->
  forall str taken ps pv g,
    rep (fun _ => true) 0 None taken ps pv g str (fun s2 => eat (Ascii.eqb "}") s2 K) =
    match upto_last_close str with
    | Some (u, r) => K (MState (ps + String.length u) (Some "}"%char) r g)
    | None => None
    end.
Proof.
  intros HK; induction str as [|c t IH]; intros taken ps pv g.
  - reflexivity.
  - cbn [rep upto_last_close andb]. rewrite IH.
    destruct (upto_last_close t) as [[u r]|].
    + cbn [String.length]. rewrite <- plus_n_Sm. cbn [Nat.add].
      destruct (K (MState (Datatypes.S (ps + String.length u)) (Some "}"%char) r g)) eqn:E;
        [reflexivity | exfalso; eapply HK; exact E].
    + cbn [Nat.leb]. unfold eat; cbn [rest pos grp].
      destruct (Ascii.eqb "}" c) eqn:E; [|reflexivity].
      apply Ascii.eqb_eq in E; subst c. cbn [String.length]. now rewrite Nat.add_1_r.
Qed.

Lemma search_from_braces (str : string) :
  forall ps pv,
    match search_from re_braces ps pv str with
    | Some s => grp s
    | None => None
    end = brace_span str.
Proof.
  induction str as [|c t IH]; intros ps pv; [reflexivity|].
  cbn [search_from brace_span]. unfold re_braces at 1. cbn [rmatch].
  unfold eat at 1; cbn [rest pos prev grp].
  destruct (Ascii.eqb "{" c) eqn:Ec; [|apply IH].
  rewrite rep_any_close by discriminate.
  destruct (upto_last_close t) as [[u r]|] eqn:Eu; [|apply IH].
  cbn [grp pos]. apply upto_last_close_app in Eu; subst t.
  replace (Datatypes.S ps + String.length u - ps)%nat
    with (Datatypes.S (String.length u)) by lia.
  cbn [substring]. now rewrite substring_prefix.
Qed.

(** [re.search(r"\{.*\}", resp, flags=re.S)] finds the text from the first
    opening brace to the last closing brace. *)
Lemma search_braces (resp : string) : search re_braces resp = brace_span resp.
Proof. unfold search. apply search_from_braces. Qed.

(** When a round returns, and what *)
Lemma attempt_returns (n : nat) (m token q : string) (fs : pyval) :
  attempt n m token q = Ret fs <->
  exists resp js d,
    text_generation n m token (prompt q) = Ret resp /\
    brace_span resp = Some js /\
    json_loads js = Ret (PDict d) /\
    ((truthy (dict_get d "filters") = false /\ fs = PList []) \/
     (exists ds ds',
         dict_get d "filters" = PList ds /\ ds <> [] /\ fs = PList ds' /\
         Forall2 (fun f f' => (exists x, f = PDict x) /\ normalize_filter f = Ret f')
                 ds ds')).
Proof.
  unfold attempt. split.
  - destruct (text_generation n m token (prompt q)) as [resp|e] eqn:Er; cbn [bind];
      [|discriminate].
    rewrite search_braces.
    destruct (brace_span resp) as [js|] eqn:Es; [|discriminate].
    destruct (json_loads js) as [obj|e] eqn:Ej; cbn [bind]; [|discriminate].
    destruct obj as [| | | | | |d]; try discriminate.
    intros H. exists resp, js, d.
    split; [reflexivity|]. split; [exact Es|]. split; [exact Ej|].
    unfold py_or in H. destruct (truthy (dict_get d "filters")) eqn:Et.
    + right. destruct (dict_get d "filters") as [| | | | |ds|]; try discriminate.
      cbn [normalize_filters] in H.
      destruct (normalize_all ds) as [ds'|e] eqn:En; cbn [bind] in H; [|discriminate].
      injection H as <-. exists ds, ds'. split; [reflexivity|].
      split; [now destruct ds|]. split; [reflexivity|]. now apply normalize_all_Ret.
    + left. cbn in H. injection H as <-. auto.
  - intros (resp & js & d & -> & Hs & Hj & Hf); cbn [bind].
    rewrite search_braces, Hs, Hj; cbn [bind].
    unfold py_or. destruct Hf as [[Ht ->]|(ds & ds' & Hd & Hne & -> & Hall)].
    + rewrite Ht. reflexivity.
    + rewrite Hd. destruct ds as [|f t]; [contradiction|]. cbn [truthy normalize_filters].
      apply normalize_all_Ret in Hall. now rewrite Hall.
Qed.

(** The chain of the three rounds, written out *)
Lemma parse_with_hub (env : Environ) (q token : string) :
  HF_API_KEY env = Some token ->
  token <> "" ->
  hub_import = Ret tt ->
  let primary := match HF_MODEL env with
                 | Some m => m
                 | None => "Qwen/Qwen2.5-7B-Instruct"
                 end in
  let second := "HuggingFaceH4/zephyr-7b-beta" in
  let third := "mistralai/Mistral-7B-Instruct-v0.3" in
  parse_filters env q =
    match attempt 0 primary token q with
    | Ret fs => (Ret (fs, "hf:" ++ primary), [primary])
    | Raise _ =>
        match attempt 1 second token q with
        | Ret fs => (Ret (fs, "hf:" ++ second), [primary; second])
        | Raise _ =>
            match attempt 2 third token q with
            | Ret fs => (Ret (fs, "hf:" ++ third), [primary; second; third])
            | Raise e =>
                (fallback_with q ("fallback_error:" ++ e), [primary; second; third])
            end
        end
    end.
Proof.
  intros Hk Hne Hhub primary second third.
  apply String.eqb_neq in Hne.
  unfold parse_filters. rewrite Hk, Hne, Hhub. fold primary.
  unfold candidates. cbn [try_candidates]. fold second third.
  destruct (attempt 0 primary token q); [reflexivity|].
  destruct (attempt 1 second token q); [reflexivity|].
  destruct (attempt 2 third token q); reflexivity.
Qed.

(** C9, as amended. With a token and the client library at hand, the
    candidates are the configured model and the two fixed ones, called in this
    order. The first round that returns ends the chain: its filters are
    returned with the note ["hf:<name>"] and no later model is called. When
    the three rounds fail, the rule-based parse is returned with the note
    ["fallback_error:<kind>"], [kind] being the failure of the last round.
    A round returns exactly when the call returns a response in which the text
    from the first opening brace to the last closing brace is read by
    [json.loads] as an object whose ["filters"] is falsy or absent (the
    filters are then the empty list) or is a list of objects; it returns these
    objects, each with its value replaced by its float when the attribute is
    numeric and the value has one, and unchanged otherwise. *)
Theorem model_chain (env : Environ) (q token : string) :
  HF_API_KEY env = Some token ->
  token <> "" ->
  hub_import = Ret tt ->
  let primary := match HF_MODEL env with
                 | Some m => m
                 | None => "Qwen/Qwen2.5-7B-Instruct"
                 end in
  let second := "HuggingFaceH4/zephyr-7b-beta" in
  let third := "mistralai/Mistral-7B-Instruct-v0.3" in
  let round1 := attempt 0 primary token q in
  let round2 := attempt 1 second token q in
  let round3 := attempt 2 third token q in
  (forall fs,
      round1 = Ret fs ->
      parse_filters env q = (Ret (fs, "hf:" ++ primary), [primary])) /\
  (forall fs,
      returns round1 = false -> round2 = Ret fs ->
      parse_filters env q = (Ret (fs, "hf:" ++ second), [primary; second])) /\
  (forall fs,
      returns round1 = false -> returns round2 = false -> round3 = Ret fs ->
      parse_filters env q = (Ret (fs, "hf:" ++ third), [primary; second; third])) /\
  (forall e,
      returns round1 = false -> returns round2 = false -> round3 = Raise e ->
      exists fs,
        _fallback_rule_based q = Ret fs /\
        parse_filters env q
          = (Ret (PList (map PDict fs), "fallback_error:" ++ e), [primary; second; third])) /\
  (forall n m fs,
      attempt n m token q = Ret fs <->
      exists resp js d,
        text_generation n m token (prompt q) = Ret resp /\
        brace_span resp = Some js /\
        json_loads js = Ret (PDict d) /\
        ((truthy (dict_get d "filters") = false /\ fs = PList []) \/
         (exists ds ds',
             dict_get d "filters" = PList ds /\ ds <> [] /\ fs = PList ds' /\
             Forall2 (fun f f' => (exists x, f = PDict x) /\ normalize_filter f = Ret f')
                     ds ds'))) /\
  (forall d a v x,
      dict_get d "attribute" = PStr a ->
      In a ["height_m"; "levels"; "assessed_value"] ->
      dict_find d "value" = Some v -> py_float v = Ret x ->
      normalize_filter (PDict d) = Ret (PDict (dict_set d "value" (PFloat x)))) /\
  (forall d,
      (forall a, dict_get d "attribute" = PStr a ->
                 ~ In a ["height_m"; "levels"; "assessed_value"]) \/
      dict_find d "value" = None \/
      (exists v, dict_find d "value" = Some v /\ returns (py_float v) = false) ->
      normalize_filter (PDict d) = Ret (PDict d)).
Proof.
  intros Hk Hne Hhub primary second third round1 round2 round3.
  pose proof (parse_with_hub env q token Hk Hne Hhub) as Hparse.
  cbv zeta in Hparse. fold primary second third in Hparse.
  fold round1 round2 round3 in Hparse.
  split; [|split; [|split; [|split; [|split; [|split]]]]].
  - intros fs H1. now rewrite Hparse, H1.
  - intros fs H1 H2. rewrite Hparse, H2.
    destruct round1; [discriminate | reflexivity].
  - intros fs H1 H2 H3. rewrite Hparse, H3.
    destruct round1; [discriminate|]. destruct round2; [discriminate | reflexivity].
  - intros e H1 H2 H3.
    destruct (fallback_total q) as [fs Hfs]; exists fs; split; [exact Hfs|].
    rewrite Hparse, H3.
    destruct round1; [discriminate|]. destruct round2; [discriminate|].
    unfold fallback_with; now rewrite Hfs.
  - intros n m fs. apply attempt_returns.
  - intros d a v x Ha Hin Hv Hx. unfold normalize_filter. rewrite Ha.
    apply str_in_list_In in Hin. rewrite Hin.
    unfold dict_item. rewrite Hv; cbn [bind]. now rewrite Hx.
  - intros d H. unfold normalize_filter.
    destruct (dict_get d "attribute") as [| | | |a| |] eqn:Ha; try reflexivity.
    destruct (str_in_list a ["height_m"; "levels"; "assessed_value"]) eqn:Hin;
      [|reflexivity].
    apply str_in_list_In in Hin.
    destruct H as [H|[H|(v & Hv & Hx)]].
    + exfalso; exact (H a eq_refl Hin).
    + unfold dict_item; rewrite H; reflexivity.
    + unfold dict_item; rewrite Hv; cbn [bind].
      destruct (py_float v); [discriminate | reflexivity].
Qed.

End ModelChain.

(** The primary model is out of reach and the second one answers. *)
Lemma model_chain_sample :
  parse_filters (S := Sample.hub) Sample.env_token "anything taller than 3 storeys"
    = (Ret (PList [PDict (mk_filter "levels" ">" (PFloat 3))],
            "hf:HuggingFaceH4/zephyr-7b-beta"),
       ["Qwen/Qwen2.5-7B-Instruct"; "HuggingFaceH4/zephyr-7b-beta"]).
Proof.
  refine (proj1 (proj2 (model_chain (S := Sample.hub) Sample.env_token
                          "anything taller than 3 storeys" "hf_token" eq_refl _ eq_refl))
            (PList [PDict (mk_filter "levels" ">" (PFloat 3))]) _ _).
  - discriminate.
  - reflexivity.
  - vm_compute; reflexivity.
Defined.

(** C9, as stated, fails. The first model answers with an object whose
    [filters] array is [[{levels > "3"}]]: the note starts with [hf:], not with
    [model:], and the value comes back as the float [3.0], not as sent. And
    when the models answer with an object whose [filters] array is [[1]], no
    round returns: the parse falls back. *)
Lemma model_note_counterexample :
  (exists fs note,
     parse_filters (S := Sample.hub_up) Sample.env_token "anything"
       = (Ret (fs, note), ["Qwen/Qwen2.5-7B-Instruct"]) /\
     note = "hf:Qwen/Qwen2.5-7B-Instruct" /\
     note <> spec_model_note "Qwen/Qwen2.5-7B-Instruct" /\
     fs = PList [PDict (mk_filter "levels" ">" (PFloat 3))] /\
     fs <> PList [Sample.answer_filter]) /\
  parse_filters (S := Sample.hub_odd) Sample.env_token "anything"
    = (Ret (PList [], "fallback_error:AttributeError"),
       ["Qwen/Qwen2.5-7B-Instruct"; "HuggingFaceH4/zephyr-7b-beta";
        "mistralai/Mistral-7B-Instruct-v0.3"]).
Proof.
  split.
  - eexists; eexists; split; [vm_compute; reflexivity|].
    repeat split; try reflexivity; discriminate.
  - vm_compute; reflexivity.
Qed.

(** An answer with no filters entry is a success with no filter. *)
Example empty_object_answer :
  parse_filters (S := Sample2.hub_empty) Sample.env_token "towers over 100 feet"
    = (Ret (PList [], "hf:Qwen/Qwen2.5-7B-Instruct"), ["Qwen/Qwen2.5-7B-Instruct"]).
Proof. vm_compute; reflexivity. Qed.

(** An answer that goes on after its object, with braces: the text handed to
    [json.loads] runs to the last brace and is refused. *)
Example chatty_answer :
  brace_span Sample2.chatty = Some Sample2.chatty /\
  brace_span Sample.answer = Some Sample.answer_text /\
  parse_filters (S := Sample2.hub_chatty) Sample.env_token "anything"
    = (Ret (PList [], "fallback_error:JSONDecodeError"),
       ["Qwen/Qwen2.5-7B-Instruct"; "HuggingFaceH4/zephyr-7b-beta";
        "mistralai/Mistral-7B-Instruct-v0.3"]).
Proof. repeat split; vm_compute; reflexivity. Qed.

(** A model listed twice is called twice, and may answer the second time. *)
Example repeated_candidate :
  parse_filters (S := Sample2.hub_waking) Sample2.env_twice "anything"
    = (Ret (PList [PDict (mk_filter "levels" ">" (PFloat 3))],
            "hf:HuggingFaceH4/zephyr-7b-beta"),
       ["HuggingFaceH4/zephyr-7b-beta"; "HuggingFaceH4/zephyr-7b-beta"]).
Proof. vm_compute; reflexivity. Qed.

End LlmFacts.

(* ================================================================== *)
(** * The [use] attribute *)

Module UseFacts.
Import Py Shapely Models DataFetch App Llm PyFacts EnrichFacts LlmFacts.

Lemma norm_building_keys (f d : dict) :
  norm_building f = Ret d ->
  map fst d = ["id"; "geometry"; "height_m"; "levels"; "address"; "zoning";
               "assessed_value"; "raw"].
Proof.
  unfold norm_building.
  destruct (props_of f) as [props|e]; cbn [bind]; [|discriminate].
  match goal with |- bind ?c _ = _ -> _ => destruct c as [h1|e] end;
    cbn [bind]; [|discriminate].
  match goal with |- bind ?c _ = _ -> _ => destruct c as [l|e] end;
    cbn [bind]; [|discriminate].
  intros [= <-]; reflexivity.
Qed.

Lemma dict_find_not_key (d : dict) (k : string) :
  ~ In k (map fst d) -> dict_find d k = None.
Proof.
  induction d as [|[k' v] t IH]; simpl; intros H; [reflexivity|].
  destruct (String.eqb k k') eqn:E.
  - apply String.eqb_eq in E; subst; tauto.
  - apply IH; tauto.
Qed.

Lemma store_other (b : dict) (key k : string) (v : option pyval) :
  key <> k -> dict_find (store b key v) k = dict_find b k.
Proof.
  intros H; destruct v; simpl; [now apply dict_find_set_other | reflexivity].
Qed.

(** The filter [use = v] on a record without the key *)
Lemma ok_use_absent (b : dict) (v : string) :
  dict_find b "use" = None -> v <> "" ->
  ok b (mkFilterSpec "use" "=" (PStr v)) = false.
Proof.
  intros Hb Hv; unfold ok; cbn [attribute operator value].
  unfold dict_get; rewrite Hb.
  change (str_in_list "use" numeric_attrs) with false; cbv iota.
  change (String.eqb "=" "=") with true; cbv iota.
  cbn [py_or truthy py_str lower].
  destruct (lower v) eqn:E; [|reflexivity].
  apply lower_empty in E; contradiction.
Qed.

Section Enriched.
Context {L : Lib}.

Lemma enrich_one_use lu asm gl ga (b b' : dict) :
  enrich_one lu asm gl ga b = Ret b' -> dict_find b' "use" = dict_find b "use".
Proof.
  assert (Hd : dict_find (set_defaults b) "use" = dict_find b "use").
  { unfold set_defaults. rewrite !dict_find_set_other by discriminate. reflexivity. }
  unfold enrich_one.
  destruct (negb (truthy (dict_get (set_defaults b) "geometry"))).
  - intros [= <-]; exact Hd.
  - destruct (shape _) as [g|e]; cbn [bind]; [|discriminate].
    destruct (centroid g) as [c|e]; cbn [bind]; [|discriminate].
    intros [= <-]. rewrite !store_other by discriminate. exact Hd.
Qed.

(** C10. A normalized building has no [use] key, before and after the
    enrichment; the filter [use = v] with a non-empty [v] compares the empty
    string with [v] and excludes it. The rule-based parser emits
    [use = "commercial"] and [use = "residential"] for the queries that have
    these words, and nothing else on [use]: these filters are valid
    [FilterSpec]s and match no normalized building. *)
Theorem use_filter_matches_nothing :
  (forall f d, norm_building f = Ret d -> dict_find d "use" = None) /\
  (forall bs lu asm bs',
      Forall (fun b => dict_find b "use" = None) bs ->
      enrich_with_zoning_and_assessment bs lu asm = Ret bs' ->
      Forall (fun b => dict_find b "use" = None) bs') /\
  (forall bs v,
      Forall (fun b => dict_find b "use" = None) bs -> v <> "" ->
      apply_filters bs [mkFilterSpec "use" "=" (PStr v)] = []) /\
  (forall q, exists fs,
      _fallback_rule_based q = Ret fs /\
      (str_in "commercial" (lower q) = true ->
       In (mk_filter "use" "=" (PStr "commercial")) fs) /\
      (str_in "residential" (lower q) = true ->
       In (mk_filter "use" "=" (PStr "residential")) fs) /\
      (forall d, In d fs -> dict_get d "attribute" = PStr "use" ->
         exists spec, validate d = Some spec /\
           forall bs, Forall (fun b => dict_find b "use" = None) bs ->
                      apply_filters bs [spec] = [])).
Proof.
  assert (Hnone : forall bs v,
             Forall (fun b => dict_find b "use" = None) bs -> v <> "" ->
             apply_filters bs [mkFilterSpec "use" "=" (PStr v)] = []).
  { intros bs v Hbs Hv; unfold apply_filters.
    induction Hbs as [|b t Hb _ IH]; simpl; [reflexivity|].
    now rewrite (ok_use_absent b v Hb Hv). }
  split; [|split; [|split]].
  - intros f d H. apply dict_find_not_key.
    rewrite (norm_building_keys f d H). simpl.
    intros [E|[E|[E|[E|[E|[E|[E|[E|[]]]]]]]]]; discriminate E.
  - intros bs lu asm bs' Hbs H.
    unfold enrich_with_zoning_and_assessment in H.
    destruct (geoms_of lu) as [gl|e]; cbn [bind] in H; [|discriminate].
    destruct (geoms_of asm) as [ga|e]; cbn [bind] in H; [|discriminate].
    apply for_each_Ret in H.
    induction H as [|b b' t t' Hb Ht IH]; [constructor|].
    inversion Hbs as [|? ? Hb0 Ht0]; subst.
    constructor; [|now apply IH].
    rewrite (enrich_one_use _ _ _ _ _ _ Hb). exact Hb0.
  - exact Hnone.
  - intros q; destruct (fallback_total q) as [fs H]; exists fs.
    split; [exact H|]; split; [|split].
    + intros Hc. unfold _fallback_rule_based in H; cbv zeta in H.
      destruct (height_filters _ _) as [hs|e]; cbn [bind] in H; [|discriminate].
      destruct (levels_filters _ _) as [ls|e]; cbn [bind] in H; [|discriminate].
      injection H as <-. rewrite !in_app_iff. do 4 right.
      apply use_filters_In. now left.
    + intros Hr. unfold _fallback_rule_based in H; cbv zeta in H.
      destruct (height_filters _ _) as [hs|e]; cbn [bind] in H; [|discriminate].
      destruct (levels_filters _ _) as [ls|e]; cbn [bind] in H; [|discriminate].
      injection H as <-. rewrite !in_app_iff. do 4 right.
      apply use_filters_In. now right.
    + intros d Hin Ha.
      destruct (fallback_shape q fs d H Hin)
        as [[v ->]|[[v ->]|[[g ->]|[[v ->]|[->| ->]]]]];
        try (cbn in Ha; discriminate Ha).
      * exists (mkFilterSpec "use" "=" (PStr "commercial")); split; [reflexivity|].
        intros bs Hbs; apply Hnone; [assumption | discriminate].
      * exists (mkFilterSpec "use" "=" (PStr "residential")); split; [reflexivity|].
        intros bs Hbs; apply Hnone; [assumption | discriminate].
Qed.

End Enriched.

End UseFacts.

(* ================================================================== *)
(** * More on the query parser *)

Module ParserMore.
Import Py Re Llm PyFacts ReFacts FloatFacts LlmFacts.

Lemma lower_fixed_suffix (pre s : string) :
  lower (pre ++ s) = pre ++ s -> lower s = s.
Proof.
  induction pre as [|x pre IH]; simpl; [trivial|].
  intros H; injection H as _ H; auto.
Qed.

Lemma upper_not_fixed (c : ascii) : is_upper c = true -> lower_chr c <> c.
Proof.
  destruct c as [[] [] [] [] [] [] [] []]; intros H; vm_compute in H;
    try discriminate H; vm_compute; discriminate.
Qed.

(** A search starts its match at some suffix of the subject. *)
Lemma search_from_suffix (r : regex) (str : string) :
  forall ps pv sf,
    search_from r ps pv str = Some sf ->
    exists pre s, str = pre ++ rest s /\ rmatch r s (fun s' => Some s') = Some sf.
Proof.
  induction str as [|c t IH]; intros ps pv sf; simpl.
  - destruct (rmatch r (MState ps pv "" None) _) as [y|] eqn:E; [|discriminate].
    intros [= <-]. exists "", (MState ps pv "" None); split; [reflexivity | exact E].
  - destruct (rmatch r (MState ps pv (String c t) None) _) as [y|] eqn:E.
    + intros [= <-]. exists "", (MState ps pv (String c t) None); split;
        [reflexivity | exact E].
    + intros H; destruct (IH _ _ _ H) as (pre & s & -> & Hs).
      exists (String c pre), s; split; [reflexivity | exact Hs].
Qed.

(** The zoning pattern matches from an upper-case letter of the query. *)
Lemma zone_needs_upper (q g : string) :
  search re_zone q = Some g ->
  exists pre c t, q = pre ++ String c t /\ is_upper c = true.
Proof.
  unfold search.
  destruct (search_from re_zone 0 None q) as [sf|] eqn:E; [|discriminate].
  intros _. apply search_from_suffix in E as (pre & s & -> & H).
  unfold re_zone in H; cbn [rmatch] in H.
  destruct (at_boundary s); [|discriminate].
  apply rep_sound in H as (w & s' & Hall & Hlen & (R & _) & _).
  cbn [rest] in R. destruct w as [|c w]; [simpl in Hlen; lia|].
  simpl in Hall; apply andb_true_iff in Hall as [Hc _].
  exists pre, c, (w ++ rest s'). split; [now rewrite R | exact Hc].
Qed.

Section Outcome.
Context {S : Services}.

(** X1. What [parse_filters] does on every query, for every environment and
    every behaviour of the import, of the client and of [json.loads]. With a
    token, an import that raises anything but [ModuleNotFoundError] leaves the
    function with that exception, and no model is called. In every other case
    the function returns: without a token the rule-based filters with the note
    ["fallback"]; without the library the rule-based filters with the note
    ["fallback_error:missing_huggingface_hub"]; otherwise the filters of the
    first of the three rounds that returns, with the note ["hf:"] and the name
    of its model, the models called being the candidates up to that one; or,
    the three rounds failing, the rule-based filters with the note
    ["fallback_error:"] and the failure of the third round. *)
Theorem parse_filters_outcome (env : Environ) (q : string) :
  let token := match HF_API_KEY env with Some t => t | None => "" end in
  let primary := match HF_MODEL env with
                 | Some m => m
                 | None => "Qwen/Qwen2.5-7B-Instruct"
                 end in
  let second := "HuggingFaceH4/zephyr-7b-beta" in
  let third := "mistralai/Mistral-7B-Instruct-v0.3" in
  let round1 := attempt 0 primary token q in
  let round2 := attempt 1 second token q in
  let round3 := attempt 2 third token q in
  (forall e,
      token <> "" -> hub_import = Raise e -> e <> "ModuleNotFoundError" ->
      parse_filters env q = (Raise e, [])) /\
  (token = "" \/ hub_import = Ret tt \/ hub_import = Raise "ModuleNotFoundError" ->
   exists fs note tried,
     parse_filters env q = (Ret (fs, note), tried) /\
     ((exists rb,
          _fallback_rule_based q = Ret rb /\ fs = PList (map PDict rb) /\ tried = [] /\
          ((token = "" /\ note = "fallback") \/
           (token <> "" /\ hub_import = Raise "ModuleNotFoundError" /\
            note = "fallback_error:missing_huggingface_hub"))) \/
      (token <> "" /\ hub_import = Ret tt /\
       ((round1 = Ret fs /\ note = "hf:" ++ primary /\ tried = [primary]) \/
        (returns round1 = false /\ round2 = Ret fs /\
         note = "hf:" ++ second /\ tried = [primary; second]) \/
        (returns round1 = false /\ returns round2 = false /\ round3 = Ret fs /\
         note = "hf:" ++ third /\ tried = [primary; second; third]) \/
        (exists rb e,
            returns round1 = false /\ returns round2 = false /\ round3 = Raise e /\
            _fallback_rule_based q = Ret rb /\ fs = PList (map PDict rb) /\
            note = "fallback_error:" ++ e /\ tried = [primary; second; third]))))).
Proof.
  intros token primary second third round1 round2 round3.
  destruct (fallback_total q) as [rb Hrb].
  unfold parse_filters; fold token; fold primary.
  unfold fallback_with; rewrite Hrb; cbn [bind].
  unfold candidates; cbn [try_candidates]; fold second third round1 round2 round3.
  destruct (String.eqb token "") eqn:Et.
  - apply String.eqb_eq in Et. split; [intros e Hne; contradiction|].
    intros _. exists (PList (map PDict rb)), "fallback", [].
    split; [reflexivity|]. left. exists rb.
    split; [reflexivity|]. split; [reflexivity|]. split; [reflexivity|].
    left. split; [exact Et | reflexivity].
  - apply String.eqb_neq in Et. split.
    + intros e _ He Hne. rewrite He.
      apply String.eqb_neq in Hne. now rewrite Hne.
    + intros [H|[H|H]]; [contradiction| |].
      * rewrite H.
        destruct round1 as [fs1|e1] eqn:E1.
        { exists fs1, ("hf:" ++ primary), [primary].
          split; [reflexivity|]. right. split; [exact Et|]. split; [reflexivity|].
          left. repeat split; reflexivity. }
        destruct round2 as [fs2|e2] eqn:E2.
        { exists fs2, ("hf:" ++ second), [primary; second].
          split; [reflexivity|]. right. split; [exact Et|]. split; [reflexivity|].
          right; left. repeat split; reflexivity. }
        destruct round3 as [fs3|e3] eqn:E3.
        { exists fs3, ("hf:" ++ third), [primary; second; third].
          split; [reflexivity|]. right. split; [exact Et|]. split; [reflexivity|].
          right; right; left. repeat split; reflexivity. }
        exists (PList (map PDict rb)), ("fallback_error:" ++ e3), [primary; second; third].
        split; [reflexivity|]. right. split; [exact Et|]. split; [reflexivity|].
        right; right; right. exists rb, e3. repeat split; reflexivity.
      * rewrite H. cbn [String.eqb Ascii.eqb Bool.eqb].
        exists (PList (map PDict rb)), "fallback_error:missing_huggingface_hub", [].
        split; [reflexivity|]. left. exists rb.
        split; [reflexivity|]. split; [reflexivity|]. split; [reflexivity|].
        right. split; [exact Et|]. split; reflexivity.
Qed.

(** X2. With a token but without the client library, no model is called: the
    filters are those of the rule-based parser and the note is
    ["fallback_error:missing_huggingface_hub"]. *)
Theorem parse_without_library (env : Environ) (q token : string) :
  HF_API_KEY env = Some token ->
  token <> "" ->
  hub_import = Raise "ModuleNotFoundError" ->
  exists rb,
    _fallback_rule_based q = Ret rb /\
    parse_filters env q
      = (Ret (PList (map PDict rb), "fallback_error:missing_huggingface_hub"), []).
Proof.
  intros Hk Hne Hhub.
  destruct (fallback_total q) as [rb Hrb]; exists rb; split; [exact Hrb|].
  unfold parse_filters. rewrite Hk, Hhub.
  apply String.eqb_neq in Hne; rewrite Hne.
  cbn [String.eqb Ascii.eqb Bool.eqb].
  unfold fallback_with; now rewrite Hrb.
Qed.

End Outcome.

(** A release of the library without [InferenceClient]: the import error
    leaves [parse_filters], with a token; without one the import is not
    reached. *)
Example parse_with_old_library :
  parse_filters (S := Sample2.hub_old) Sample.env_token "towers over 100 feet"
    = (Raise "ImportError", []) /\
  parse_filters (S := Sample2.hub_old) (mkEnviron None None) "towers over 100 feet"
    = (Ret (PList [PDict (mk_filter "height_m" ">" (PFloat 30.48))], "fallback"), []).
Proof. split; vm_compute; reflexivity. Qed.

(** With a token but without the client library no model is tried. *)
Lemma parse_without_library_sample :
  exists rb,
    _fallback_rule_based "over 100 feet" = Ret rb /\
    parse_filters (S := Sample2.hub_missing) Sample.env_token "over 100 feet"
      = (Ret (PList (map PDict rb), "fallback_error:missing_huggingface_hub"), []).
Proof.
  apply (parse_without_library (S := Sample2.hub_missing) Sample.env_token
           "over 100 feet" "hf_token").
  - reflexivity.
  - discriminate.
  - reflexivity.
Defined.

(** X3. The rule-based parser emits its filters in the order height, levels,
    zoning, assessed value, use, with at most one filter for each of the first
    four and at most two on [use]: at most six filters. *)
Theorem fallback_order (q : string) :
  exists hs ls zs ms us,
    _fallback_rule_based q = Ret (hs ++ ls ++ zs ++ ms ++ us)%list /\
    (List.length hs <= 1 /\ List.length ls <= 1 /\ List.length zs <= 1 /\
     List.length ms <= 1 /\ List.length us <= 2)%nat /\
    Forall (fun d => dict_get d "attribute" = PStr "height_m") hs /\
    Forall (fun d => dict_get d "attribute" = PStr "levels") ls /\
    Forall (fun d => dict_get d "attribute" = PStr "zoning") zs /\
    Forall (fun d => dict_get d "attribute" = PStr "assessed_value") ms /\
    Forall (fun d => dict_get d "attribute" = PStr "use") us.
Proof.
  unfold _fallback_rule_based; cbv zeta.
  destruct (height_filters (lower q) (infer_op (lower q))) as [hs|e] eqn:Eh;
    [|destruct (height_filters_total (lower q) (infer_op (lower q))); congruence].
  destruct (levels_filters (lower q) (infer_op (lower q))) as [ls|e] eqn:El;
    [|destruct (levels_filters_total (lower q) (infer_op (lower q))); congruence].
  cbn [bind].
  exists hs, ls, (zoning_filters q),
         (money_filters q (lower q) (infer_op (lower q))), (use_filters (lower q)).
  split; [reflexivity|].
  assert (Hh : (List.length hs <= 1)%nat).
  { unfold height_filters in Eh.
    destruct (search re_feet (lower q)); [|destruct (search re_meters (lower q))];
      try (destruct (float_of_string s); cbn [bind] in Eh; [|discriminate]);
      injection Eh as <-; simpl; lia. }
  assert (Hl : (List.length ls <= 1)%nat).
  { unfold levels_filters in El.
    destruct (search re_levels (lower q));
      try (destruct (float_of_string s); cbn [bind] in El; [|discriminate]);
      injection El as <-; simpl; lia. }
  assert (Hz : (List.length (zoning_filters q) <= 1)%nat).
  { unfold zoning_filters; destruct (search re_zone q); simpl; lia. }
  assert (Hm : (List.length (money_filters q (lower q) (infer_op (lower q))) <= 1)%nat).
  { unfold money_filters.
    destruct (if (str_in "$" q || any_in money_words (lower q))%bool
              then search re_money (lower q) else None);
      [destruct (float_of_string (remove_commas s))|]; simpl; lia. }
  assert (Hu : (List.length (use_filters (lower q)) <= 2)%nat).
  { unfold use_filters.
    destruct (str_in "commercial" (lower q)); destruct (str_in "residential" (lower q));
      simpl; lia. }
  split; [auto|].
  repeat split; apply Forall_forall; intros d Hd.
  - destruct (height_filters_shape _ _ _ _ Eh Hd) as [v ->]; reflexivity.
  - destruct (levels_filters_shape _ _ _ _ El Hd) as [v ->]; reflexivity.
  - destruct (zoning_filters_shape _ _ Hd) as [g ->]; reflexivity.
  - destruct (money_filters_shape _ _ _ _ Hd) as [v ->]; reflexivity.
  - apply use_filters_In in Hd as [[_ ->]|[_ ->]]; reflexivity.
Qed.

(** X4. A query without a dollar sign and without any of the money words
    yields no [assessed_value] filter, whatever numbers it holds. *)
Theorem no_money_without_hint (q : string) :
  str_in "$" q = false ->
  any_in money_words (lower q) = false ->
  exists fs, _fallback_rule_based q = Ret fs /\
             forall d, In d fs -> dict_get d "attribute" <> PStr "assessed_value".
Proof.
  intros Hd Hw.
  destruct (fallback_total q) as [fs H]; exists fs; split; [exact H|].
  intros d Hin.
  unfold _fallback_rule_based in H; cbv zeta in H.
  destruct (height_filters _ _) as [hs|e] eqn:Eh; cbn [bind] in H; [|discriminate].
  destruct (levels_filters _ _) as [ls|e] eqn:El; cbn [bind] in H; [|discriminate].
  injection H as <-. rewrite !in_app_iff in Hin.
  destruct Hin as [Hin|[Hin|[Hin|[Hin|Hin]]]].
  - destruct (height_filters_shape _ _ _ _ Eh Hin) as [v ->]; discriminate.
  - destruct (levels_filters_shape _ _ _ _ El Hin) as [v ->]; discriminate.
  - destruct (zoning_filters_shape _ _ Hin) as [g ->]; discriminate.
  - unfold money_filters in Hin. rewrite Hd, Hw in Hin. destruct Hin.
  - apply use_filters_In in Hin as [[_ ->]|[_ ->]]; discriminate.
Qed.

Lemma no_money_without_hint_sample :
  exists fs, _fallback_rule_based "towers over 40 storeys" = Ret fs /\
             forall d, In d fs -> dict_get d "attribute" <> PStr "assessed_value".
Proof.
  apply (no_money_without_hint "towers over 40 storeys"); vm_compute; reflexivity.
Defined.

(** X5. The zoning code is searched in the query as typed, the other
    patterns in its lower-case form: a query without an upper-case letter
    yields no [zoning] filter. *)
Theorem no_zoning_in_lower_case (q : string) :
  lower q = q ->
  exists fs, _fallback_rule_based q = Ret fs /\
             forall d, In d fs -> dict_get d "attribute" <> PStr "zoning".
Proof.
  intros Hq.
  assert (Hz : zoning_filters q = []).
  { unfold zoning_filters. destruct (search re_zone q) as [g|] eqn:E; [|reflexivity].
    apply zone_needs_upper in E as (pre & c & t & E & Hc).
    rewrite E in Hq. apply lower_fixed_suffix in Hq.
    simpl in Hq; injection Hq as Hq _.
    now apply upper_not_fixed in Hc. }
  destruct (fallback_total q) as [fs H]; exists fs; split; [exact H|].
  intros d Hin.
  unfold _fallback_rule_based in H; cbv zeta in H.
  destruct (height_filters _ _) as [hs|e] eqn:Eh; cbn [bind] in H; [|discriminate].
  destruct (levels_filters _ _) as [ls|e] eqn:El; cbn [bind] in H; [|discriminate].
  injection H as <-. rewrite Hz in Hin. rewrite !in_app_iff in Hin.
  destruct Hin as [Hin|[Hin|[[]|[Hin|Hin]]]].
  - destruct (height_filters_shape _ _ _ _ Eh Hin) as [v ->]; discriminate.
  - destruct (levels_filters_shape _ _ _ _ El Hin) as [v ->]; discriminate.
  - destruct (money_filters_shape _ _ _ _ Hin) as [v ->]; discriminate.
  - apply use_filters_In in Hin as [[_ ->]|[_ ->]]; discriminate.
Qed.

Lemma no_zoning_in_lower_case_sample :
  exists fs, _fallback_rule_based "show buildings in rc-g zoning" = Ret fs /\
             forall d, In d fs -> dict_get d "attribute" <> PStr "zoning".
Proof.
  apply (no_zoning_in_lower_case "show buildings in rc-g zoning"); reflexivity.
Defined.

End ParserMore.

(* ================================================================== *)
(** * More on the filter engine *)

Module FilterMore.
Import Py Models App PyFacts FilterFacts.
Local Open Scope float_scope.

Lemma filter_idempotent {A : Type} (p : A -> bool) (l : list A) :
  filter p (filter p l) = filter p l.
Proof.
  induction l as [|a l IH]; simpl; [reflexivity|].
  destruct (p a) eqn:E; simpl; [now rewrite E, IH | exact IH].
Qed.

(** X6. Filtering is idempotent, does not depend on the order of the specs,
    never adds a building, and works building by building (the result on a
    concatenation is the concatenation of the results). *)
Theorem apply_filters_order_free :
  (forall bs fs, apply_filters (apply_filters bs fs) fs = apply_filters bs fs) /\
  (forall bs fs1 fs2, apply_filters bs (fs1 ++ fs2) = apply_filters bs (fs2 ++ fs1)) /\
  (forall bs fs1 fs2,
      apply_filters (apply_filters bs fs1) fs2 = apply_filters (apply_filters bs fs2) fs1) /\
  (forall bs fs, (List.length (apply_filters bs fs) <= List.length bs)%nat) /\
  (forall bs1 bs2 fs,
      apply_filters (bs1 ++ bs2) fs = (apply_filters bs1 fs ++ apply_filters bs2 fs)%list).
Proof.
  assert (Hcomm : forall bs fs1 fs2,
             apply_filters bs (fs1 ++ fs2) = apply_filters bs (fs2 ++ fs1)).
  { intros bs fs1 fs2; unfold apply_filters; apply filter_ext; intros b.
    rewrite !forallb_app; apply andb_comm. }
  split; [|split; [|split; [|split]]].
  - intros bs fs; apply filter_idempotent.
  - exact Hcomm.
  - intros bs fs1 fs2. now rewrite <- !apply_filters_app, Hcomm.
  - intros bs fs; apply filter_length_le.
  - intros bs1 bs2 fs; apply filter_app.
Qed.

Lemma eqb_not_in (op : string) (l : list string) (x : string) :
  ~ In op l -> In x l -> String.eqb op x = false.
Proof.
  intros Hn Hx; apply String.eqb_neq; intros ->; contradiction.
Qed.

(** X7. A spec with an operator that its attribute does not support fails:
    on the numeric attributes every operator other than the five comparisons,
    on the others every operator other than [=], [contains] and [in], and [in]
    with a value that is not a list. *)
Theorem ok_fails_closed :
  (forall f attr op v,
      In attr numeric_attrs -> ~ In op [">"; "<"; ">="; "<="; "="] ->
      ok f (mkFilterSpec attr op v) = false) /\
  (forall f attr op v,
      ~ In attr numeric_attrs -> ~ In op ["="; "contains"; "in"] ->
      ok f (mkFilterSpec attr op v) = false) /\
  (forall f attr v,
      ~ In attr numeric_attrs -> is_list v = false ->
      ok f (mkFilterSpec attr "in" v) = false).
Proof.
  split; [|split].
  - intros f attr op v Hattr Hop. rewrite (ok_numeric f attr op v Hattr).
    destruct (py_float (dict_get f attr)) as [x|]; [|reflexivity].
    destruct (py_float v) as [y|]; [|reflexivity].
    unfold compare_num.
    rewrite (eqb_not_in op _ ">" Hop), (eqb_not_in op _ "<" Hop),
      (eqb_not_in op _ ">=" Hop), (eqb_not_in op _ "<=" Hop),
      (eqb_not_in op _ "=" Hop); simpl; tauto.
  - intros f attr op v Hattr Hop. unfold ok; cbn [attribute operator value].
    destruct (str_in_list attr numeric_attrs) eqn:E.
    + apply str_in_list_In in E; contradiction.
    + rewrite (eqb_not_in op _ "=" Hop), (eqb_not_in op _ "contains" Hop),
        (eqb_not_in op _ "in" Hop); simpl; tauto.
  - intros f attr v Hattr Hv. unfold ok; cbn [attribute operator value].
    destruct (str_in_list attr numeric_attrs) eqn:E.
    + apply str_in_list_In in E; contradiction.
    + rewrite Hv. reflexivity.
Qed.

Lemma lower_chr_idempotent (c : ascii) : lower_chr (lower_chr c) = lower_chr c.
Proof. destruct c as [[] [] [] [] [] [] [] []]; reflexivity. Qed.

Lemma lower_idempotent (s : string) : lower (lower s) = lower s.
Proof.
  induction s as [|c s IH]; simpl; [reflexivity|].
  now rewrite lower_chr_idempotent, IH.
Qed.

(** X8. On the attributes that are not numeric, the letter case of a string
    value of the spec and of a string field of the building is ignored, for
    every operator. *)
Theorem ok_ignores_case (f : dict) (attr op v s : string) :
  ~ In attr numeric_attrs ->
  ok f (mkFilterSpec attr op (PStr v)) = ok f (mkFilterSpec attr op (PStr (lower v))) /\
  ok (dict_set f attr (PStr s)) (mkFilterSpec attr op (PStr v))
    = ok (dict_set f attr (PStr (lower s))) (mkFilterSpec attr op (PStr v)).
Proof.
  intros Hattr.
  assert (E : str_in_list attr numeric_attrs = false).
  { destruct (str_in_list attr numeric_attrs) eqn:E; [|reflexivity].
    apply str_in_list_In in E; contradiction. }
  unfold ok; cbn [attribute operator value]; rewrite E.
  split.
  - cbn [py_str]. now rewrite lower_idempotent.
  - rewrite !dict_get_set_same. unfold py_or. cbn [truthy].
    destruct s as [|c s]; [reflexivity|].
    cbn [lower String.eqb negb py_str]. now rewrite lower_chr_idempotent, lower_idempotent.
Qed.

Lemma ok_ignores_case_sample :
  ok [("zoning", PStr "RC-G")] (mkFilterSpec "zoning" "=" (PStr "rc-g")) = true.
Proof.
  refine (eq_trans (proj2 (ok_ignores_case [("zoning", PStr "")] "zoning" "=" "rc-g" "RC-G" _))
                   _).
  - simpl; intuition discriminate.
  - reflexivity.
Defined.

End FilterMore.

(* ================================================================== *)
(** * The numeric comparisons *)

Module NumericMore.
Import Py Models App PyFacts FilterFacts.
Local Open Scope float_scope.

Lemma SFcompare_antisym (f1 f2 : spec_float) :
  SFcompare f2 f1 = option_map CompOpp (SFcompare f1 f2).
Proof.
  destruct f1 as [s1|s1| |s1 m1 e1]; destruct f2 as [s2|s2| |s2 m2 e2];
    try (destruct s1); try (destruct s2); try reflexivity; cbn [SFcompare option_map];
    rewrite (Z.compare_antisym e1 e2); destruct (e1 ?= e2)%Z; cbn [CompOpp];
    try reflexivity; f_equal;
    pose proof (Pos.compare_cont_antisym m1 m2 Eq) as A; cbn [CompOpp] in A;
    rewrite <- A; now destruct (Pos.compare_cont Eq m1 m2).
Qed.

Lemma SFcompare_refl (f : spec_float) :
  f <> S754_nan -> SFcompare f f = Some Eq.
Proof.
  destruct f as [s|s| |s m e]; intros H; try contradiction;
    try (destruct s; reflexivity).
  cbn [SFcompare]. rewrite Z.compare_refl, Pos.compare_cont_refl.
  now destruct s.
Qed.

Lemma SFcompare_nan_l (f : spec_float) : SFcompare S754_nan f = None.
Proof. reflexivity. Qed.

Lemma SFcompare_nan_r (f : spec_float) : SFcompare f S754_nan = None.
Proof. now destruct f. Qed.

Lemma SFcompare_some (f1 f2 : spec_float) :
  f1 <> S754_nan -> f2 <> S754_nan -> exists c, SFcompare f1 f2 = Some c.
Proof.
  destruct f1 as [s1|s1| |s1 m1 e1]; destruct f2 as [s2|s2| |s2 m2 e2];
    intros H1 H2; try contradiction; cbn [SFcompare]; eauto.
Qed.

Lemma is_nan_spec (x : float) : is_nan x = true <-> Prim2SF x = S754_nan.
Proof.
  unfold is_nan. rewrite FloatAxioms.eqb_spec. unfold SFeqb. split.
  - intros H. destruct (Prim2SF x) eqn:E; try reflexivity;
      rewrite SFcompare_refl in H by discriminate; discriminate H.
  - intros ->. reflexivity.
Qed.

Lemma is_nan_false (x : float) : is_nan x = false -> Prim2SF x <> S754_nan.
Proof.
  intros H E. apply is_nan_spec in E. congruence.
Qed.

(** A comparison with a NaN on either side is false. *)
Lemma compare_num_nan (op : string) (x y : float) :
  is_nan x = true \/ is_nan y = true -> compare_num op x y = false.
Proof.
  intros H. unfold compare_num.
  rewrite !ltb_spec, !leb_spec, abs_spec, sub_spec.
  unfold SFltb, SFleb, SF64sub.
  destruct H as [H|H]; apply is_nan_spec in H; rewrite H;
    rewrite ?SFcompare_nan_l, ?SFcompare_nan_r.
  - cbn [SFsub SFabs]. now rewrite !andb_false_r.
  - replace (SFsub prec emax (Prim2SF x) S754_nan) with S754_nan
      by (now destruct (Prim2SF x)).
    cbn [SFabs]. rewrite ?SFcompare_nan_l. now rewrite !andb_false_r.
Qed.

Lemma lt_excludes_le (x y : float) : ((y <? x) && (x <=? y))%bool = false.
Proof.
  rewrite ltb_spec, leb_spec. unfold SFltb, SFleb.
  rewrite (SFcompare_antisym (Prim2SF x) (Prim2SF y)).
  destruct (SFcompare (Prim2SF x) (Prim2SF y)) as [[]|]; reflexivity.
Qed.

Lemma lt_or_le (x y : float) :
  is_nan x = false -> is_nan y = false -> ((y <? x) || (x <=? y))%bool = true.
Proof.
  intros Hx Hy. apply is_nan_false in Hx; apply is_nan_false in Hy.
  rewrite ltb_spec, leb_spec. unfold SFltb, SFleb.
  rewrite (SFcompare_antisym (Prim2SF x) (Prim2SF y)).
  destruct (SFcompare_some _ _ Hx Hy) as [c ->]. now destruct c.
Qed.

(** X9. The numeric comparisons are those of the floats, the field on the
    left: when the field coerces to the float [x] and the value of the spec to
    [y], the building passes [> v] exactly when [y < x], [< v] when [x < y],
    [>= v] when [y <= x] and [<= v] when [x <= y], in the IEEE order. A spec
    whose value is a NaN, or a field that is one, matches under no operator.
    No building passes both [> v] and [<= v], nor both [< v] and [>= v]; when
    the field and the value coerce to floats that are not NaN, the building
    passes exactly one of each pair. *)
Theorem numeric_order (f : dict) (attr : string) (v : pyval) :
  In attr numeric_attrs ->
  (forall x y, py_float (dict_get f attr) = Ret x -> py_float v = Ret y ->
               ok f (mkFilterSpec attr ">" v) = (y <? x) /\
               ok f (mkFilterSpec attr "<" v) = (x <? y) /\
               ok f (mkFilterSpec attr ">=" v) = (y <=? x) /\
               ok f (mkFilterSpec attr "<=" v) = (x <=? y)) /\
  (forall op y, py_float v = Ret y -> is_nan y = true ->
                ok f (mkFilterSpec attr op v) = false) /\
  (forall op x, py_float (dict_get f attr) = Ret x -> is_nan x = true ->
                ok f (mkFilterSpec attr op v) = false) /\
  (ok f (mkFilterSpec attr ">" v) && ok f (mkFilterSpec attr "<=" v))%bool = false /\
  (ok f (mkFilterSpec attr "<" v) && ok f (mkFilterSpec attr ">=" v))%bool = false /\
  (forall x y, py_float (dict_get f attr) = Ret x -> py_float v = Ret y ->
               is_nan x = false -> is_nan y = false ->
               (ok f (mkFilterSpec attr ">" v) || ok f (mkFilterSpec attr "<=" v))%bool = true /\
               (ok f (mkFilterSpec attr "<" v) || ok f (mkFilterSpec attr ">=" v))%bool = true).
Proof.
  intros Hattr.
  assert (Hgt : forall x y, compare_num ">" x y = (y <? x))
    by (intros; unfold compare_num; cbn [String.eqb Ascii.eqb Bool.eqb andb orb];
        now rewrite ?orb_false_r).
  assert (Hle : forall x y, compare_num "<=" x y = (x <=? y))
    by (intros; unfold compare_num; cbn [String.eqb Ascii.eqb Bool.eqb andb orb];
        now rewrite ?orb_false_r).
  assert (Hlt : forall x y, compare_num "<" x y = (x <? y))
    by (intros; unfold compare_num; cbn [String.eqb Ascii.eqb Bool.eqb andb orb];
        now rewrite ?orb_false_r).
  assert (Hge : forall x y, compare_num ">=" x y = (y <=? x))
    by (intros; unfold compare_num; cbn [String.eqb Ascii.eqb Bool.eqb andb orb];
        now rewrite ?orb_false_r).
  rewrite !(ok_numeric f attr _ v Hattr).
  split; [|split; [|split; [|split; [|split]]]].
  - intros x y -> ->. rewrite Hgt, Hlt, Hge, Hle. repeat split; reflexivity.
  - intros op y Hy Hn. rewrite (ok_numeric f attr op v Hattr), Hy.
    destruct (py_float (dict_get f attr)) as [x|]; [|reflexivity].
    apply compare_num_nan; now right.
  - intros op x Hx Hn. rewrite (ok_numeric f attr op v Hattr), Hx.
    destruct (py_float v) as [y|]; [|reflexivity].
    apply compare_num_nan; now left.
  - destruct (py_float (dict_get f attr)) as [x|]; [|reflexivity].
    destruct (py_float v) as [y|]; [|reflexivity].
    rewrite Hgt, Hle. apply lt_excludes_le.
  - destruct (py_float (dict_get f attr)) as [x|]; [|reflexivity].
    destruct (py_float v) as [y|]; [|reflexivity].
    rewrite Hlt, Hge. apply lt_excludes_le.
  - intros x y -> -> Hx Hy. rewrite Hgt, Hle, Hlt, Hge.
    split; now apply lt_or_le.
Qed.

(** The spec [height_m >= "nan"] on a building 12 m high. *)
Lemma numeric_order_sample :
  ok [("height_m", PFloat 12)] (mkFilterSpec "height_m" ">=" (PStr "nan")) = false.
Proof.
  refine (proj1 (proj2 (numeric_order [("height_m", PFloat 12)] "height_m" (PStr "nan") _))
            ">=" nan _ _).
  - left; reflexivity.
  - vm_compute; reflexivity.
  - reflexivity.
Defined.

(** A building 12 m high is over 10 and not under 10; it is not over 12. *)
Example numeric_order_directions :
  ok [("height_m", PFloat 12)] (mkFilterSpec "height_m" ">" (PInt 10)) = true /\
  ok [("height_m", PFloat 12)] (mkFilterSpec "height_m" "<" (PInt 10)) = false /\
  ok [("height_m", PFloat 12)] (mkFilterSpec "height_m" ">" (PStr "12")) = false /\
  ok [("height_m", PFloat 12)] (mkFilterSpec "height_m" ">=" (PStr "12")) = true.
Proof. repeat split; vm_compute; reflexivity. Qed.

End NumericMore.

(* ================================================================== *)
(** * More on the enrichment *)

Module EnrichMore.
Import Py Shapely App PyFacts EnrichFacts.

Lemma store_find_other (b : dict) (key k : string) (v : option pyval) :
  key <> k -> dict_find (store b key v) k = dict_find b k.
Proof.
  intros H; destruct v; cbn [store]; [now apply dict_find_set_other | reflexivity].
Qed.

Lemma store_get_other (b : dict) (key k : string) (v : option pyval) :
  key <> k -> dict_get (store b key v) k = dict_get b k.
Proof. intros H; unfold dict_get; now rewrite store_find_other. Qed.

Lemma store_get_same (b : dict) (key : string) (v : option pyval) :
  dict_get (store b key v) key = match v with Some x => x | None => dict_get b key end.
Proof. destruct v; cbn [store]; [apply dict_get_set_same | reflexivity]. Qed.

Section WithLib.
Context {L : Lib}.

(** What the body of the loop returns, when it returns *)
Lemma enrich_one_result lu asm gl ga (b b' : dict) :
  enrich_one lu asm gl ga b = Ret b' ->
  exists o1 o2,
    b' = store (store (set_defaults b) "zoning" o1) "assessed_value" o2 /\
    (o1 = None \/ exists c, o1 = overlay lu "zoning" gl c) /\
    (o2 = None \/ exists c, o2 = overlay asm "assessed_value" ga c).
Proof.
  unfold enrich_one.
  destruct (negb (truthy (dict_get (set_defaults b) "geometry"))).
  - intros [= <-]. exists None, None; cbn [store]; auto.
  - destruct (shape _) as [g|e]; cbn [bind]; [|discriminate].
    destruct (centroid g) as [c|e]; cbn [bind]; [|discriminate].
    intros [= <-]. do 2 eexists; split; [reflexivity|]; split; right; eauto.
Qed.

Lemma lookup_from_record (recs : list dict) (i : nat) (key : string) (v : pyval) :
  lookup recs i key = Ret v -> exists r, In r recs /\ dict_find r key = Some v.
Proof.
  unfold lookup, list_item, dict_item.
  destruct (nth_error recs i) as [r|] eqn:E; cbn [bind]; [|discriminate].
  destruct (dict_find r key) as [x|] eqn:F; [|discriminate].
  intros [= <-]. exists r; split; [eapply nth_error_In; eassumption | exact F].
Qed.

Lemma probe_from_record (recs : list dict) (key : string) (c g : Geom) (i : nat) (v : pyval) :
  probe recs key c i g = Ret (Some v) -> exists r, In r recs /\ dict_find r key = Some v.
Proof.
  unfold probe. destruct (contains g c) as [[]|e]; cbn [bind]; try discriminate.
  destruct (lookup recs i key) as [x|e] eqn:E; cbn [bind]; [|discriminate].
  intros [= <-]. eapply lookup_from_record; eassumption.
Qed.

Lemma overlay_from_record (recs : list dict) (key : string) (gs : list Geom) (c : Geom)
    (v : pyval) :
  overlay recs key gs c = Some v -> exists r, In r recs /\ dict_find r key = Some v.
Proof.
  assert (Hscan : forall gs i, scan recs key c i gs = Ret (Some v) ->
                               exists r, In r recs /\ dict_find r key = Some v).
  { induction gs0 as [|g t IH]; intros i; cbn [scan]; [discriminate|].
    destruct (probe recs key c i g) as [[x|]|e] eqn:E; cbn [bind]; try discriminate.
    - intros [= ->]. eapply probe_from_record; eassumption.
    - apply IH. }
  assert (Hsafe : forall gs i, scan_safe recs key c i gs = Some v ->
                               exists r, In r recs /\ dict_find r key = Some v).
  { induction gs0 as [|g t IH]; intros i; cbn [scan_safe]; [discriminate|].
    destruct (probe recs key c i g) as [[x|]|e] eqn:E; try apply IH.
    intros [= ->]. eapply probe_from_record; eassumption. }
  unfold overlay. destruct gs as [|g0 gs]; [discriminate|].
  destruct (query_contains (g0 :: gs) c) as [[|idx rest]|e]; cbn [bind try_except].
  - destruct (scan recs key c 0 (g0 :: gs)) as [o|e] eqn:E; cbn [try_except].
    + intros ->. eapply Hscan; eassumption.
    + apply Hsafe.
  - destruct (lookup recs idx key) as [x|e] eqn:E; cbn [bind try_except].
    + intros [= ->]. eapply lookup_from_record; eassumption.
    + apply Hsafe.
  - apply Hsafe.
Qed.

(** X10. The enrichment returns as many buildings as it is given, in the
    same order, and changes nothing but their [zoning] and [assessed_value]:
    every other key (the id, the geometry, the height) keeps its value or its
    absence. *)
Theorem enrich_keeps_other_fields (bs lu asm bs' : list dict) :
  enrich_with_zoning_and_assessment bs lu asm = Ret bs' ->
  List.length bs' = List.length bs /\
  Forall2 (fun b b' => forall k, k <> "zoning" -> k <> "assessed_value" ->
                                 dict_find b' k = dict_find b k) bs bs'.
Proof.
  intros H. unfold enrich_with_zoning_and_assessment in H.
  destruct (geoms_of lu) as [gl|e]; cbn [bind] in H; [|discriminate].
  destruct (geoms_of asm) as [ga|e]; cbn [bind] in H; [|discriminate].
  apply for_each_Ret in H.
  split; [symmetry; eapply Forall2_length; eassumption|].
  induction H as [|b b' t t' Hb Ht IH]; constructor; [|exact IH].
  intros k Hz Ha.
  apply enrich_one_result in Hb as (o1 & o2 & -> & _).
  rewrite !store_find_other by congruence.
  unfold set_defaults. now rewrite !dict_find_set_other by congruence.
Qed.

(** X11. The enrichment invents no value: the zoning of an enriched building
    is ["Unknown"] or the [zoning] of one of the zoning records, and its
    assessed value is [None] or the [assessed_value] of one of the assessment
    records. *)
Theorem enrich_values_come_from_records (bs lu asm bs' : list dict) :
  enrich_with_zoning_and_assessment bs lu asm = Ret bs' ->
  Forall (fun b' =>
            (dict_get b' "zoning" = PStr "Unknown" \/
             exists r, In r lu /\ dict_find r "zoning" = Some (dict_get b' "zoning")) /\
            (dict_get b' "assessed_value" = PNone \/
             exists r, In r asm /\
                       dict_find r "assessed_value" = Some (dict_get b' "assessed_value")))
         bs'.
Proof.
  intros H. unfold enrich_with_zoning_and_assessment in H.
  destruct (geoms_of lu) as [gl|e]; cbn [bind] in H; [|discriminate].
  destruct (geoms_of asm) as [ga|e]; cbn [bind] in H; [|discriminate].
  apply for_each_Ret in H.
  induction H as [|b b' t t' Hb Ht IH]; constructor; [|exact IH].
  apply enrich_one_result in Hb as (o1 & o2 & -> & H1 & H2).
  destruct (set_defaults_values b) as [Dz Da].
  split.
  - rewrite (store_get_other _ "assessed_value" "zoning") by discriminate.
    rewrite store_get_same.
    destruct o1 as [v|]; [|now left].
    right. destruct H1 as [H1|[c H1]]; [discriminate|].
    symmetry in H1. now apply overlay_from_record in H1.
  - rewrite store_get_same.
    destruct o2 as [v|].
    + right. destruct H2 as [H2|[c H2]]; [discriminate|].
      symmetry in H2. now apply overlay_from_record in H2.
    + left. rewrite store_get_other by discriminate. exact Da.
Qed.

End WithLib.

(** [house] lies in the polygon of [zone_B], [shed] has no geometry. *)
Lemma enrich_keeps_other_fields_sample :
  List.length [dict_set Sample.house "zoning" (PStr "B");
               dict_set Sample.shed "zoning" (PStr "Unknown")]
    = List.length [Sample.house; Sample.shed] /\
  Forall2 (fun b b' => forall k, k <> "zoning" -> k <> "assessed_value" ->
                                 dict_find b' k = dict_find b k)
          [Sample.house; Sample.shed]
          [dict_set Sample.house "zoning" (PStr "B");
           dict_set Sample.shed "zoning" (PStr "Unknown")].
Proof.
  apply (enrich_keeps_other_fields (L := Sample.box_lib)
           [Sample.house; Sample.shed] [Sample.zone_B] []).
  vm_compute; reflexivity.
Defined.

Lemma enrich_values_come_from_records_sample :
  Forall (fun b' =>
            (dict_get b' "zoning" = PStr "Unknown" \/
             exists r, In r [Sample.zone_B] /\
                       dict_find r "zoning" = Some (dict_get b' "zoning")) /\
            (dict_get b' "assessed_value" = PNone \/
             exists r, In r [] /\
                       dict_find r "assessed_value" = Some (dict_get b' "assessed_value")))
         [dict_set Sample.house "zoning" (PStr "B");
          dict_set Sample.shed "zoning" (PStr "Unknown")].
Proof.
  apply (enrich_values_come_from_records (L := Sample.box_lib)
           [Sample.house; Sample.shed] [Sample.zone_B] []).
  vm_compute; reflexivity.
Defined.

End EnrichMore.

(* ================================================================== *)
(** * The order of the overlay *)

Module EnrichOrder.
Import Py Shapely App PyFacts EnrichFacts EnrichMore.

Section WithLib.
Context {L : Lib}.

(** Records that all have a geometry give their polygons position by
    position, whatever follows them. *)
Lemma geoms_of_prefix (c : Geom) (pre : list dict) :
  Forall (fun r' => truthy (dict_get r' "geometry") = true /\
                    exists g', shape (dict_get r' "geometry") = Ret g' /\
                               contains g' c = Ret false) pre ->
  exists gpre,
    List.length gpre = List.length pre /\
    Forall (fun g' => contains g' c = Ret false) gpre /\
    forall rest, geoms_of (pre ++ rest) = (gr <- geoms_of rest ;; Ret (gpre ++ gr)%list).
Proof.
  induction 1 as [|r t (Hr & g' & Hs & Hc) _ (gt & Hlen & Hall & Hrest)].
  - exists []; repeat split; trivial. intros rest; cbn [app].
    now destruct (geoms_of rest).
  - exists (g' :: gt); repeat split; cbn [List.length]; auto.
    intros rest; cbn [app geoms_of]. rewrite Hr, Hs; cbn [bind]. rewrite Hrest.
    now destruct (geoms_of rest).
Qed.

(** X12. The tie-break of the overlay. When the tree finds nothing or raises
    (the loops then do the work) and every zoning record before the first one
    whose polygon contains the centroid has a geometry, the building receives
    the zoning of that first record, whatever the records after it are. *)
Theorem enrich_first_match (b r : dict) (pre post asm : list dict) (gb c g : Geom) (z : pyval) :
  Forall (fun r' => truthy (dict_get r' "geometry") = true /\
                    exists g', shape (dict_get r' "geometry") = Ret g' /\
                               contains g' c = Ret false) pre ->
  truthy (dict_get r "geometry") = true ->
  shape (dict_get r "geometry") = Ret g ->
  contains g c = Ret true ->
  dict_find r "zoning" = Some z ->
  returns (geoms_of post) = true ->
  returns (geoms_of asm) = true ->
  truthy (dict_get b "geometry") = true ->
  shape (dict_get b "geometry") = Ret gb ->
  centroid gb = Ret c ->
  (forall gs, query_contains gs c = Ret [] \/ exists e, query_contains gs c = Raise e) ->
  exists b',
    enrich_with_zoning_and_assessment [b] (pre ++ r :: post) asm = Ret [b'] /\
    dict_get b' "zoning" = z.
Proof.
  intros Hpre Hr Hg Hc Hz Hpost Hasm Hb Hgb Hcen Hq.
  destruct (geoms_of_prefix c pre Hpre) as (gpre & Hlen & Hall & Hrest).
  destruct (geoms_of post) as [gpost|] eqn:Ep; [|discriminate].
  destruct (geoms_of asm) as [ga|] eqn:Ea; [|discriminate].
  unfold enrich_with_zoning_and_assessment.
  rewrite Hrest. cbn [geoms_of]. rewrite Hr, Hg; cbn [bind]. rewrite Ep; cbn [bind].
  rewrite Ea; cbn [bind for_each].
  unfold enrich_one. rewrite set_defaults_geometry, Hb; cbn [negb].
  rewrite Hgb; cbn [bind]. rewrite Hcen; cbn [bind].
  assert (Hl : lookup (pre ++ r :: post) (List.length gpre) "zoning" = Ret z).
  { unfold lookup, list_item, dict_item. rewrite Hlen.
    rewrite nth_error_app2 by lia. rewrite Nat.sub_diag; cbn [nth_error bind].
    now rewrite Hz. }
  rewrite (overlay_position (pre ++ r :: post) "zoning" c g z gpre gpost Hall Hc Hl).
  - eexists; split; [reflexivity|].
    rewrite store_get_other by discriminate. apply store_get_same.
  - destruct (Hq (gpre ++ g :: gpost)%list) as [E|E]; auto.
Qed.

End WithLib.

(** Two polygons contain the centroid of [house]: the first in the list
    gives its label, also when a record without a geometry follows. *)
Lemma enrich_first_match_sample :
  exists b',
    enrich_with_zoning_and_assessment (L := Sample.box_lib)
      [Sample.house]
      [ [("zoning", PStr "far"); ("geometry", Sample.bbox 20 20 30 30)];
        [("zoning", PStr "inner"); ("geometry", Sample.bbox 3 3 7 7)];
        Sample.zone_B; Sample.zone_A ] []
      = Ret [b'] /\
    dict_get b' "zoning" = PStr "inner".
Proof.
  apply (enrich_first_match (L := Sample.box_lib) Sample.house
           [("zoning", PStr "inner"); ("geometry", Sample.bbox 3 3 7 7)]
           [ [("zoning", PStr "far"); ("geometry", Sample.bbox 20 20 30 30)] ]
           [Sample.zone_B; Sample.zone_A] []
           (4, 4, 6, 6)%Z (5, 5, 5, 5)%Z (3, 3, 7, 7)%Z (PStr "inner"));
    try reflexivity.
  - repeat constructor. exists (20, 20, 30, 30)%Z; split; reflexivity.
  - intros gs; left; reflexivity.
Defined.

End EnrichOrder.

(* ================================================================== *)
(** * More on the normalizers *)

Module NormMore.
Import Py DataFetch PyFacts.
Local Open Scope list_scope.

Lemma props_of_returns (f : dict) :
  (exists p, dict_get f "properties" = PDict p) \/ truthy (dict_get f "properties") = false ->
  exists p, props_of f = Ret p.
Proof.
  unfold props_of, py_or. intros [[p ->]|Hf].
  - destruct p; cbn [truthy]; eauto.
  - rewrite Hf; eauto.
Qed.

(** X13. The three normalizers read the properties through [.get], [.keys]
    or [.items]: a feature whose [properties] is truthy and not an object (a
    non-empty list or string, a number) makes each of them raise
    [AttributeError]; in every other case, which is a [properties] that is an
    object or is falsy, [norm_land_use] and [norm_assess] return, and pass the
    geometry of the feature through. *)
Theorem normalizers_need_object_properties (f : dict) :
  (truthy (dict_get f "properties") = true /\
   (forall p, dict_get f "properties" <> PDict p) ->
   norm_building f = Raise "AttributeError" /\
   norm_land_use f = Raise "AttributeError" /\
   norm_assess f = Raise "AttributeError") /\
  ((exists p, dict_get f "properties" = PDict p) \/
   truthy (dict_get f "properties") = false ->
   exists d1 d2,
     norm_land_use f = Ret d1 /\ dict_get d1 "geometry" = dict_get f "geometry" /\
     norm_assess f = Ret d2 /\ dict_get d2 "geometry" = dict_get f "geometry") /\
  ((truthy (dict_get f "properties") = true /\
    (forall p, dict_get f "properties" <> PDict p)) \/
   (exists p, dict_get f "properties" = PDict p) \/
   truthy (dict_get f "properties") = false).
Proof.
  split; [|split].
  - intros [Ht Hnd].
    assert (E : props_of f = Raise "AttributeError").
    { unfold props_of, py_or. rewrite Ht.
      destruct (dict_get f "properties"); try reflexivity.
      exfalso; eapply Hnd; reflexivity. }
    unfold norm_building, norm_land_use, norm_assess; rewrite E; auto.
  - intros Hf. destruct (props_of_returns f Hf) as [p Hp].
    unfold norm_land_use, norm_assess. rewrite Hp; cbn [bind].
    do 2 eexists. split; [reflexivity|]. split; [reflexivity|].
    split; reflexivity.
  - destruct (dict_get f "properties") as [| | | | | |p] eqn:E;
      try (right; left; eexists; reflexivity);
      (destruct (truthy (dict_get f "properties")) eqn:Et; rewrite E in Et;
       [left; split; [exact Et | discriminate] | right; right; exact Et]).
Qed.

Lemma normalizers_need_object_properties_sample :
  norm_building [("geometry", PNone); ("properties", PList [PInt 1])]
    = Raise "AttributeError" /\
  norm_land_use [("geometry", PNone); ("properties", PList [PInt 1])]
    = Raise "AttributeError" /\
  norm_assess [("geometry", PNone); ("properties", PList [PInt 1])]
    = Raise "AttributeError".
Proof.
  apply (proj1 (normalizers_need_object_properties
                  [("geometry", PNone); ("properties", PList [PInt 1])])).
  split; [reflexivity | discriminate].
Defined.

(** X14. A normalized zoning record has the three keys [zoning], [geometry]
    and [raw]; its geometry is that of the feature and its label is never
    empty: it is ["Unknown"] or a truthy value of the properties. Such a
    record is returned for every feature whose [properties] is an object or
    is falsy. *)
Theorem norm_land_use_record :
  (forall f d,
      norm_land_use f = Ret d ->
      map fst d = ["zoning"; "geometry"; "raw"] /\
      dict_get d "geometry" = dict_get f "geometry" /\
      truthy (dict_get d "zoning") = true /\
      exists p, props_of f = Ret p /\ dict_get d "raw" = PDict p /\
                (dict_get d "zoning" = PStr "Unknown" \/
                 exists k, In (lower k) zone_keys /\
                           dict_find p k = Some (dict_get d "zoning"))) /\
  (forall f,
      (exists p, dict_get f "properties" = PDict p) \/
      truthy (dict_get f "properties") = false ->
      exists d, norm_land_use f = Ret d).
Proof.
  split.
  - intros f d. unfold norm_land_use.
    destruct (props_of f) as [p|e]; cbn [bind]; [|discriminate].
    intros [= <-]. split; [reflexivity|]. split; [reflexivity|].
    change (dict_get [("zoning", py_or (find_zone p p) (PStr "Unknown"));
                      ("geometry", dict_get f "geometry"); ("raw", PDict p)] "zoning")
      with (py_or (find_zone p p) (PStr "Unknown")).
    assert (Hfz : forall ks, find_zone p ks = PNone \/
                             exists k, In (lower k) zone_keys /\
                                       dict_get p k = find_zone p ks).
    { induction ks as [|[k v] t IH]; cbn [find_zone]; [now left|].
      destruct (str_in_list (lower k) zone_keys) eqn:E; [|exact IH].
      right; exists k; split; [now apply str_in_list_In | reflexivity]. }
    unfold py_or. destruct (truthy (find_zone p p)) eqn:Et.
    + split; [exact Et|]. exists p; split; [reflexivity|]; split; [reflexivity|].
      right. destruct (Hfz p) as [E|(k & Hk & E)].
      * rewrite E in Et; discriminate.
      * exists k; split; [exact Hk|].
        rewrite <- E in *. unfold dict_get in *.
        destruct (dict_find p k); [reflexivity | discriminate].
    + split; [reflexivity|]. exists p; split; [reflexivity|]; split; [reflexivity|].
      now left.
  - intros f Hf. destruct (props_of_returns f Hf) as [p Hp].
    unfold norm_land_use. rewrite Hp; cbn [bind]. eauto.
Qed.

(** X15. The first key of the properties, in their order, whose lower-case
    name is one of the six zoning names decides the label, also when its value
    is empty: the label is then ["Unknown"], and the later keys are not
    read. *)
Theorem norm_land_use_first_key (f : dict) (pre post : dict) (k : string) (v : pyval) :
  props_of f = Ret (pre ++ (k, v) :: post) ->
  Forall (fun kv => str_in_list (lower (fst kv)) zone_keys = false) pre ->
  str_in_list (lower k) zone_keys = true ->
  exists d, norm_land_use f = Ret d /\
            dict_get d "zoning" = py_or v (PStr "Unknown").
Proof.
  intros Hp Hpre Hk.
  unfold norm_land_use. rewrite Hp; cbn [bind].
  eexists; split; [reflexivity|].
  change (py_or (find_zone (pre ++ (k, v) :: post) (pre ++ (k, v) :: post)) (PStr "Unknown")
          = py_or v (PStr "Unknown")).
  f_equal. clear Hp.
  assert (Hfind : forall p, find_zone p (pre ++ (k, v) :: post) = dict_get p k).
  { intros p. induction Hpre as [|[k0 v0] t H0 _ IH]; cbn [app find_zone].
    - now rewrite Hk.
    - cbn [fst] in H0. now rewrite H0. }
  rewrite Hfind.
  assert (Hget : forall l, Forall (fun kv => str_in_list (lower (fst kv)) zone_keys = false) l ->
                           dict_find (l ++ (k, v) :: post) k = Some v).
  { induction 1 as [|[k0 v0] t H0 _ IH]; cbn [app dict_find].
    - now rewrite String.eqb_refl.
    - destruct (String.eqb k k0) eqn:E; [|exact IH].
      apply String.eqb_eq in E; subst k0. cbn [fst] in H0. congruence. }
  unfold dict_get. now rewrite (Hget pre Hpre).
Qed.

Lemma norm_land_use_first_key_sample :
  exists d, norm_land_use [("geometry", PNone);
                           ("properties", PDict [("objectid", PInt 7); ("Zone", PStr "");
                                                 ("zoning", PStr "RC-G")])] = Ret d /\
            dict_get d "zoning" = py_or (PStr "") (PStr "Unknown").
Proof.
  apply (norm_land_use_first_key _ [("objectid", PInt 7)] [("zoning", PStr "RC-G")]
           "Zone" (PStr "")).
  - reflexivity.
  - repeat constructor.
  - reflexivity.
Defined.

(** X16. A normalized assessment record has the four keys [assessed_value],
    [address], [geometry] and [raw]; its value is [None] or a float, never the
    text it was read from; its address is never [None] nor empty; its geometry
    is that of the feature. Such a record is returned for every feature whose
    [properties] is an object or is falsy. *)
Theorem norm_assess_record :
  (forall f d,
      norm_assess f = Ret d ->
      map fst d = ["assessed_value"; "address"; "geometry"; "raw"] /\
      (dict_get d "assessed_value" = PNone \/
       exists x, dict_get d "assessed_value" = PFloat x) /\
      dict_get d "address" <> PNone /\ dict_get d "address" <> PStr "" /\
      dict_get d "geometry" = dict_get f "geometry") /\
  (forall f,
      (exists p, dict_get f "properties" = PDict p) \/
      truthy (dict_get f "properties") = false ->
      exists d, norm_assess f = Ret d).
Proof.
  split.
  - intros f d. unfold norm_assess.
    destruct (props_of f) as [p|e]; cbn [bind]; [|discriminate].
    assert (Hv : find_assessed p = PNone \/ exists x, find_assessed p = PFloat x).
    { induction p as [|[k v] t IH]; cbn [find_assessed]; [now left|].
      destruct (str_in "assessed" (lower k) &&
                (str_in "value" (lower k) || str_in "total" (lower k)))%bool; [|exact IH].
      destruct (float_of_string (remove_commas (py_str v))); [right; eauto | exact IH]. }
    assert (Ha : forall l, _first p l (PStr "Unknown") <> PNone /\
                           _first p l (PStr "Unknown") <> PStr "").
    { induction l as [|k t IH]; cbn [_first]; [split; discriminate|].
      destruct (dict_get p k) as [| | | |s| |]; try (split; discriminate); try exact IH.
      destruct s; [exact IH | split; discriminate]. }
    intros [= <-]. split; [reflexivity|].
    split; [exact Hv|].
    pose proof (Ha ["address"; "street_address"; "situs_addr"]) as [Ha1 Ha2].
    split; [exact Ha1|]. split; [exact Ha2 | reflexivity].
  - intros f Hf. destruct (props_of_returns f Hf) as [p Hp].
    unfold norm_assess. rewrite Hp; cbn [bind]. eauto.
Qed.

End NormMore.

(* ================================================================== *)
(** * The requests *)

Module FetchFacts.
Import Py DataFetch Fetch PyFacts.
Local Open Scope list_scope.

Lemma map_exn_Ret {A B : Type} (f : A -> exn B) (l : list A) (l' : list B) :
  map_exn f l = Ret l' <-> Forall2 (fun a b => f a = Ret b) l l'.
Proof.
  revert l'; induction l as [|a t IH]; intros l'; cbn [map_exn].
  - split; [intros [= <-]; constructor | intros H; inversion H; reflexivity].
  - split.
    + destruct (f a) as [b|e] eqn:Ea; cbn [bind]; [|discriminate].
      destruct (map_exn f t) as [t'|e] eqn:Et; cbn [bind]; [|discriminate].
      intros [= <-]; constructor; [assumption | now apply IH].
    + intros H; inversion H as [|? b ? t' Ha Ht]; subst.
      rewrite Ha; cbn [bind]. apply IH in Ht; now rewrite Ht.
Qed.

Lemma map_exn_raise {A B : Type} (f : A -> exn B) (l : list A) (e : string) :
  map_exn f l = Raise e -> exists a, In a l /\ f a = Raise e.
Proof.
  induction l as [|a t IH]; cbn [map_exn]; [discriminate|].
  destruct (f a) as [b|e'] eqn:Ea; cbn [bind].
  - destruct (map_exn f t) as [t'|e'] eqn:Et; cbn [bind]; [discriminate|].
    intros [= <-]. destruct (IH eq_refl) as (a' & Hin & Ha'). exists a'; split; auto.
    now right.
  - intros [= <-]. exists a; split; [now left | exact Ea].
Qed.

Lemma float_of_string_raises (s e : string) :
  float_of_string s = Raise e -> e = "ValueError".
Proof.
  unfold float_of_string.
  destruct (split_sign _) as [neg body].
  destruct (_ || _)%bool; [discriminate|].
  destruct (String.eqb _ "nan"); [discriminate|].
  destruct (number body) as [[[n k] r]|]; [|now intros [= <-]].
  destruct (exponent r); [discriminate | now intros [= <-]].
Qed.

Lemma parse_bbox_raises (bbox e : string) :
  parse_bbox bbox = Raise e -> e = "ValueError".
Proof.
  unfold parse_bbox.
  destruct (map_exn float_of_string (split_commas bbox)) as [l|e'] eqn:E; cbn [bind].
  - destruct l as [|a [|b [|c [|d [|x l]]]]]; try discriminate; now intros [= <-].
  - intros [= <-]. apply map_exn_raise in E as (s & _ & Hs).
    eapply float_of_string_raises; eassumption.
Qed.

Section WithHttp.
Context {H : Http}.

(** X17. The three fetchers read the box as exactly four numbers separated
    by commas, each in the syntax of [float]; for every other text they raise
    [ValueError], whatever the network does. *)
Theorem bbox_needs_four_numbers (bbox : string) :
  (forall a b c d,
      parse_bbox bbox = Ret (a, b, c, d) <->
      exists s1 s2 s3 s4,
        split_commas bbox = [s1; s2; s3; s4] /\
        float_of_string s1 = Ret a /\ float_of_string s2 = Ret b /\
        float_of_string s3 = Ret c /\ float_of_string s4 = Ret d) /\
  (returns (parse_bbox bbox) = false ->
   fetch_buildings_bbox bbox = Raise "ValueError" /\
   fetch_land_use_bbox bbox = Raise "ValueError" /\
   fetch_assessments_bbox bbox = Raise "ValueError").
Proof.
  split.
  - intros a b c d; unfold parse_bbox; split.
    + destruct (map_exn float_of_string (split_commas bbox)) as [l|e] eqn:E;
        cbn [bind]; [|discriminate].
      destruct l as [|a' [|b' [|c' [|d' [|x l]]]]]; try discriminate.
      intros [= -> -> -> ->].
      apply map_exn_Ret in E.
      inversion E as [|s1 ? l1 ? H1 E1]; subst.
      inversion E1 as [|s2 ? l2 ? H2 E2]; subst.
      inversion E2 as [|s3 ? l3 ? H3 E3]; subst.
      inversion E3 as [|s4 ? l4 ? H4 E4]; subst.
      inversion E4; subst.
      exists s1, s2, s3, s4; auto.
    + intros (s1 & s2 & s3 & s4 & -> & H1 & H2 & H3 & H4).
      cbn [map_exn]. rewrite H1, H2, H3, H4. reflexivity.
  - intros Hr.
    destruct (parse_bbox bbox) as [box|e] eqn:E; [discriminate|].
    apply parse_bbox_raises in E as E'. subst e.
    unfold fetch_buildings_bbox, fetch_land_use_bbox, fetch_assessments_bbox.
    rewrite E; auto.
Qed.

(** White space around a number is skipped, a separator is not: the models
    of [float] and of [str.split] side by side. *)
Example bbox_samples :
  parse_bbox " -114.0719,51.0455 ,-114.0630,51.0505"
    = Ret ((-114.0719)%float, (51.0455)%float, (-114.063)%float, (51.0505)%float) /\
  parse_bbox (String (ascii_of_nat 28) "1,2,3,4") = Raise "ValueError" /\
  parse_bbox "1,2,3" = Raise "ValueError" /\
  parse_bbox "1,2,3,4,5" = Raise "ValueError" /\
  parse_bbox "1,2,3,four" = Raise "ValueError" /\
  parse_bbox "1, 2,,4" = Raise "ValueError".
Proof. repeat split; vm_compute; reflexivity. Qed.

(** What the loop over the fields returns: the first answer with features,
    or the empty collection when every field is silent. *)
Lemma try_fields_result (base : string) (north west south east : float)
    (fields : list string) (data : pyval) :
  try_fields base 5000 north west south east fields = Ret data ->
  (exists field d,
      In field fields /\
      get_json base (request_params 5000 field north west south east) = Ret (PDict d) /\
      data = PDict d /\ truthy (dict_get d "features") = true) \/
  (data = empty_collection /\
   Forall (fun field =>
             exists fv,
               features_of (_safe_get base (request_params 5000 field north west south east))
                 = Ret fv /\ truthy fv = false) fields).
Proof.
  induction fields as [|field t IH]; cbn [try_fields].
  - intros [= <-]. right; split; [reflexivity | constructor].
  - destruct (features_of (_safe_get base (request_params 5000 field north west south east)))
      as [fv|e] eqn:Ef; cbn [bind]; [|discriminate].
    destruct (truthy fv) eqn:Et.
    + intros [= <-]. left.
      unfold _safe_get in *.
      destruct (get_json base (request_params 5000 field north west south east))
        as [v|e] eqn:Eg; cbn [try_except] in *.
      * destruct v as [| | | | | |d]; try discriminate.
        cbn [features_of] in Ef. injection Ef as <-.
        exists field, d. split; [now left|]. split; [exact Eg|]. split; [reflexivity|].
        unfold py_or in Et. destruct (truthy (dict_get d "features")); [reflexivity|].
        discriminate.
      * cbn in Ef. injection Ef as <-. discriminate.
    + intros Hd. destruct (IH Hd) as [(f' & d & Hin & Hg & -> & Ht)|[-> Hall]].
      * left. exists f', d. split; [now right|]. auto.
      * right; split; [reflexivity|]. constructor; [eauto | exact Hall].
Qed.

Lemma try_fields_raises (base : string) (north west south east : float)
    (fields : list string) (e : string) :
  try_fields base 5000 north west south east fields = Raise e ->
  e = "AttributeError" /\
  exists params v, get_json base params = Ret v /\ forall d, v <> PDict d.
Proof.
  induction fields as [|field t IH]; cbn [try_fields]; [discriminate|].
  destruct (features_of (_safe_get base (request_params 5000 field north west south east)))
    as [fv|e'] eqn:Ef; cbn [bind].
  - destruct (truthy fv); [discriminate | exact IH].
  - intros [= <-]. unfold _safe_get in Ef.
    destruct (get_json base (request_params 5000 field north west south east))
      as [v|e''] eqn:Eg; cbn [try_except] in Ef; [|discriminate].
    destruct v; try discriminate; injection Ef as <-;
      (split; [reflexivity|]); do 2 eexists; (split; [exact Eg | discriminate]).
Qed.

(** The features of what [socrata_geojson] returns *)
Lemma socrata_features (id : string) (a b c d : float) (data : pyval) :
  socrata_geojson id a b c d = Ret data ->
  (exists feats, features_of data = Ret feats /\ answers id a b c d feats) \/
  (features_of data = Ret (PList []) /\ silent id a b c d).
Proof.
  unfold socrata_geojson; cbv zeta. intros Hd.
  apply try_fields_result in Hd as [(field & dd & Hin & Hg & -> & Ht)|[-> Hall]].
  - left. exists (dict_get dd "features"); split.
    + cbn [features_of]. unfold py_or. now rewrite Ht.
    + exists field, dd; auto.
  - right; split; [reflexivity | exact Hall].
Qed.

(** X18. Where the buildings that [fetch_buildings_bbox] returns come from:
    they are the features of an answer of the 3D dataset; or, the 3D dataset
    being silent for every candidate field, the features of an answer of the
    2D dataset; or, both datasets being silent, the empty list. An answer is
    the response to the request with [$limit] 5000 and the box written as
    north, west, south, east, that is [maxLat], [minLon], [minLat], [maxLon]
    of the four numbers of [bbox]. *)
Theorem buildings_prefer_3d (bbox : string) (feats : pyval) :
  fetch_buildings_bbox bbox = Ret feats ->
  exists minLon minLat maxLon maxLat,
    parse_bbox bbox = Ret (minLon, minLat, maxLon, maxLat) /\
    (answers buildings_3d minLon minLat maxLon maxLat feats \/
     (silent buildings_3d minLon minLat maxLon maxLat /\
      (answers buildings_2d minLon minLat maxLon maxLat feats \/
       (silent buildings_2d minLon minLat maxLon maxLat /\ feats = PList [])))).
Proof.
  unfold fetch_buildings_bbox.
  destruct (parse_bbox bbox) as [[[[a b] c] d]|e]; cbn [bind]; [|discriminate].
  intros Hf. exists a, b, c, d; split; [reflexivity|].
  destruct (socrata_geojson buildings_3d a b c d) as [gj3|e] eqn:E3; cbn [bind] in Hf;
    [|discriminate].
  destruct (socrata_features _ _ _ _ _ _ E3) as [(f3 & Hf3 & Ha3)|[Hf3 Hs3]];
    rewrite Hf3 in Hf; cbn [bind] in Hf.
  - left. destruct Ha3 as (field & dd & Hin & Hg & <- & Ht). rewrite Ht in Hf.
    injection Hf as <-. exists field, dd; auto.
  - right; split; [exact Hs3|]. cbn [truthy] in Hf.
    destruct (socrata_geojson buildings_2d a b c d) as [gj2|e] eqn:E2; cbn [bind] in Hf;
      [|discriminate].
    destruct (socrata_features _ _ _ _ _ _ E2) as [(f2 & Hf2 & Ha2)|[Hf2 Hs2]];
      rewrite Hf2 in Hf; injection Hf as <-; auto.
Qed.

(** X19. A fetcher raises in two cases only: [ValueError] for a box that is
    not four numbers, and [AttributeError] when a request returns JSON that is
    not an object. A failed request is never an error. *)
Theorem fetch_failures (bbox e : string) :
  fetch_buildings_bbox bbox = Raise e \/ fetch_land_use_bbox bbox = Raise e \/
  fetch_assessments_bbox bbox = Raise e ->
  (e = "ValueError" /\ returns (parse_bbox bbox) = false) \/
  (e = "AttributeError" /\
   exists url params v, get_json url params = Ret v /\ forall d, v <> PDict d).
Proof.
  assert (Hsoc : forall id a b c d e',
             socrata_geojson id a b c d = Raise e' ->
             e' = "AttributeError" /\
             exists url params v, get_json url params = Ret v /\ forall d, v <> PDict d).
  { intros id a b c d e' Hs. unfold socrata_geojson in Hs; cbv zeta in Hs.
    apply try_fields_raises in Hs as (-> & params & v & Hg & Hv).
    split; [reflexivity|]. exists (resource id), params, v; auto. }
  assert (Hfeat : forall id a b c d gj e',
             socrata_geojson id a b c d = Ret gj -> features_of gj = Raise e' -> False).
  { intros id a b c d gj e' Hs Hf.
    destruct (socrata_features _ _ _ _ _ _ Hs) as [(f & Hf' & _)|[Hf' _]]; congruence. }
  unfold fetch_buildings_bbox, fetch_land_use_bbox, fetch_assessments_bbox.
  destruct (parse_bbox bbox) as [[[[a b] c] d]|e0] eqn:Ep; cbn [bind].
  2:{ intros Hr. left. apply parse_bbox_raises in Ep as ->.
      destruct Hr as [Hr|[Hr|Hr]]; injection Hr as <-; auto. }
  intros [Hr|[Hr|Hr]]; right.
  - destruct (socrata_geojson buildings_3d a b c d) as [gj3|e3] eqn:E3; cbn [bind] in Hr.
    + destruct (features_of gj3) as [f3|e3] eqn:F3; cbn [bind] in Hr;
        [|exfalso; eapply Hfeat; eassumption].
      destruct (truthy f3); [discriminate|].
      destruct (socrata_geojson buildings_2d a b c d) as [gj2|e2] eqn:E2; cbn [bind] in Hr.
      * exfalso; eapply Hfeat; eassumption.
      * injection Hr as <-. eapply Hsoc; eassumption.
    + injection Hr as <-. eapply Hsoc; eassumption.
  - destruct (socrata_geojson land_use a b c d) as [gj|e1] eqn:E1; cbn [bind] in Hr.
    + exfalso; eapply Hfeat; eassumption.
    + injection Hr as <-. eapply Hsoc; eassumption.
  - destruct (socrata_geojson assessments a b c d) as [gj|e1] eqn:E1; cbn [bind] in Hr.
    + exfalso; eapply Hfeat; eassumption.
    + injection Hr as <-. eapply Hsoc; eassumption.
Qed.

(** X20. When every request fails, each fetcher returns the empty list for
    every well-formed box. *)
Theorem fetch_when_network_is_down (bbox : string) :
  (forall url params, returns (get_json url params) = false) ->
  returns (parse_bbox bbox) = true ->
  fetch_buildings_bbox bbox = Ret (PList []) /\
  fetch_land_use_bbox bbox = Ret (PList []) /\
  fetch_assessments_bbox bbox = Ret (PList []).
Proof.
  intros Hdown Hbox.
  assert (Hget : forall url params, _safe_get url params = empty_collection).
  { intros url params. unfold _safe_get. specialize (Hdown url params).
    destruct (get_json url params); [discriminate | reflexivity]. }
  assert (Hsoc : forall id a b c d, socrata_geojson id a b c d = Ret empty_collection).
  { intros id a b c d. unfold socrata_geojson; cbv zeta.
    induction CANDIDATE_GEOMS as [|field t IH]; cbn [try_fields]; [reflexivity|].
    rewrite Hget. cbn [features_of empty_collection bind]. exact IH. }
  unfold fetch_buildings_bbox, fetch_land_use_bbox, fetch_assessments_bbox.
  destruct (parse_bbox bbox) as [[[[a b] c] d]|e]; [|discriminate]; cbn [bind].
  rewrite !Hsoc. cbn. auto.
Qed.

End WithHttp.

Lemma buildings_prefer_3d_sample :
  exists minLon minLat maxLon maxLat,
    parse_bbox "-114.0719,51.0455,-114.0630,51.0505" = Ret (minLon, minLat, maxLon, maxLat) /\
    (answers (H := Sample2.net_catalogue) buildings_3d minLon minLat maxLon maxLat
       (PList [Sample2.footprint (PInt 1) 4 4 6 6; Sample2.footprint PNone 40 40 60 60]) \/
     (silent (H := Sample2.net_catalogue) buildings_3d minLon minLat maxLon maxLat /\
      (answers (H := Sample2.net_catalogue) buildings_2d minLon minLat maxLon maxLat
         (PList [Sample2.footprint (PInt 1) 4 4 6 6; Sample2.footprint PNone 40 40 60 60]) \/
       (silent (H := Sample2.net_catalogue) buildings_2d minLon minLat maxLon maxLat /\
        PList [Sample2.footprint (PInt 1) 4 4 6 6; Sample2.footprint PNone 40 40 60 60]
          = PList [])))).
Proof.
  apply (buildings_prefer_3d (H := Sample2.net_catalogue)
           "-114.0719,51.0455,-114.0630,51.0505").
  vm_compute; reflexivity.
Defined.

Lemma fetch_failures_sample :
  ("AttributeError" = "ValueError" /\ returns (parse_bbox "0,0,1,1") = false) \/
  ("AttributeError" = "AttributeError" /\
   exists url params v,
     get_json (Http := Sample2.net_array) url params = Ret v /\ forall d, v <> PDict d).
Proof.
  apply (fetch_failures (H := Sample2.net_array) "0,0,1,1" "AttributeError").
  left; vm_compute; reflexivity.
Defined.

Lemma fetch_when_network_is_down_sample :
  fetch_buildings_bbox (H := Sample2.net_down) "0,0,1,1" = Ret (PList []) /\
  fetch_land_use_bbox (H := Sample2.net_down) "0,0,1,1" = Ret (PList []) /\
  fetch_assessments_bbox (H := Sample2.net_down) "0,0,1,1" = Ret (PList []).
Proof.
  apply (fetch_when_network_is_down (H := Sample2.net_down) "0,0,1,1").
  - reflexivity.
  - vm_compute; reflexivity.
Defined.

End FetchFacts.

(* ================================================================== *)
(** * The filter endpoint *)

Module ApiFacts.
Import Py Shapely Models DataFetch App Fetch Api PyFacts EnrichFacts UseFacts FetchFacts.
Local Open Scope list_scope.

Lemma ids_of_length (matched : list dict) :
  (List.length (ids_of matched) <= List.length matched)%nat.
Proof.
  unfold ids_of.
  etransitivity; [apply filter_length_le | now rewrite length_map].
Qed.

Lemma ids_of_not_none (matched : list dict) :
  Forall (fun v => v <> PNone) (ids_of matched).
Proof.
  apply Forall_forall; intros v Hv. unfold ids_of in Hv.
  apply filter_In in Hv as [_ Hv]. now destruct v.
Qed.

Lemma filter_length_mono {A : Type} (p q : A -> bool) (l : list A) :
  (forall x, p x = true -> q x = true) ->
  (List.length (filter p l) <= List.length (filter q l))%nat.
Proof.
  intros Hpq; induction l as [|x t IH]; cbn [filter]; [constructor|].
  destruct (p x) eqn:Ep.
  - rewrite (Hpq x Ep). cbn [List.length]. now apply le_n_S.
  - destruct (q x); cbn [List.length]; [now apply le_S | exact IH].
Qed.

Lemma apply_filters_cons (bs : list dict) (f : FilterSpec) (fs : list FilterSpec) :
  forall b, In b (apply_filters bs (f :: fs)) -> In b (apply_filters bs fs).
Proof.
  intros b Hb. unfold apply_filters in *.
  apply filter_In in Hb as [Hin Hb]. apply filter_In; split; [exact Hin|].
  cbn [forallb] in Hb. now apply andb_true_iff in Hb.
Qed.

Lemma apply_filters_excluded (bs : list dict) (fs : list FilterSpec) (f : FilterSpec) :
  In f fs -> Forall (fun b => ok b f = false) bs -> apply_filters bs fs = [].
Proof.
  intros Hin Hall. unfold apply_filters.
  induction Hall as [|b t Hb Ht IH]; cbn [filter]; [reflexivity|].
  destruct (forallb (ok b) fs) eqn:E; [|exact IH].
  rewrite forallb_forall in E. specialize (E f Hin). congruence.
Qed.

Lemma norm_each_Ret (norm : dict -> exn dict) (feats : pyval) (l : list dict) :
  norm_each norm feats = Ret l -> Forall (fun d => exists f, norm f = Ret d) l.
Proof.
  unfold norm_each.
  destruct (py_iter feats) as [fl|e]; cbn [bind]; [|discriminate].
  intros Hm. apply map_exn_Ret in Hm.
  induction Hm as [|f d t t' Hf Ht IH]; constructor; [|exact IH].
  destruct f; try discriminate. eauto.
Qed.

Section WithServices.
Context {L : Lib} {H : Http}.

(** The buildings of a request have no [use] key. *)
Lemma enriched_buildings_use (bbox : string) (bs : list dict) :
  enriched_buildings bbox = Ret bs -> Forall (fun b => dict_find b "use" = None) bs.
Proof.
  unfold enriched_buildings.
  destruct (fetch_buildings_bbox bbox) as [bf|e]; cbn [bind]; [|discriminate].
  destruct (norm_each norm_building bf) as [buildings|e] eqn:En; cbn [bind]; [|discriminate].
  destruct (fetch_land_use_bbox bbox) as [lf|e]; cbn [bind]; [|discriminate].
  destruct (norm_each norm_land_use lf) as [landuse|e]; cbn [bind]; [|discriminate].
  destruct (fetch_assessments_bbox bbox) as [af|e]; cbn [bind]; [|discriminate].
  destruct (norm_each norm_assess af) as [assessments|e]; cbn [bind]; [|discriminate].
  apply norm_each_Ret in En.
  unfold enrich_with_zoning_and_assessment.
  destruct (geoms_of landuse) as [gl|e]; cbn [bind]; [|discriminate].
  destruct (geoms_of assessments) as [ga|e]; cbn [bind]; [|discriminate].
  intros Hf. apply for_each_Ret in Hf.
  induction Hf as [|b b' t t' Hb Ht IH]; [constructor|].
  inversion En as [|? ? [f Hn] En']; subst.
  constructor; [|now apply IH].
  rewrite (enrich_one_use _ _ _ _ _ _ Hb).
  apply dict_find_not_key. rewrite (norm_building_keys _ _ Hn).
  cbn [In]. intros [E|[E|[E|[E|[E|[E|[E|[E|[]]]]]]]]]; discriminate E.
Qed.

(** X21. The object that the filter endpoint hands to [jsonify]. Whether
    the endpoint gets that far does not depend on the filters: it fails before
    exactly when fetching, normalizing or enriching the data of the box fails.
    The object echoes the filters, its count is the number of matching
    buildings, at most the number of buildings of the box and equal to it
    without filters, and its ids are never [None] and at most [count] many:
    matching buildings without an id are counted but not listed. Over the same
    answers of the datasets, one more filter never adds a building. *)
Theorem filter_endpoint_answer (bbox : string) :
  (forall fs,
      returns (filter_endpoint (mkFilterRequest bbox fs))
        = returns (enriched_buildings bbox)) /\
  (forall fs resp,
      filter_endpoint (mkFilterRequest bbox fs) = Ret resp ->
      filters resp = fs /\
      (List.length (ids resp) <= count resp)%nat /\
      Forall (fun v => v <> PNone) (ids resp) /\
      exists bs,
        enriched_buildings bbox = Ret bs /\
        count resp = List.length (apply_filters bs fs) /\
        (count resp <= List.length bs)%nat /\
        (fs = [] -> count resp = List.length bs)) /\
  (forall fs f r1 r2,
      filter_endpoint (mkFilterRequest bbox fs) = Ret r1 ->
      filter_endpoint (mkFilterRequest bbox (f :: fs)) = Ret r2 ->
      (count r2 <= count r1)%nat /\ incl (ids r2) (ids r1)).
Proof.
  unfold filter_endpoint; cbn [req_bbox req_filters].
  destruct (enriched_buildings bbox) as [bs|e]; cbn [bind].
  2:{ repeat split; intros; discriminate. }
  split; [reflexivity|]. split.
  - intros fs resp [= <-]; cbn [filters ids count].
    split; [reflexivity|]. split; [apply ids_of_length|].
    split; [apply ids_of_not_none|].
    exists bs. split; [reflexivity|]. split; [reflexivity|].
    split; [apply filter_length_le|].
    intros ->. unfold apply_filters; cbn [forallb].
    f_equal. induction bs as [|b t IH]; cbn [filter]; [reflexivity | now rewrite IH].
  - intros fs f r1 r2 [= <-] [= <-]; cbn [ids count]. split.
    + unfold apply_filters. apply filter_length_mono.
      intros b Hb; cbn [forallb] in Hb. now apply andb_true_iff in Hb.
    + intros v Hv. unfold ids_of in *.
      apply filter_In in Hv as [Hv Hn]. apply filter_In; split; [|exact Hn].
      apply in_map_iff in Hv as (b & <- & Hb).
      apply (in_map (fun m => dict_get m "id")).
      eapply apply_filters_cons; eassumption.
Qed.

(** X22. For a request that has a filter [use = v] with a non-empty [v],
    among any others, no building matches, whatever the datasets return: in
    the object handed to [jsonify] the count is 0 and the ids are empty. *)
Theorem filter_endpoint_use (req : FilterRequest) (v : string) (resp : FilterResponse) :
  filter_endpoint req = Ret resp ->
  In (mkFilterSpec "use" "=" (PStr v)) (req_filters req) ->
  v <> "" ->
  count resp = 0%nat /\ ids resp = [].
Proof.
  unfold filter_endpoint. intros Hr Hin Hv.
  destruct (enriched_buildings (req_bbox req)) as [bs|e] eqn:Eb; cbn [bind] in Hr;
    [|discriminate].
  injection Hr as <-; cbn [count ids].
  assert (E : apply_filters bs (req_filters req) = []).
  { apply (apply_filters_excluded _ _ _ Hin).
    eapply Forall_impl; [|exact (enriched_buildings_use _ _ Eb)].
    intros b Hb; now apply ok_use_absent. }
  rewrite E; split; reflexivity.
Qed.

End WithServices.

(** Two footprints, the second without an id and outside the zoning polygon:
    a filter on [use] beside one that both satisfy. *)
Lemma filter_endpoint_use_sample :
  count (mkFilterResponse [] 0
           [mkFilterSpec "levels" ">" (PInt 1); mkFilterSpec "use" "=" (PStr "commercial")])
    = 0%nat /\
  ids (mkFilterResponse [] 0
         [mkFilterSpec "levels" ">" (PInt 1); mkFilterSpec "use" "=" (PStr "commercial")])
    = [].
Proof.
  apply (filter_endpoint_use (L := Sample.box_lib) (H := Sample2.net_catalogue)
           (mkFilterRequest "0,0,1,1"
              [mkFilterSpec "levels" ">" (PInt 1);
               mkFilterSpec "use" "=" (PStr "commercial")])
           "commercial").
  - vm_compute; reflexivity.
  - right; left; reflexivity.
  - discriminate.
Defined.

End ApiFacts.
